(** * Announcement pipeline of the Archdiocese of Lipa API

    A shallow embedding of the announcement service
    ([services/announcementService.js]) and of the HTTP handlers of
    [routes/announcementRoutes.js], with the properties of the creation
    pipeline, the notification fan-out and the listing endpoint.

    The three managed services the code talks to (object storage, the
    relational data store and the email client) are external: the tables
    and the logs of calls are components of an explicit [World], and what
    the services answer is read from an [Env] of oracles, so that every
    statement holds whatever the services answer. *)

From stdpp Require Import base option list sorting strings pretty gmap.
From Stdlib Require Import ZArith Lia Ascii.

(** ** JavaScript values and objects *)

(** The values that flow through the pipeline.  The two function
    constructors are the [arrayBuffer] and [stream] closures that the
    routes attach to a file object; each captures the multer buffer. *)
Inductive JsVal : Type :=
  | JUndefined
  | JStr (s : string)
  | JNum (n : Z)
  | JBuffer (bytes : list Byte.byte)
  | JArrayBufferFn (captured : list Byte.byte)
  | JStreamFn (captured : list Byte.byte).

(** A plain object used as a record with string keys. *)
Abbreviation JsObject := (gmap string JsVal).

(** [o.k]: a missing property reads as [undefined]. *)
Definition get (o : JsObject) (k : string) : JsVal :=
  default JUndefined (o !! k).

(** A thrown value; only its [message] is ever read. *)
Record JsError : Type := mkError { message : string }.

(** ** Strings *)

(** [s.split(sep)] for a one-character separator. *)
Fixpoint split (sep : ascii) (s : string) : list string :=
  match s with
  | EmptyString => [EmptyString]
  | String c rest =>
      if Ascii.eqb c sep then EmptyString :: split sep rest
      else match split sep rest with
           | piece :: pieces => String c piece :: pieces
           | [] => [String c EmptyString]
           end
  end.

(** Rendering of an array element inside a template literal: a missing
    element is [undefined]. *)
Definition template_elem (x : option string) : string :=
  default "undefined" x.

(** [s.startsWith(p)]. *)
Definition startsWith (p s : string) : bool := String.prefix p s.

(** The double quote, for the markup of the email. *)
Definition dq : string := String (Ascii.ascii_of_nat 34) EmptyString.

(** ** Tables of the data store *)

Module Announcement.
(** The object passed to [insert] by [createAnnouncements]. *)
Record payload : Type := mkPayload {
  title : string;
  content : string;
  visibility : string;
  group_id : option string;   (* [None] is SQL/JS [null] *)
  user_id : string
}.
(** A stored row: the payload and the columns the store fills in. *)
Record row : Type := mkRow {
  id : Z;
  created_at : Z;
  cols : payload
}.
End Announcement.

Module AnnouncementFile.
Record row : Type := mkRow {
  announcement_id : Z;
  url : string;
  name : string;
  type : JsVal
}.
End AnnouncementFile.

Module User.
Record row : Type := mkRow {
  id : string;
  name : string;
  email : string;
  email_notifications_enabled : bool
}.
End User.

Module GroupMember.
Record row : Type := mkRow {
  user_id : string;
  group_id : string
}.
End GroupMember.

(** An element of [fileData]: what an upload leaves for the file row. *)
Record FileDatum : Type := mkFileDatum {
  fd_url : string;
  fd_name : string;
  fd_type : JsVal
}.

(** The argument of [resend.emails.send]. *)
Record Email : Type := mkEmail {
  from : string;
  to : string;
  subject : string;
  html : string
}.

(** ** Answers of the external services *)

(** [{ data, error }] of a storage upload, or a rejected promise. *)
Inductive UploadResponse : Type :=
  | UploadOk (path : string)
  | UploadError (e : JsError)
  | UploadRejected (e : JsError).

(** What [resend.emails.send] gives: the promise resolves with
    [{ data }], resolves with [{ data: null, error }], or rejects. *)
Inductive SendResponse : Type :=
  | SendOk
  | SendError (e : JsError)
  | SendRejected (e : JsError).

(** [{ data, error }] of [insert(...).select("id").single()]. *)
Inductive InsertResponse : Type :=
  | InsertOk (id created_at : Z)
  | InsertError (e : JsError).

(** [{ data, error }] of a query. *)
Inductive DbResult (A : Type) : Type :=
  | DbOk (data : A)
  | DbErr (error : JsError).
Arguments DbOk {A} data.
Arguments DbErr {A} error.

(** Every interaction with the outside, in the order it is issued. *)
Inductive Event : Type :=
  | EvDateNow (ms : Z)
  | EvUpload (path : string) (body contentType : JsVal) (resp : UploadResponse)
  | EvInsertAnnouncement (p : Announcement.payload) (resp : InsertResponse)
  | EvInsertFile (r : AnnouncementFile.row) (resp : option JsError)
  | EvSelect (table : string) (resp : option JsError)
  | EvSend (m : Email) (resp : SendResponse)
  | EvConsoleError (label detail : string)
  | EvConsoleLog (text : string).

(** The state the handlers act on: the four tables and the history of
    interactions. *)
Record World : Type := mkWorld {
  announcement : list Announcement.row;
  announcement_files : list AnnouncementFile.row;
  users : list User.row;
  group_members : list GroupMember.row;
  trace : list Event
}.

(** What the services answer.  Each oracle is indexed by the number of
    interactions issued so far, so that two identical calls may be
    answered differently.  [arrival] gives, for the batch of concurrent
    operations started at an index, the order in which they complete. *)
Record Env : Type := mkEnv {
  date_now : nat -> Z;
  storage_upload : nat -> string -> JsVal -> JsVal -> UploadResponse;
  db_insert_announcement : nat -> Announcement.payload -> InsertResponse;
  db_insert_file : nat -> AnnouncementFile.row -> option JsError;
  db_select : nat -> string -> option JsError;
  getPublicUrl : string -> string;
  resend_send : nat -> Email -> SendResponse;
  arrival : nat -> list nat
}.

(** ** The monad of the handlers: state and exceptions *)

Inductive Completion (A : Type) : Type :=
  | Returned (a : A)
  | Thrown (e : JsError).
Arguments Returned {A} a.
Arguments Thrown {A} e.

Definition Js (A : Type) : Type := World -> Completion A * World.

#[export] Instance Js_ret : MRet Js := fun A a w => (Returned a, w).

#[export] Instance Js_bind : MBind Js := fun A B k m w =>
  match m w with
  | (Returned a, w1) => k a w1
  | (Thrown e, w1) => (Thrown e, w1)
  end.

Definition throw {A} (e : JsError) : Js A := fun w => (Thrown e, w).

(** [try { body } catch (e) { handler e }]. *)
Definition try_catch {A} (body : Js A) (handler : JsError -> Js A) : Js A :=
  fun w =>
    match body w with
    | (Returned a, w1) => (Returned a, w1)
    | (Thrown e, w1) => handler e w1
    end.

Definition emit (ev : Event) (w : World) : World :=
  mkWorld (announcement w) (announcement_files w) (users w)
          (group_members w) (trace w ++ [ev]).

(** The index of the next interaction. *)
Definition clock (w : World) : nat := length (trace w).

Definition console_error (label detail : string) : Js unit :=
  fun w => (Returned tt, emit (EvConsoleError label detail) w).

Definition console_log (text : string) : Js unit :=
  fun w => (Returned tt, emit (EvConsoleLog text) w).

(** ** Batches of concurrent operations

    [await Promise.all(l.map(async (x) => { ... await call ... }))]: every
    callback runs up to its [await] while [map] walks the list, so all the
    calls are issued, in list order, before any of them completes.  The
    continuations after the [await] then run in the order in which the
    answers arrive. *)

(** The order in which [n] pending operations complete under the schedule
    [sched]: the indices named by the schedule first, then the others. *)
Definition arrival_order (sched : list nat) (n : nat) : list nat :=
  let named := remove_dups (filter (fun i => i < n) sched) in
  named ++ list_difference (seq 0 n) named.

Definition in_arrival_order {A} (sched : list nat) (l : list A) : list A :=
  omap (fun i => l !! i) (arrival_order sched (length l)).

Definition rejections {A} (cs : list (Completion A)) : list JsError :=
  omap (fun c => match c with Thrown e => Some e | Returned _ => None end) cs.

Definition results {A} (cs : list (Completion A)) : list A :=
  omap (fun c => match c with Returned a => Some a | Thrown _ => None end) cs.

(** Runs the part of each callback that precedes its [await]; a callback
    that throws there is rejected, the others leave their continuation. *)
Fixpoint start_all {A B} (f : A -> Js (Js B)) (l : list A) (w : World)
  : list (Completion (Js B)) * World :=
  match l with
  | [] => ([], w)
  | x :: rest =>
      let '(c, w1) := f x w in
      let '(cs, w2) := start_all f rest w1 in
      (c :: cs, w2)
  end.

(** Runs the continuations, each to its end. *)
Fixpoint finish_all {B} (ks : list (Js B)) (w : World)
  : list (Completion B) * World :=
  match ks with
  | [] => ([], w)
  | k :: rest =>
      let '(c, w1) := k w in
      let '(cs, w2) := finish_all rest w1 in
      (c :: cs, w2)
  end.

Section Service.

Variable env : Env.

(** The batch throws the first rejection: one raised before an [await]
    precedes every answer.  Otherwise it yields what the callbacks left
    behind, in the order in which they finished.  Continuations that
    finish after a rejection still run; what they log is recorded with
    the batch. *)
Definition promise_all {A B} (f : A -> Js (Js B)) (l : list A)
  : Js (list B) :=
  fun w =>
    let sched := arrival env (clock w) in
    let '(started, w1) := start_all f l w in
    let '(finished, w2) :=
      finish_all (in_arrival_order sched (results started)) w1 in
    match (rejections started ++ rejections finished)%list with
    | e :: _ => (Thrown e, w2)
    | [] => (Returned (results finished), w2)
    end.

(** *** External calls *)

Definition Date_now : Js Z :=
  fun w =>
    let ms := date_now env (clock w) in
    (Returned ms, emit (EvDateNow ms) w).

(** [supabase.storage.from("Uroboros").upload(path, body, {contentType})]. *)
Definition upload (path : string) (body contentType : JsVal)
  : Js UploadResponse :=
  fun w =>
    let r := storage_upload env (clock w) path body contentType in
    (Returned r, emit (EvUpload path body contentType r) w).

(** [supabase.from("announcement").insert([p]).select("id").single()]. *)
Definition insert_announcement (p : Announcement.payload)
  : Js InsertResponse :=
  fun w =>
    let r := db_insert_announcement env (clock w) p in
    let w1 := emit (EvInsertAnnouncement p r) w in
    match r with
    | InsertOk i ts =>
        (Returned r,
         mkWorld (announcement w1 ++ [Announcement.mkRow i ts p])
                 (announcement_files w1) (users w1) (group_members w1)
                 (trace w1))
    | InsertError _ => (Returned r, w1)
    end.

(** [supabase.from("announcement_files").insert([r])]. *)
Definition insert_announcement_file (r : AnnouncementFile.row)
  : Js (option JsError) :=
  fun w =>
    let resp := db_insert_file env (clock w) r in
    let w1 := emit (EvInsertFile r resp) w in
    match resp with
    | None =>
        (Returned resp,
         mkWorld (announcement w1) (announcement_files w1 ++ [r])
                 (users w1) (group_members w1) (trace w1))
    | Some _ => (Returned resp, w1)
    end.

(** A query on [table]: the store answers with the rows that [rows]
    selects from its tables, or with an error. *)
Definition select {A} (table : string) (rows : World -> list A)
  : Js (DbResult (list A)) :=
  fun w =>
    let r := db_select env (clock w) table in
    (Returned (match r with Some e => DbErr e | None => DbOk (rows w) end),
     emit (EvSelect table r) w).

(** [.single()]: exactly one row, or an error. *)
Definition single {A} (r : DbResult (list A)) : DbResult A :=
  match r with
  | DbErr e => DbErr e
  | DbOk [x] => DbOk x
  | DbOk _ =>
      DbErr (mkError "JSON object requested, multiple (or no) rows returned")
  end.

(** [resend.emails.send(m)], with what the promise gives. *)
Definition emails_send (m : Email) : Js SendResponse :=
  fun w =>
    let r := resend_send env (clock w) m in
    (Returned r, emit (EvSend m r) w).

End Service.

(** ** The announcement service *)

(** [data] of [createAnnouncements]: the two text fields and the file
    objects. *)
Record Data : Type := mkData {
  title : string;
  content : string;
  files : list JsObject
}.

(** The group a [groupId] designates when it is truthy: [null] and the
    empty string are falsy. *)
Definition truthy (groupId : option string) : option string :=
  match groupId with
  | Some g => if decide (g = "") then None else Some g
  | None => None
  end.

(** [v.split(".")[i]], for the value [v] of [file.originalname]. *)
Definition split_dot (v : JsVal) (i : nat) : Js (option string) :=
  match v with
  | JStr s => mret (split "." s !! i)
  | JUndefined =>
      throw (mkError "Cannot read properties of undefined (reading 'split')")
  | _ => throw (mkError "file.originalname.split is not a function")
  end.

(** The storage path of a file name. *)
Definition storage_path (fileName : string) : string :=
  "announcement/" +:+ fileName +:+ ".png".

(** The object inserted into [announcement]. *)
Definition announcement_payload (data : Data) (userId : string)
    (groupId : option string) : Announcement.payload :=
  {| Announcement.title := title data;
     Announcement.content := content data;
     Announcement.visibility :=
       if truthy groupId is Some _ then "private" else "public";
     Announcement.group_id := groupId;      (* groupId ?? null *)
     Announcement.user_id := userId |}.

(** The query on [users] that resolves the audience. *)
Record UsersQuery : Type := mkUsersQuery {
  eq_email_notifications_enabled : bool;
  in_id : option (list string)
}.

(** What the store answers to it: [select("email")] of the rows that pass
    the filters, in table order. *)
Definition run_users_query (q : UsersQuery) (w : World) : list string :=
  let enabled := eq_email_notifications_enabled q in
  User.email <$>
    match in_id q with
    | Some ids =>
        filter (fun u => User.email_notifications_enabled u = enabled
                         /\ User.id u ∈ ids)
               (users w)
    | None =>
        filter (fun u => User.email_notifications_enabled u = enabled)
               (users w)
    end.

(** [select("user_id").eq("group_id", g)] on [group_members]. *)
Definition run_members_query (g : string) (w : World) : list string :=
  GroupMember.user_id <$>
    filter (fun m => GroupMember.group_id m = g) (group_members w).

Definition nl : string := String (Ascii.ascii_of_nat 10) EmptyString.

(** [file.type.startsWith("image/")]. *)
Definition is_image (f : FileDatum) : Completion bool :=
  match fd_type f with
  | JStr s => Returned (startsWith "image/" s)
  | JUndefined =>
      Thrown
        (mkError "Cannot read properties of undefined (reading 'startsWith')")
  | _ => Thrown (mkError "file.type.startsWith is not a function")
  end.

(** [files.filter((file) => file.type.startsWith("image/"))]. *)
Fixpoint image_files (l : list FileDatum) : Completion (list FileDatum) :=
  match l with
  | [] => Returned []
  | f :: rest =>
      match is_image f with
      | Thrown e => Thrown e
      | Returned b =>
          match image_files rest with
          | Thrown e => Thrown e
          | Returned keep => Returned (if b then f :: keep else keep)
          end
      end
  end.

Section AnnouncementService.

Variable env : Env.

Definition img_tag (f : FileDatum) : string :=
  "<img src=" +:+ dq +:+ getPublicUrl env (fd_url f) +:+ dq
  +:+ " alt=" +:+ dq +:+ fd_name f +:+ dq
  +:+ " style=" +:+ dq
  +:+ "max-width: 100%; margin-bottom: 10px; border-radius: 4px;"
  +:+ dq +:+ ">".

Definition images_html (imageFiles : list FileDatum) : string :=
  match imageFiles with
  | [] => ""
  | _ =>
      "<div style=" +:+ dq +:+ "margin-top: 20px;" +:+ dq +:+ ">"
      +:+ foldr (fun f acc => img_tag f +:+ acc) "" imageFiles
      +:+ "</div>"
  end.

Definition createEmailHtml (title content : string)
    (files : list FileDatum) : Completion string :=
  match image_files files with
  | Thrown e => Thrown e
  | Returned imageFiles =>
      Returned
        (nl +:+ "    <div style=" +:+ dq
         +:+ "font-family: Arial, sans-serif; max-width: 600px; margin: 0 auto; padding: 20px;"
         +:+ dq +:+ ">" +:+ nl
         +:+ "      <h1 style=" +:+ dq
         +:+ "color: #333; margin-bottom: 20px;" +:+ dq +:+ ">"
         +:+ title +:+ "</h1>" +:+ nl
         +:+ "      <div style=" +:+ dq
         +:+ "color: #555; line-height: 1.6;" +:+ dq +:+ ">" +:+ nl
         +:+ "        " +:+ content +:+ nl
         +:+ "      </div>" +:+ nl
         +:+ "      " +:+ images_html imageFiles +:+ nl
         +:+ "      <p style=" +:+ dq
         +:+ "margin-top: 30px; font-size: 12px; color: #777; border-top: 1px solid #eee; padding-top: 15px;"
         +:+ dq +:+ ">" +:+ nl
         +:+ "        This is an automated message from the Archdiocese of Lipa."
         +:+ nl
         +:+ "      </p>" +:+ nl
         +:+ "    </div>" +:+ nl
         +:+ "  ")
  end.

Definition sender : string :=
  "On behalf of the Archdiocese of Lipa <archdioceseoflipa@togather.app>".

(** The callback of the send batch: the call, then what follows the
    [await] inside the [try]/[catch].  The value the promise resolves
    with is not looked at: only a rejection reaches the [catch]. *)
Definition after_send (email : string) (resp : SendResponse) : Js unit :=
  match resp with
  | SendOk | SendError _ => console_log ("Email sent to " +:+ email)
  | SendRejected e =>
      console_error ("Failed to send email to " +:+ email +:+ ":")
                    (message e)
  end.

Definition send_one (title htmlContent : string) (email : string)
  : Js (Js unit) :=
  resp ← emails_send env (mkEmail sender email title htmlContent);
  mret (after_send email resp).

(** The part of [sendAnnouncementEmailToUsers] from [await query] on. *)
Definition notify_users (title content : string) (files : list FileDatum)
    (query : UsersQuery) : Js unit :=
  r ← select env "users" (run_users_query query);
  match r with
  | DbErr e =>
      console_error "Error fetching users for email notifications:"
                    (message e)
  | DbOk [] => console_log "No users to notify"
  | DbOk recipients =>
      match createEmailHtml title content files with
      | Thrown e => throw e
      | Returned htmlContent =>
          _ ← promise_all env (send_one title htmlContent) recipients;
          mret tt
      end
  end.

Definition sendAnnouncementEmailToUsers (title content : string)
    (files : list FileDatum) (groupId : option string) : Js unit :=
  let query := mkUsersQuery true None in
  match truthy groupId with
  | Some g =>
      r ← select env "group_members" (run_members_query g);
      match r with
      | DbErr e => console_error "Error fetching group members:" (message e)
      | DbOk [] => mret tt
      | DbOk memberIds =>
          notify_users title content files (mkUsersQuery true (Some memberIds))
      end
  | None => notify_users title content files query
  end.

(** The callback of the upload batch: up to the [await], and after it. *)
Definition after_upload (fileName : string) (mimetype : JsVal)
    (resp : UploadResponse) : Js FileDatum :=
  match resp with
  | UploadRejected e => throw e
  | UploadError e => throw (mkError ("Error uploading file: " +:+ message e))
  | UploadOk path => mret (mkFileDatum path fileName mimetype)
  end.

Definition upload_file (file : JsObject) : Js (Js FileDatum) :=
  base ← split_dot (get file "originalname") 0;
  now ← Date_now env;
  let fileName := template_elem base +:+ "-" +:+ pretty now in
  fileExt ← split_dot (get file "originalname") 1;
  resp ← upload env (storage_path fileName) (get file "buffer")
                (get file "mimetype");
  mret (after_upload fileName (get file "mimetype") resp).

(** The callback of the file-row batch. *)
Definition after_insert_file (insertError : option JsError) : Js unit :=
  match insertError with
  | Some e =>
      _ ← console_error "Error inserting into announcement_files:"
                        (message e);
      throw e
  | None => mret tt
  end.

Definition insert_file (announcementId : Z) (file : FileDatum)
  : Js (Js unit) :=
  insertError ←
    insert_announcement_file env
      (AnnouncementFile.mkRow announcementId (fd_url file) (fd_name file)
                              (fd_type file));
  mret (after_insert_file insertError).

(** The [try]/[catch] around the notification: whatever it throws is
    logged and dropped. *)
Definition notify (data : Data) (fileData : list FileDatum)
    (groupId : option string) : Js unit :=
  try_catch
    (sendAnnouncementEmailToUsers (title data) (content data)
                                  fileData groupId)
    (fun emailError =>
       console_error "Error sending announcement emails:"
                     (message emailError)).

(** [createAnnouncements({ data, userId, groupId })]; the result is
    [fetchData.id]. *)
Definition createAnnouncements (data : Data) (userId : string)
    (groupId : option string) : Js Z :=
  fileData ←
    (match files data with
     | [] => mret []
     | _ => promise_all env upload_file (files data)
     end);
  r ← insert_announcement env (announcement_payload data userId groupId);
  match r with
  | InsertError e =>
      _ ← console_error "Error inserting announcement:" (message e);
      throw e
  | InsertOk fetched _ =>
      _ ← (match fileData with
           | [] => mret []
           | _ => promise_all env (insert_file fetched) fileData
           end);
      _ ← notify data fileData groupId;
      mret fetched
  end.

End AnnouncementService.

(** ** The HTTP handlers *)

(** A file as multer's memory storage leaves it in [req.files]. *)
Record MulterFile : Type := mkMulterFile {
  originalname : string;
  mimetype : string;
  size : Z;
  buffer : list Byte.byte
}.

(** A request as it reaches a handler, after the authentication and the
    multipart middleware. *)
Record Request : Type := mkRequest {
  body_title : string;
  body_content : string;
  body_groupId : option string;        (* [None]: the field is absent *)
  params_groupId : string;
  user_id : string;                    (* [req.user.id] *)
  req_files : option (list MulterFile) (* [None]: [req.files] is unset *)
}.

Module Joined.
(** A row of the listing: the announcement's own columns, its file
    rows, and the name and email of its author. *)
Record row : Type := mkRow {
  announcement : Announcement.row;
  announcement_files : list AnnouncementFile.row;
  users : option (string * string)
}.
End Joined.

Inductive ResponseData : Type :=
  | Created (id : Z)
  | Listing (rows : list Joined.row).

Module Response.
(** The status and the JSON envelope of a response. *)
Record json : Type := mkJson {
  status : nat;
  success : bool;
  data : option ResponseData;
  message : option string;
  error : option string
}.
End Response.

(** The file object the routes build from a multer file. *)
Definition file_object (file : MulterFile) : JsObject :=
  let fileObj : JsObject :=
    {[ "name" := JStr (originalname file);
       "type" := JStr (mimetype file);
       "size" := JNum (size file) ]} in
  let fileObj := <["arrayBuffer" := JArrayBufferFn (buffer file)]> fileObj in
  <["stream" := JStreamFn (buffer file)]> fileObj.

Definition process_files (reqFiles : option (list MulterFile))
  : list JsObject :=
  match reqFiles with
  | Some l => file_object <$> l
  | None => []
  end.

(** The rows of [group_members] with [user_id] u and [group_id] g. *)
Definition run_membership_query (u g : string) (w : World)
  : list GroupMember.row :=
  filter (fun m => GroupMember.user_id m = u /\ GroupMember.group_id m = g)
         (group_members w).

(** [order("created_at", { ascending: false })]. *)
Definition newest_first (a b : Announcement.row) : Prop :=
  (Announcement.created_at b <= Announcement.created_at a)%Z.

#[export] Instance newest_first_dec : RelDecision newest_first :=
  fun a b =>
    decide (Announcement.created_at b <= Announcement.created_at a)%Z.

Definition join (w : World) (a : Announcement.row) : Joined.row :=
  {| Joined.announcement := a;
     Joined.announcement_files :=
       filter (fun f => AnnouncementFile.announcement_id f = Announcement.id a)
              (announcement_files w);
     Joined.users :=
       (fun u => (User.name u, User.email u)) <$>
         head (filter (fun u => User.id u
                                = Announcement.user_id (Announcement.cols a))
                      (users w)) |}.

(** The query of the listing, as the store evaluates it. *)
Definition run_listing_query (w : World) : list Joined.row :=
  join w <$>
    merge_sort newest_first
      (filter (fun a => Announcement.visibility (Announcement.cols a)
                        = "public")
              (announcement w)).

Section Routes.

Variable env : Env.

(** [POST /api/announcements]. *)
Definition post_announcement (req : Request) : Js Response.json :=
  try_catch
    (let groupId := truthy (body_groupId req) in (* req.body.groupId || null *)
     let userId := user_id req in
     let files := process_files (req_files req) in
     let data := mkData (body_title req) (body_content req) files in
     announcement ← createAnnouncements env data userId groupId;
     mret (Response.mkJson 201 true (Some (Created announcement))
             (Some "Announcement created successfully") None))
    (fun error =>
       _ ← console_error "Error creating announcement:" (message error);
       mret (Response.mkJson 500 false None
               (Some "Failed to create announcement")
               (Some (message error)))).

(** [POST /api/announcements/group/:groupId]. *)
Definition post_group_announcement (req : Request) : Js Response.json :=
  try_catch
    (let groupId := params_groupId req in
     let userId := user_id req in
     r ← select env "group_members" (run_membership_query userId groupId);
     match single r with
     | DbErr _ =>
         mret (Response.mkJson 403 false None
                 (Some "You do not have permission to post announcements in this group")
                 None)
     | DbOk membership =>
         let files := process_files (req_files req) in
         let data := mkData (body_title req) (body_content req) files in
         announcement ←
           createAnnouncements env data userId (Some groupId);
         mret (Response.mkJson 201 true (Some (Created announcement))
                 (Some "Group announcement created successfully") None)
     end)
    (fun error =>
       _ ← console_error "Error creating group announcement:"
                         (message error);
       mret (Response.mkJson 500 false None
               (Some "Failed to create group announcement")
               (Some (message error)))).

(** [GET /api/announcements]. *)
Definition get_announcements : Js Response.json :=
  try_catch
    (r ← select env "announcement" run_listing_query;
     match r with
     | DbErr e => throw e
     | DbOk announcements =>
         mret (Response.mkJson 200 true (Some (Listing announcements))
                 None None)
     end)
    (fun error =>
       _ ← console_error "Error fetching announcements:" (message error);
       mret (Response.mkJson 500 false None
               (Some "Failed to fetch announcements")
               (Some (message error)))).

End Routes.
(** ** The server: the CORS headers middleware ([server.js]) *)

(** The response object as the middleware uses it: the headers set so
    far, the status, and whether the response was ended. *)
Record ServerResponse : Type := mkServerResponse {
  res_headers : gmap string string;
  res_status : option nat;
  res_ended : bool
}.

(** What the middleware does last: it ends the response or calls
    [next()]. *)
Inductive Flow : Type := Ended | Next.

(** [corsOptions.origin], for the value of [process.env.FRONTEND_URL]
    ([None] when the variable is unset, so that the entry is
    [undefined]). *)
Definition corsOptions_origin (FRONTEND_URL : option string)
  : list (option string) :=
  [Some "https://localhost:5173"; FRONTEND_URL].

(** [res.setHeader(name, value)]; Node rejects the value [undefined]. *)
Definition setHeader (name : string) (value : option string)
    (res : ServerResponse) : Completion ServerResponse :=
  match value with
  | Some v =>
      Returned (mkServerResponse (<[name := v]> (res_headers res))
                                 (res_status res) (res_ended res))
  | None =>
      Thrown (mkError ("Invalid value " +:+ dq +:+ "undefined" +:+ dq
                       +:+ " for header " +:+ dq +:+ name +:+ dq))
  end.

(** The second middleware of [server.js]; [origin] is
    [req.headers.origin] ([None] when the header is absent) and [method]
    is [req.method]. *)
Definition cors_headers (FRONTEND_URL origin : option string)
    (method : string) (res : ServerResponse)
  : Completion (ServerResponse * Flow) :=
  match (if bool_decide (origin ∈ corsOptions_origin FRONTEND_URL)
         then setHeader "Access-Control-Allow-Origin" origin res
         else Returned res) with
  | Thrown e => Thrown e
  | Returned res =>
      match setHeader "Access-Control-Allow-Methods"
                      (Some "GET, POST, PUT, DELETE, OPTIONS") res with
      | Thrown e => Thrown e
      | Returned res =>
          match setHeader "Access-Control-Allow-Headers"
                          (Some "Content-Type, Authorization") res with
          | Thrown e => Thrown e
          | Returned res =>
              match setHeader "Access-Control-Allow-Credentials"
                              (Some "true") res with
              | Thrown e => Thrown e
              | Returned res =>
                  if decide (method = "OPTIONS")
                  then Returned (mkServerResponse (res_headers res)
                                                  (Some 200) true, Ended)
                  else Returned (res, Next)
              end
          end
      end
  end.

(** ** What a run adds to the world *)

(** The rows and the interactions a computation adds. *)
Record Delta : Type := mkDelta {
  new_announcements : list Announcement.row;
  new_files : list AnnouncementFile.row;
  new_events : list Event
}.

Definition extend (d : Delta) (w : World) : World :=
  mkWorld (announcement w ++ new_announcements d)
          (announcement_files w ++ new_files d)
          (users w) (group_members w)
          (trace w ++ new_events d).

Definition delta_app (d1 d2 : Delta) : Delta :=
  mkDelta (new_announcements d1 ++ new_announcements d2)
          (new_files d1 ++ new_files d2)
          (new_events d1 ++ new_events d2).

(** A delta of interactions only. *)
Definition events (evs : list Event) : Delta := mkDelta [] [] evs.

(** The interactions of a run from [w] to [w']. *)
Definition events_since (w w' : World) : list Event :=
  drop (length (trace w)) (trace w').

(** A continuation that, whatever the world, completes with [c] after
    adding the interactions [evs]. *)
Definition scripted {B} (k : Js B) (c : Completion B) (evs : list Event)
  : Prop :=
  forall w, k w = (c, extend (events evs) w).

(** A callback of a batch, as its run is described: what it adds before
    its [await], and either the error it throws there or the script of its
    continuation. *)
Record Task (B : Type) : Type := mkTask {
  task_delta : Delta;
  task_outcome : Completion (Completion B * list Event)
}.
Arguments mkTask {B} _ _.
Arguments task_delta {B} _.
Arguments task_outcome {B} _.

Definition batch_delta {B} (sched : list nat) (tasks : list (Task B))
  : Delta :=
  let arrived :=
    in_arrival_order sched (results (task_outcome <$> tasks)) in
  delta_app (foldr delta_app (events []) (task_delta <$> tasks))
            (events (concat (snd <$> arrived))).

Definition batch_result {B} (sched : list nat) (tasks : list (Task B))
  : Completion (list B) :=
  let arrived :=
    in_arrival_order sched (results (task_outcome <$> tasks)) in
  match (rejections (task_outcome <$> tasks)
         ++ rejections (fst <$> arrived))%list with
  | e :: _ => Thrown e
  | [] => Returned (results (fst <$> arrived))
  end.

(** How a started callback relates to its description. *)
Definition started_as {B} (c : Completion (Js B)) (t : Task B) : Prop :=
  match task_outcome t, c with
  | Thrown e, Thrown e' => e = e'
  | Returned (c', evs), Returned k => scripted k c' evs
  | _, _ => False
  end.

(** A task that rejects, before or after its [await]. *)
Definition task_fails {B} (t : Task B) : Prop :=
  match task_outcome t with
  | Thrown _ => True
  | Returned (Thrown _, _) => True
  | Returned (Returned _, _) => False
  end.

(** ** Kinds of interactions, and the upload stage *)

Definition upload_failed (ev : Event) : bool :=
  match ev with
  | EvUpload _ _ _ (UploadError _) | EvUpload _ _ _ (UploadRejected _) => true
  | _ => false
  end.

Definition insert_failed (ev : Event) : bool :=
  match ev with
  | EvInsertAnnouncement _ (InsertError _) | EvInsertFile _ (Some _) => true
  | _ => false
  end.

Definition select_failed (ev : Event) : bool :=
  match ev with
  | EvSelect _ (Some _) => true
  | _ => false
  end.

(** The emails of the send attempts among some interactions, in order. *)
Definition sends (evs : list Event) : list Email :=
  omap (fun ev => match ev with EvSend m _ => Some m | _ => None end) evs.

(** The inserts among some interactions. *)
Definition is_insert (ev : Event) : bool :=
  match ev with
  | EvInsertAnnouncement _ _ | EvInsertFile _ _ => true
  | _ => false
  end.

Definition is_upload (ev : Event) : bool :=
  match ev with
  | EvUpload _ _ _ _ => true
  | _ => false
  end.

(** [file] is a file with a name, as multer delivers them. *)
Definition named (file : JsObject) : Prop :=
  exists s, get file "originalname" = JStr s.

(** What the upload stage may issue for the files [files]: readings of the
    clock, and uploads under the key derived from a file's name. *)
Definition upload_event (env : Env) (files : list JsObject) (ev : Event)
  : Prop :=
  match ev with
  | EvDateNow _ => True
  | EvUpload path body contentType _ =>
      exists (file : JsObject) (s : string) (k : nat),
        file ∈ files
        /\ get file "originalname" = JStr s
        /\ path = storage_path
                    (template_elem (split "." s !! 0) +:+ "-"
                     +:+ pretty (date_now env k))
        /\ body = get file "buffer"
        /\ contentType = get file "mimetype"
  | _ => False
  end.

(** The completion of the upload callback after its [await]. *)
Definition upload_outcome (fileName : string) (mimetype : JsVal)
    (resp : UploadResponse) : Completion FileDatum :=
  match resp with
  | UploadRejected e => Thrown e
  | UploadError e => Thrown (mkError ("Error uploading file: " +:+ message e))
  | UploadOk path => Returned (mkFileDatum path fileName mimetype)
  end.

(** The description of the upload callback on [file]. *)
Definition upload_task (env : Env) (file : JsObject) (t : Task FileDatum)
  : Prop :=
  match get file "originalname" with
  | JStr s =>
      exists (k : nat) (resp : UploadResponse),
        let ms := date_now env k in
        let fileName :=
          template_elem (split "." s !! 0) +:+ "-" +:+ pretty ms in
        t = mkTask
              (events [EvDateNow ms;
                       EvUpload (storage_path fileName) (get file "buffer")
                                (get file "mimetype") resp])
              (Returned (upload_outcome fileName (get file "mimetype") resp,
                         []))
  | _ => exists e, t = mkTask (events []) (Thrown e)
  end.

(** What the upload stage of [createAnnouncements] does. *)
Definition upload_stage_facts (env : Env) (files : list JsObject)
    (r : Completion (list FileDatum)) (d : Delta) : Prop :=
  new_announcements d = []
  /\ new_files d = []
  /\ Forall (upload_event env files) (new_events d)
  /\ (Exists upload_failed (new_events d) -> exists e, r = Thrown e)
  /\ (Forall named files ->
      Forall (fun ev => ~ upload_failed ev) (new_events d) ->
      exists fileData, r = Returned fileData
                       /\ length fileData = length files)
  /\ (Exists (fun f => ~ named f) files -> exists e, r = Thrown e)
  /\ (Forall (fun f => ~ named f) files -> new_events d = []).

(** ** Describing the file-row stage *)

Definition file_row (announcementId : Z) (file : FileDatum)
  : AnnouncementFile.row :=
  AnnouncementFile.mkRow announcementId (fd_url file) (fd_name file)
                         (fd_type file).

(** The description of the file-row callback on [file]. *)
Definition insert_file_task (announcementId : Z) (file : FileDatum)
    (t : Task unit) : Prop :=
  exists resp : option JsError,
    let r := file_row announcementId file in
    t = mkTask
          (mkDelta [] (match resp with None => [r] | Some _ => [] end)
                   [EvInsertFile r resp])
          (Returned
             (match resp with
              | None => (Returned tt, [])
              | Some e =>
                  (Thrown e,
                   [EvConsoleError "Error inserting into announcement_files:"
                                   (message e)])
              end)).

(** What the file-row stage may issue: inserts of rows of the
    announcement, and error logs. *)
Definition file_stage_event (announcementId : Z) (ev : Event) : Prop :=
  match ev with
  | EvInsertFile r _ => AnnouncementFile.announcement_id r = announcementId
  | EvConsoleError _ _ => True
  | _ => False
  end.

Definition file_stage_facts (announcementId : Z) (fileData : list FileDatum)
    (r : Completion (list unit)) (d : Delta) : Prop :=
  new_announcements d = []
  /\ Forall (fun row => AnnouncementFile.announcement_id row = announcementId)
            (new_files d)
  /\ Forall (file_stage_event announcementId) (new_events d)
  /\ (Forall (fun ev => ~ insert_failed ev) (new_events d) ->
      (exists us, r = Returned us)
      /\ length (new_files d) = length fileData).

(** ** Describing the notification stage *)

(** The recipients, as the two queries of
    [sendAnnouncementEmailToUsers] resolve them on the tables of [w]. *)
Definition audience (groupId : option string) (w : World) : list string :=
  match truthy groupId with
  | Some g =>
      match run_members_query g w with
      | [] => []
      | memberIds => run_users_query (mkUsersQuery true (Some memberIds)) w
      end
  | None => run_users_query (mkUsersQuery true None) w
  end.

(** The line a send leaves on the console. *)
Definition send_log (email : string) (resp : SendResponse) : Event :=
  match resp with
  | SendOk | SendError _ => EvConsoleLog ("Email sent to " +:+ email)
  | SendRejected e =>
      EvConsoleError ("Failed to send email to " +:+ email +:+ ":") (message e)
  end.

Definition send_task (title htmlContent : string) (email : string)
    (t : Task unit) : Prop :=
  exists resp : SendResponse,
    t = mkTask
          (events [EvSend (mkEmail sender email title htmlContent) resp])
          (Returned (Returned tt, [send_log email resp])).

(** An interaction of the send batch: a send or a console line. *)
Definition dispatch_event (ev : Event) : bool :=
  match ev with
  | EvSend _ _ | EvConsoleError _ _ | EvConsoleLog _ => true
  | _ => false
  end.

(** Every rejected send of [evs] has its error line in [evs]. *)
Definition send_failures_logged (evs : list Event) : Prop :=
  forall m e,
    EvSend m (SendRejected e) ∈ evs ->
    EvConsoleError ("Failed to send email to " +:+ to m +:+ ":") (message e)
      ∈ evs.

(** What the send batch does for [recipients]: one attempt each, in
    order, whatever the answers. *)
Definition dispatch_facts (title htmlContent : string)
    (recipients : list string) (evs : list Event) : Prop :=
  sends evs = (fun email => mkEmail sender email title htmlContent)
                <$> recipients
  /\ Forall dispatch_event evs
  /\ send_failures_logged evs.

Definition users_error_label : string :=
  "Error fetching users for email notifications:".

Definition members_error_label : string := "Error fetching group members:".

(** The runs of the fan-out from [await query] on, for the recipients the
    query selects. *)
Inductive fanout_run (env : Env) (title content : string)
    (files : list FileDatum) (recipients : list string)
  : Completion unit -> list Event -> Prop :=
  | FanoutUsersError e :
      fanout_run env title content files recipients (Returned tt)
        [EvSelect "users" (Some e);
         EvConsoleError users_error_label (message e)]
  | FanoutNobody :
      recipients = [] ->
      fanout_run env title content files recipients (Returned tt)
        [EvSelect "users" None; EvConsoleLog "No users to notify"]
  | FanoutRenderFails e :
      recipients <> [] ->
      createEmailHtml env title content files = Thrown e ->
      fanout_run env title content files recipients (Thrown e)
        [EvSelect "users" None]
  | FanoutDispatch htmlContent evs :
      recipients <> [] ->
      createEmailHtml env title content files = Returned htmlContent ->
      dispatch_facts title htmlContent recipients evs ->
      fanout_run env title content files recipients (Returned tt)
        (EvSelect "users" None :: evs).

(** The runs of [sendAnnouncementEmailToUsers] on the tables of [w]. *)
Inductive announce_run (env : Env) (title content : string)
    (files : list FileDatum) (groupId : option string) (w : World)
  : Completion unit -> list Event -> Prop :=
  | AnnounceMembersError g e :
      truthy groupId = Some g ->
      announce_run env title content files groupId w (Returned tt)
        [EvSelect "group_members" (Some e);
         EvConsoleError members_error_label (message e)]
  | AnnounceNoMembers g :
      truthy groupId = Some g ->
      run_members_query g w = [] ->
      announce_run env title content files groupId w (Returned tt)
        [EvSelect "group_members" None]
  | AnnounceGroup g r evs :
      truthy groupId = Some g ->
      run_members_query g w <> [] ->
      fanout_run env title content files (audience groupId w) r evs ->
      announce_run env title content files groupId w r
        (EvSelect "group_members" None :: evs)
  | AnnouncePublic r evs :
      truthy groupId = None ->
      fanout_run env title content files (audience groupId w) r evs ->
      announce_run env title content files groupId w r evs.

(** An interaction of the notification stage. *)
Definition notification_event (ev : Event) : bool :=
  match ev with
  | EvSelect _ _ | EvSend _ _ | EvConsoleError _ _ | EvConsoleLog _ => true
  | _ => false
  end.

Definition select_error_label (table : string) : string :=
  if decide (table = "group_members") then members_error_label
  else users_error_label.

(** Every failed query of [evs] has its error line in [evs]. *)
Definition select_failures_logged (evs : list Event) : Prop :=
  forall table e,
    EvSelect table (Some e) ∈ evs ->
    EvConsoleError (select_error_label table) (message e) ∈ evs.

(** What every run of the fan-out satisfies, for its recipients. *)
Definition fanout_facts (env : Env) (title content : string)
    (files : list FileDatum) (recipients : list string)
    (r : Completion unit) (evs : list Event) : Prop :=
  Forall notification_event evs
  /\ select_failures_logged evs
  /\ send_failures_logged evs
  /\ (forall e, r = Thrown e ->
        createEmailHtml env title content files = Thrown e)
  /\ (sends evs = []
      \/ exists htmlContent,
           createEmailHtml env title content files = Returned htmlContent
           /\ sends evs
              = (fun email => mkEmail sender email title htmlContent)
                  <$> recipients)
  /\ (Forall (fun ev => ~ select_failed ev) evs ->
      forall htmlContent,
        createEmailHtml env title content files = Returned htmlContent ->
        r = Returned tt
        /\ sends evs
           = (fun email => mkEmail sender email title htmlContent)
               <$> recipients)
  /\ (recipients = [] -> sends evs = [] /\ r = Returned tt).

(** ** Describing the runs of [createAnnouncements] *)

(** The last line of the notification stage: the error it drops. *)
Definition dropped (r : Completion unit) : list Event :=
  match r with
  | Thrown e =>
      [EvConsoleError "Error sending announcement emails:" (message e)]
  | Returned _ => []
  end.

(** What the insert of the announcement adds when it succeeds. *)
Definition inserted (p : Announcement.payload) (i ts : Z) : Delta :=
  mkDelta [Announcement.mkRow i ts p] []
          [EvInsertAnnouncement p (InsertOk i ts)].

(** The four ways a call ends: in the upload stage, at the insert of the
    announcement, in the file-row stage, or after the notification. *)
Inductive create_run (env : Env) (data : Data) (userId : string)
    (groupId : option string) (w : World)
  : Completion Z -> Delta -> Prop :=
  | CreateUploadFails e dA :
      upload_stage_facts env (files data) (Thrown e) dA ->
      create_run env data userId groupId w (Thrown e) dA
  | CreateInsertFails fileData dA e :
      upload_stage_facts env (files data) (Returned fileData) dA ->
      create_run env data userId groupId w (Thrown e)
        (delta_app dA
           (events [EvInsertAnnouncement
                      (announcement_payload data userId groupId)
                      (InsertError e);
                    EvConsoleError "Error inserting announcement:"
                                   (message e)]))
  | CreateFileRowsFail fileData dA i ts e dC :
      upload_stage_facts env (files data) (Returned fileData) dA ->
      file_stage_facts i fileData (Thrown e) dC ->
      create_run env data userId groupId w (Thrown e)
        (delta_app dA
           (delta_app
              (inserted (announcement_payload data userId groupId) i ts)
              dC))
  | CreateDone fileData dA i ts us dC rN evsN :
      upload_stage_facts env (files data) (Returned fileData) dA ->
      file_stage_facts i fileData (Returned us) dC ->
      announce_run env (title data) (content data) fileData groupId w
                   rN evsN ->
      create_run env data userId groupId w (Returned i)
        (delta_app dA
           (delta_app
              (inserted (announcement_payload data userId groupId) i ts)
              (delta_app dC (events (evsN ++ dropped rN))))).

(** ** Sample services and tables *)

(** Services that never fail; operations complete in the order issued. *)
Definition quiet_env : Env :=
  mkEnv (fun k => 1700000000000 + Z.of_nat k)%Z
        (fun _ path _ _ => UploadOk path)
        (fun k _ => InsertOk (Z.of_nat k) (1700000000000 + Z.of_nat k)%Z)
        (fun _ _ => None)
        (fun _ _ => None)
        (fun path => "https://storage.example/" +:+ path)
        (fun _ _ => SendOk)
        (fun _ => []).

(** Storage that refuses every upload. *)
Definition full_storage_env : Env :=
  mkEnv (date_now quiet_env)
        (fun _ _ _ _ => UploadError (mkError "quota exceeded"))
        (db_insert_announcement quiet_env) (db_insert_file quiet_env)
        (db_select quiet_env) (getPublicUrl quiet_env)
        (resend_send quiet_env) (arrival quiet_env).

(** A data store whose queries fail, while its inserts succeed. *)
Definition blind_store_env : Env :=
  mkEnv (date_now quiet_env) (storage_upload quiet_env)
        (db_insert_announcement quiet_env) (db_insert_file quiet_env)
        (fun _ _ => Some (mkError "connection reset"))
        (getPublicUrl quiet_env) (resend_send quiet_env)
        (arrival quiet_env).


(** Three users, two of them subscribed; one group with one member. *)
Definition parish : World :=
  mkWorld
    [Announcement.mkRow 1 50
       (Announcement.mkPayload "Feast" "<p>old</p>" "public" None "u1");
     Announcement.mkRow 2 70
       (Announcement.mkPayload "Choir" "<p>practice</p>" "private"
                               (Some "choir") "u1");
     Announcement.mkRow 3 90
       (Announcement.mkPayload "Mass" "<p>new</p>" "public" None "u3")]
    [AnnouncementFile.mkRow 1 "announcement/feast-1.png" "feast-1"
                            (JStr "image/png")]
    [User.mkRow "u1" "Ana" "ana@example.org" true;
     User.mkRow "u2" "Ben" "ben@example.org" false;
     User.mkRow "u3" "Cora" "cora@example.org" true]
    [GroupMember.mkRow "u1" "choir"]
    [].

(** Two files as a direct caller of the service passes them. *)
Definition poster : JsObject :=
  {[ "originalname" := JStr "poster.final.jpg";
     "mimetype" := JStr "image/jpeg";
     "buffer" := JBuffer [] ]}.

Definition schedule : JsObject :=
  {[ "originalname" := JStr "schedule.pdf";
     "mimetype" := JStr "application/pdf";
     "buffer" := JBuffer [] ]}.

Definition notice : Data := mkData "Notice" "<p>hi</p>" [].
Definition notice_with_files : Data :=
  mkData "Notice" "<p>hi</p>" [poster; schedule].

(** A multipart request with one file. *)
Definition upload_request (userId : string) : Request :=
  mkRequest "Notice" "<p>hi</p>" None "choir" userId
            (Some [mkMulterFile "poster.jpg" "image/jpeg" 3 []]).

(** ** Responses and checks of the handlers *)

Definition created_json (msg : string) (i : Z) : Response.json :=
  Response.mkJson 201 true (Some (Created i)) (Some msg) None.

Definition failed_json (msg : string) (e : JsError) : Response.json :=
  Response.mkJson 500 false None (Some msg) (Some (message e)).

Definition forbidden_json : Response.json :=
  Response.mkJson 403 false None
    (Some "You do not have permission to post announcements in this group")
    None.

(** The membership check of the group route passes: the query succeeds
    and selects exactly one row. *)
Definition membership_granted (env : Env) (req : Request) (w : World)
  : Prop :=
  db_select env (clock w) "group_members" = None
  /\ exists m,
       run_membership_query (user_id req) (params_groupId req) w = [m].

(** No interaction of [evs] is an upload or an insert. *)
Definition nothing_stored (evs : list Event) : Prop :=
  Forall (fun ev => ~ is_upload ev /\ ~ is_insert ev) evs.

(** No upload and no insert of [evs] failed. *)
Definition all_persisted (evs : list Event) : Prop :=
  Forall (fun ev => ~ upload_failed ev /\ ~ insert_failed ev) evs.

(** ** Describing the stages by their tasks *)

(** What a task leaves behind when it does not reject. *)
Definition task_value {B} (t : Task B) : option B :=
  match task_outcome t with
  | Returned (Returned b, _) => Some b
  | _ => None
  end.

(** The file-row inserts among some interactions, with their answers, in
    the order issued. *)
Definition file_inserts (evs : list Event)
  : list (AnnouncementFile.row * option JsError) :=
  omap (fun ev => match ev with
                  | EvInsertFile r resp => Some (r, resp)
                  | _ => None
                  end) evs.

(** The rows of the inserts that succeeded. *)
Definition inserted_rows
    (calls : list (AnnouncementFile.row * option JsError))
  : list AnnouncementFile.row :=
  fst <$> filter (fun c => c.2 = None) calls.

(** An interaction of the notification stage proper: a query or a send. *)
Definition is_notification (ev : Event) : bool :=
  match ev with
  | EvSelect _ _ | EvSend _ _ => true
  | _ => false
  end.

(** An interaction of the persistence stage: an insert or an error line. *)
Definition persist_event (ev : Event) : bool :=
  match ev with
  | EvInsertAnnouncement _ _ | EvInsertFile _ _ | EvConsoleError _ _ => true
  | _ => false
  end.

(** The upload stage left [d] for [file]: the name is the text before the
    first "." of the original name, "-" and a reading of the clock; the
    type is the file's MIME type; the url is the path the storage answered
    to the upload issued under the derived key. *)
Definition uploaded_as (env : Env) (file : JsObject) (evs : list Event)
    (d : FileDatum) : Prop :=
  exists (s : string) (k : nat),
    get file "originalname" = JStr s
    /\ fd_name d = template_elem (split "." s !! 0) +:+ "-"
                   +:+ pretty (date_now env k)
    /\ fd_type d = get file "mimetype"
    /\ EvUpload (storage_path (fd_name d)) (get file "buffer")
                (get file "mimetype") (UploadOk (fd_url d)) ∈ evs.

(** The runs of [createAnnouncements], with the tasks of its two
    batches. *)
Inductive staged_run (env : Env) (data : Data) (userId : string)
    (groupId : option string) (w : World)
  : Completion Z -> Delta -> Prop :=
  | StagedUploadFails sA tasksA e :
      Forall2 (upload_task env) (files data) tasksA ->
      batch_result sA tasksA = Thrown e ->
      staged_run env data userId groupId w (Thrown e) (batch_delta sA tasksA)
  | StagedInsertFails sA tasksA fileData e :
      Forall2 (upload_task env) (files data) tasksA ->
      batch_result sA tasksA = Returned fileData ->
      staged_run env data userId groupId w (Thrown e)
        (delta_app (batch_delta sA tasksA)
           (events [EvInsertAnnouncement
                      (announcement_payload data userId groupId)
                      (InsertError e);
                    EvConsoleError "Error inserting announcement:"
                                   (message e)]))
  | StagedFileRowsFail sA tasksA fileData i ts sC tasksC e :
      Forall2 (upload_task env) (files data) tasksA ->
      batch_result sA tasksA = Returned fileData ->
      Forall2 (insert_file_task i) fileData tasksC ->
      batch_result sC tasksC = Thrown e ->
      staged_run env data userId groupId w (Thrown e)
        (delta_app (batch_delta sA tasksA)
           (delta_app
              (inserted (announcement_payload data userId groupId) i ts)
              (batch_delta sC tasksC)))
  | StagedDone sA tasksA fileData i ts sC tasksC us rN evsN :
      Forall2 (upload_task env) (files data) tasksA ->
      batch_result sA tasksA = Returned fileData ->
      Forall2 (insert_file_task i) fileData tasksC ->
      batch_result sC tasksC = Returned us ->
      announce_run env (title data) (content data) fileData groupId w
                   rN evsN ->
      staged_run env data userId groupId w (Returned i)
        (delta_app (batch_delta sA tasksA)
           (delta_app
              (inserted (announcement_payload data userId groupId) i ts)
              (delta_app (batch_delta sC tasksC)
                         (events (evsN ++ dropped rN))))).


(** [file] is embedded in the email: its type is a string that starts
    with "image/". *)
Definition shown_in_email (file : FileDatum) : bool :=
  match is_image file with
  | Returned b => b
  | Thrown _ => false
  end.

(** A data store that refuses the announcement. *)
Definition refusing_store_env : Env :=
  mkEnv (date_now quiet_env) (storage_upload quiet_env)
        (fun _ _ => InsertError (mkError "permission denied"))
        (db_insert_file quiet_env) (db_select quiet_env)
        (getPublicUrl quiet_env) (resend_send quiet_env)
        (arrival quiet_env).

(** A data store that refuses the file rows whose name starts with
    "schedule". *)
Definition picky_store_env : Env :=
  mkEnv (date_now quiet_env) (storage_upload quiet_env)
        (db_insert_announcement quiet_env)
        (fun _ r =>
           if startsWith "schedule" (AnnouncementFile.name r)
           then Some (mkError "value too long")
           else None)
        (db_select quiet_env) (getPublicUrl quiet_env)
        (resend_send quiet_env) (arrival quiet_env).


(** The tables of [parish], with the membership of u1 recorded twice. *)
Definition parish_with_duplicate : World :=
  mkWorld (announcement parish) (announcement_files parish) (users parish)
          [GroupMember.mkRow "u1" "choir"; GroupMember.mkRow "u1" "choir"]
          [].

(** A request without files that names the group "choir" in its body. *)
Definition plain_request (userId : string) : Request :=
  mkRequest "Notice" "<p>hi</p>" (Some "choir") "choir" userId None.
(** ** Tactics *)

(** Unfolds the monad and the external calls of a goal. *)
Ltac run_js :=
  unfold mbind, Js_bind, mret, Js_ret, throw, try_catch, console_error,
    console_log, Date_now, upload, insert_announcement,
    insert_announcement_file, select, emails_send;
  cbn.

Arguments emit : simpl never.
Arguments delta_app : simpl never.
Arguments createAnnouncements : simpl never.
Arguments extend : simpl never.
Arguments clock : simpl never.

(** Splits [fanout_facts] into its seven parts. *)
Ltac facts_cases :=
  unfold fanout_facts, select_failures_logged, send_failures_logged;
  refine (conj _ (conj _ (conj _ (conj _ (conj _ (conj _ _)))))).

(** Settles a fact on the kind of an interaction by cases. *)
Ltac by_kind ev :=
  destruct ev; simpl; try done; intros _; repeat split; by intros [].

(** * Properties *)

(** ** Worlds and batches *)

Lemma extend_nil w : extend (events []) w = w.
Proof. destruct w; unfold extend; simpl. by rewrite !app_nil_r. Qed.

Lemma extend_app d1 d2 w :
  extend d2 (extend d1 w) = extend (delta_app d1 d2) w.
Proof. unfold extend, delta_app; simpl. by rewrite !app_assoc. Qed.

Lemma emit_extend ev w : emit ev w = extend (events [ev]) w.
Proof. unfold emit, extend; simpl. by rewrite !app_nil_r. Qed.

Lemma events_since_extend d w :
  events_since w (extend d w) = new_events d.
Proof. unfold events_since, extend; simpl. by rewrite drop_app_length. Qed.

Lemma delta_app_assoc d1 d2 d3 :
  delta_app d1 (delta_app d2 d3) = delta_app (delta_app d1 d2) d3.
Proof. unfold delta_app; simpl. by rewrite !app_assoc. Qed.

Lemma arrival_order_perm sched n : arrival_order sched n ≡ₚ seq 0 n.
Proof.
  unfold arrival_order.
  set (named := remove_dups (filter (fun i => i < n) sched)).
  assert (Hnd : NoDup named) by apply NoDup_remove_dups.
  assert (Hin : forall i, i ∈ named -> i ∈ seq 0 n).
  { intros i Hi. apply elem_of_remove_dups, list_elem_of_filter in Hi.
    apply elem_of_seq. lia. }
  apply NoDup_Permutation.
  - apply NoDup_app. split; [done|]. split.
    + intros i Hi Hd. apply list_elem_of_difference in Hd. tauto.
    + apply NoDup_list_difference, NoDup_seq.
  - apply NoDup_seq.
  - intros i. rewrite elem_of_app, list_elem_of_difference. split.
    + intros [Hi | [Hi _]]; auto.
    + intros Hi. destruct (decide (i ∈ named)); auto.
Qed.

Lemma omap_lookup_seq_from {A} (pre l : list A) :
  omap (fun i => (pre ++ l) !! i) (seq (length pre) (length l)) = l.
Proof.
  revert pre. induction l as [|x l IH]; intros pre; [done|].
  simpl. rewrite list_lookup_middle by done. f_equal.
  specialize (IH (pre ++ [x])).
  rewrite length_app, Nat.add_1_r, <- app_assoc in IH. exact IH.
Qed.

Lemma in_arrival_order_perm {A} sched (l : list A) :
  in_arrival_order sched l ≡ₚ l.
Proof.
  unfold in_arrival_order. rewrite arrival_order_perm.
  pose proof (omap_lookup_seq_from [] l) as H. simpl in H. by rewrite H.
Qed.

Lemma omap_lookup_fmap {A B} (f : A -> B) (l : list A) (o : list nat) :
  omap (fun i => (f <$> l) !! i) o = f <$> omap (fun i => l !! i) o.
Proof.
  induction o as [|i o IH]; [done|].
  cbn [omap list_omap]. rewrite list_lookup_fmap, IH.
  by destruct (l !! i).
Qed.

Lemma in_arrival_order_fmap {A B} (f : A -> B) sched (l : list A) :
  in_arrival_order sched (f <$> l) = f <$> in_arrival_order sched l.
Proof.
  unfold in_arrival_order. rewrite length_fmap. apply omap_lookup_fmap.
Qed.

Lemma omap_lookup_Forall2 {A B} (R : A -> B -> Prop) l k (o : list nat) :
  Forall2 R l k ->
  Forall2 R (omap (fun i => l !! i) o) (omap (fun i => k !! i) o).
Proof.
  intros H. induction o as [|i o IH]; [constructor|].
  cbn [omap list_omap]. destruct (l !! i) as [x|] eqn:Hx.
  - destruct (Forall2_lookup_l _ _ _ _ _ H Hx) as (y & -> & Hxy).
    by constructor.
  - assert (k !! i = None) as ->; [|done].
    apply lookup_ge_None. rewrite <- (Forall2_length _ _ _ H).
    by apply lookup_ge_None.
Qed.

Lemma in_arrival_order_Forall2 {A B} (R : A -> B -> Prop) sched l k :
  Forall2 R l k ->
  Forall2 R (in_arrival_order sched l) (in_arrival_order sched k).
Proof.
  intros H. unfold in_arrival_order. rewrite <- (Forall2_length _ _ _ H).
  by apply omap_lookup_Forall2.
Qed.

Lemma finish_all_scripted {B} (ks : list (Js B))
    (scripts : list (Completion B * list Event)) w :
  Forall2 (fun k s => scripted k s.1 s.2) ks scripts ->
  finish_all ks w
  = (fst <$> scripts, extend (events (concat (snd <$> scripts))) w).
Proof.
  intros H. revert w. induction H as [|k s ks scripts Hk _ IH]; intros w.
  - simpl. by rewrite extend_nil.
  - simpl. rewrite Hk, IH, extend_app. reflexivity.
Qed.

Lemma started_as_rejections {B} (started : list (Completion (Js B))) tasks :
  Forall2 started_as started tasks ->
  rejections started = rejections (task_outcome <$> tasks).
Proof.
  induction 1 as [|c t started tasks Hct _ IH]; [done|].
  unfold started_as in Hct. unfold rejections in *. simpl.
  destruct (task_outcome t) as [[c' evs]|e], c as [k|e']; try done.
  subst. simpl. by f_equal.
Qed.

Lemma started_as_results {B} (started : list (Completion (Js B))) tasks :
  Forall2 started_as started tasks ->
  Forall2 (fun k s => scripted k s.1 s.2)
          (results started) (results (task_outcome <$> tasks)).
Proof.
  induction 1 as [|c t started tasks Hct _ IH]; [constructor|].
  unfold started_as in Hct. unfold results in *. simpl.
  destruct (task_outcome t) as [[c' evs]|e], c as [k|e']; try done.
  by constructor.
Qed.

Section Batch.

Context {A B : Type}.
Variable env : Env.
Variable f : A -> Js (Js B).
Variable Spec : A -> Task B -> Prop.

Hypothesis f_spec :
  forall x w, exists t,
    Spec x t /\ (f x w).2 = extend (task_delta t) w
    /\ started_as (f x w).1 t.

Lemma start_all_tasks l w :
  exists tasks,
    Forall2 Spec l tasks
    /\ (start_all f l w).2
       = extend (foldr delta_app (events []) (task_delta <$> tasks)) w
    /\ Forall2 started_as (start_all f l w).1 tasks.
Proof.
  revert w. induction l as [|x l IH]; intros w.
  - exists []. simpl. by rewrite extend_nil.
  - destruct (f_spec x w) as (t & Ht & Hw & Hc).
    simpl. destruct (f x w) as [c w1] eqn:Hf. simpl in Hw, Hc.
    destruct (IH w1) as (tasks & Hts & Hw2 & Hcs).
    destruct (start_all f l w1) as [cs w2]. simpl in *.
    exists (t :: tasks). split; [by constructor|]. split.
    + simpl. by rewrite Hw2, Hw, extend_app.
    + by constructor.
Qed.

Lemma promise_all_tasks l w :
  exists tasks,
    Forall2 Spec l tasks
    /\ promise_all env f l w
       = (batch_result (arrival env (clock w)) tasks,
          extend (batch_delta (arrival env (clock w)) tasks) w).
Proof.
  destruct (start_all_tasks l w) as (tasks & Hts & Hw1 & Hcs).
  exists tasks. split; [done|].
  unfold promise_all. destruct (start_all f l w) as [started w1].
  simpl in Hw1, Hcs.
  pose proof (started_as_results _ _ Hcs) as Hks.
  apply (in_arrival_order_Forall2 _ (arrival env (clock w))) in Hks.
  rewrite (finish_all_scripted _ _ _ Hks).
  rewrite (started_as_rejections _ _ Hcs), Hw1, extend_app.
  unfold batch_result, batch_delta.
  by destruct (rejections (task_outcome <$> tasks) ++ _)%list.
Qed.

End Batch.

Lemma foldr_delta_app_events (ds : list Delta) :
  new_events (foldr delta_app (events []) ds) = concat (new_events <$> ds).
Proof. induction ds as [|d ds IH]; [done|]. simpl. by rewrite IH. Qed.

Lemma foldr_delta_app_files (ds : list Delta) :
  new_files (foldr delta_app (events []) ds) = concat (new_files <$> ds).
Proof. induction ds as [|d ds IH]; [done|]. simpl. by rewrite IH. Qed.

Lemma foldr_delta_app_announcements (ds : list Delta) :
  new_announcements (foldr delta_app (events []) ds)
  = concat (new_announcements <$> ds).
Proof. induction ds as [|d ds IH]; [done|]. simpl. by rewrite IH. Qed.

Lemma batch_delta_events {B} sched (tasks : list (Task B)) :
  new_events (batch_delta sched tasks)
  = concat (new_events <$> (task_delta <$> tasks))
    ++ concat (snd <$> in_arrival_order sched
                         (results (task_outcome <$> tasks))).
Proof. unfold batch_delta. simpl. by rewrite foldr_delta_app_events. Qed.

Lemma batch_delta_files {B} sched (tasks : list (Task B)) :
  new_files (batch_delta sched tasks)
  = concat (new_files <$> (task_delta <$> tasks)).
Proof.
  unfold batch_delta. simpl. by rewrite foldr_delta_app_files, app_nil_r.
Qed.

Lemma batch_delta_announcements {B} sched (tasks : list (Task B)) :
  new_announcements (batch_delta sched tasks)
  = concat (new_announcements <$> (task_delta <$> tasks)).
Proof.
  unfold batch_delta. simpl.
  by rewrite foldr_delta_app_announcements, app_nil_r.
Qed.

Lemma batch_result_thrown {B} sched (tasks : list (Task B)) :
  Exists task_fails tasks -> exists e, batch_result sched tasks = Thrown e.
Proof.
  intros H. apply Exists_exists in H as (t & Ht & Hf).
  unfold batch_result.
  set (arrived := in_arrival_order sched (results (task_outcome <$> tasks))).
  assert (exists e, e ∈ (rejections (task_outcome <$> tasks)
                         ++ rejections (fst <$> arrived))%list) as [e He].
  { unfold task_fails in Hf.
    destruct (task_outcome t) as [[[b|e] evs]|e] eqn:Ho; [done| |].
    - exists e. apply elem_of_app. right.
      apply list_elem_of_omap. exists (Thrown e). split; [|done].
      apply list_elem_of_fmap. exists (Thrown e, evs). split; [done|].
      unfold arrived. rewrite in_arrival_order_perm.
      apply list_elem_of_omap. exists (Returned (Thrown e, evs)).
      split; [|done]. apply list_elem_of_fmap. by exists t.
    - exists e. apply elem_of_app. left.
      apply list_elem_of_omap. exists (Thrown e). split; [|done].
      apply list_elem_of_fmap. by exists t. }
  destruct (_ ++ _)%list as [|e' l]; [by apply elem_of_nil in He|].
  by exists e'.
Qed.

Lemma tasks_all_return {B} (tasks : list (Task B)) :
  Forall (fun t => ~ task_fails t) tasks ->
  exists vs : list (B * list Event),
    task_outcome <$> tasks = (fun v => Returned (Returned v.1, v.2)) <$> vs.
Proof.
  induction 1 as [|t tasks Ht _ (vs & IH)]; [by exists []|].
  unfold task_fails in Ht.
  destruct (task_outcome t) as [[[b|e] evs]|e] eqn:Ho; try done.
  exists ((b, evs) :: vs). by rewrite !fmap_cons, Ho, IH.
Qed.

Lemma results_fmap_Returned {A B} (g : A -> B) (l : list A) :
  results ((fun x => Returned (g x)) <$> l) = g <$> l.
Proof.
  induction l as [|x l IH]; [done|].
  unfold results in *. rewrite !fmap_cons. cbn [omap list_omap].
  by f_equal.
Qed.

Lemma rejections_fmap_Returned {A B} (g : A -> B) (l : list A) :
  rejections ((fun x => Returned (g x)) <$> l) = [].
Proof.
  induction l as [|x l IH]; [done|].
  unfold rejections in *. rewrite !fmap_cons. by cbn [omap list_omap].
Qed.

Lemma batch_result_returned {B} sched (tasks : list (Task B)) :
  Forall (fun t => ~ task_fails t) tasks ->
  exists bs, batch_result sched tasks = Returned bs
             /\ length bs = length tasks.
Proof.
  intros H. destruct (tasks_all_return _ H) as (vs & Hvs).
  unfold batch_result. rewrite Hvs.
  rewrite rejections_fmap_Returned.
  rewrite (results_fmap_Returned (fun v => (Returned v.1, v.2))).
  rewrite in_arrival_order_fmap, <- list_fmap_compose.
  change (fst ∘ (fun v : B * list Event => (Returned v.1, v.2)))
    with (fun v : B * list Event => Returned (A := B) v.1).
  rewrite (rejections_fmap_Returned (fun v => v.1)).
  rewrite (results_fmap_Returned (fun v => v.1)).
  eexists. split; [done|].
  rewrite length_fmap, in_arrival_order_perm.
  by rewrite <- (length_fmap task_outcome), Hvs, length_fmap.
Qed.

(** ** The upload stage *)

Section UploadStage.

Variable env : Env.

Lemma after_upload_scripted fileName mt resp :
  scripted (after_upload fileName mt resp)
           (upload_outcome fileName mt resp) [].
Proof. intros w. rewrite extend_nil. by destruct resp. Qed.

Lemma upload_file_spec file w :
  exists t,
    upload_task env file t
    /\ (upload_file env file w).2 = extend (task_delta t) w
    /\ started_as (upload_file env file w).1 t.
Proof.
  unfold upload_task, upload_file, split_dot.
  destruct (get file "originalname") as [|s| | | |] eqn:Hn;
    try (eexists (mkTask (events []) (Thrown _)); split; [by eexists|];
         split; [by rewrite extend_nil|]; reflexivity).
  eexists (mkTask _ _). split; [by eexists _, _|].
  split.
  - run_js. rewrite !emit_extend, extend_app. reflexivity.
  - run_js. apply after_upload_scripted.
Qed.

End UploadStage.

Lemma upload_event_mono env files files' ev :
  (forall f, f ∈ files -> f ∈ files') ->
  upload_event env files ev -> upload_event env files' ev.
Proof.
  intros Hsub. destruct ev; simpl; try done.
  intros (file & s & ms & Hin & H). exists file, s, ms. split; auto.
Qed.

Lemma upload_tasks_events env files tasks :
  Forall2 (upload_task env) files tasks ->
  Forall (upload_event env files)
         (concat (new_events <$> (task_delta <$> tasks))).
Proof.
  induction 1 as [|file t files tasks Ht _ IH]; [constructor|].
  rewrite !fmap_cons. cbn [concat]. apply Forall_app. split.
  - unfold upload_task in Ht.
    destruct (get file "originalname") as [|s| | | |] eqn:Hn;
      try (destruct Ht as [e ->]; constructor).
    destruct Ht as (ms & resp & ->). cbn.
    repeat constructor. exists file, s, ms.
    split; [apply list_elem_of_here|done].
  - eapply Forall_impl; [exact IH|]. intros ev.
    apply upload_event_mono. intros f Hf. by apply list_elem_of_further.
Qed.

Lemma upload_tasks_rows env files tasks :
  Forall2 (upload_task env) files tasks ->
  concat (new_announcements <$> (task_delta <$> tasks)) = []
  /\ concat (new_files <$> (task_delta <$> tasks)) = []
  /\ Forall (fun s : Completion FileDatum * list Event => s.2 = [])
            (results (task_outcome <$> tasks)).
Proof.
  induction 1 as [|file t files tasks Ht _ (IHa & IHf & IHs)];
    [by repeat split|].
  unfold upload_task in Ht. unfold results in *. rewrite !fmap_cons.
  destruct (get file "originalname") as [|s| | | |];
    try (destruct Ht as [e ->]; by repeat split).
  destruct Ht as (ms & resp & ->). cbn. repeat split; try done.
  by constructor.
Qed.

Lemma silent_continuations {B} (scripts : list (Completion B * list Event)) :
  Forall (fun s => s.2 = []) scripts -> concat (snd <$> scripts) = [].
Proof.
  induction 1 as [|s l Hs _ IH]; [done|].
  rewrite fmap_cons. cbn [concat]. by rewrite Hs, IH.
Qed.

Lemma upload_tasks_failed env files tasks :
  Forall2 (upload_task env) files tasks ->
  Exists upload_failed (concat (new_events <$> (task_delta <$> tasks))) ->
  Exists task_fails tasks.
Proof.
  induction 1 as [|file t files tasks Ht _ IH]; [by inversion 1|].
  rewrite !fmap_cons. cbn [concat]. rewrite Exists_app.
  intros [Hex | Hex]; [|by apply Exists_cons_tl, IH].
  apply Exists_cons_hd. unfold upload_task in Ht. unfold task_fails.
  destruct (get file "originalname") as [|s| | | |];
    try (by destruct Ht as [e ->]).
  destruct Ht as (ms & resp & ->). cbn in *.
  apply Exists_cons in Hex as [[]|Hex].
  apply Exists_cons in Hex as [Hex|Hex]; [|by inversion Hex].
  by destruct resp.
Qed.

Lemma upload_tasks_unnamed env files tasks :
  Forall2 (upload_task env) files tasks ->
  (Exists (fun f => ~ named f) files -> Exists task_fails tasks)
  /\ (Forall (fun f => ~ named f) files ->
      concat (new_events <$> (task_delta <$> tasks)) = []).
Proof.
  induction 1 as [|file t files tasks Ht _ [IHe IHa]].
  { split; [by inversion 1|done]. }
  unfold upload_task in Ht. split.
  - intros [Hn | Hex]%Exists_cons; [|by apply Exists_cons_tl, IHe].
    apply Exists_cons_hd. unfold task_fails.
    destruct (get file "originalname") as [|s| | | |] eqn:Ho;
      try (by destruct Ht as [e ->]).
    destruct Hn. by exists s.
  - intros [Hn Hrest]%Forall_cons. rewrite !fmap_cons. cbn [concat].
    rewrite (IHa Hrest).
    destruct (get file "originalname") as [|s| | | |] eqn:Ho;
      try (by destruct Ht as [e ->]).
    destruct Hn. by exists s.
Qed.

Lemma upload_tasks_succeed env files tasks :
  Forall2 (upload_task env) files tasks ->
  Forall named files ->
  Forall (fun ev => ~ upload_failed ev)
         (concat (new_events <$> (task_delta <$> tasks))) ->
  Forall (fun t => ~ task_fails t) tasks.
Proof.
  induction 1 as [|file t files tasks Ht _ IH]; [constructor|].
  rewrite !fmap_cons. cbn [concat]. rewrite Forall_app, Forall_cons.
  intros [[s Hs] Hn] [Hev Hevs]. constructor; [|by apply IH].
  unfold upload_task in Ht. rewrite Hs in Ht.
  destruct Ht as (ms & resp & ->). unfold task_fails. cbn in *.
  apply Forall_cons in Hev as [_ Hev]. apply Forall_cons in Hev as [Hev _].
  by destruct resp.
Qed.

Lemma upload_stage_spec env files w :
  exists r d,
    (match files with
     | [] => mret []
     | _ => promise_all env (upload_file env) files
     end) w = (r, extend d w)
    /\ upload_stage_facts env files r d.
Proof.
  destruct files as [|file files].
  { exists (Returned []), (events []). split; [by rewrite extend_nil|].
    repeat split; try done; [by inversion 1 | by exists [] | by inversion 1]. }
  set (fs := file :: files).
  destruct (promise_all_tasks env (upload_file env) (upload_task env)
              (upload_file_spec env) fs w) as (tasks & Hts & Hrun).
  destruct (upload_tasks_unnamed _ _ _ Hts) as [Hun Hall].
  eexists _, _. split; [exact Hrun|].
  destruct (upload_tasks_rows _ _ _ Hts) as (Ha & Hf & Hs).
  assert (Hev : new_events (batch_delta (arrival env (clock w)) tasks)
                = concat (new_events <$> (task_delta <$> tasks))).
  { rewrite batch_delta_events, silent_continuations, app_nil_r; [done|].
    by rewrite in_arrival_order_perm. }
  unfold upload_stage_facts.
  rewrite batch_delta_announcements, batch_delta_files, Hev.
  repeat split; try done.
  - by apply upload_tasks_events.
  - intros Hex. apply batch_result_thrown. by eapply upload_tasks_failed.
  - intros Hn Hok.
    destruct (batch_result_returned (arrival env (clock w)) tasks)
      as (bs & -> & Hlen); [by eapply upload_tasks_succeed|].
    exists bs. split; [done|].
    by rewrite Hlen, <- (Forall2_length _ _ _ Hts).
  - intros Hex. by apply batch_result_thrown, Hun.
Qed.

(** ** The file-row stage *)

Section FileStage.

Variable env : Env.

Lemma insert_announcement_file_run r w :
  insert_announcement_file env r w
  = (let resp := db_insert_file env (clock w) r in
     (Returned resp,
      extend (mkDelta [] (match resp with None => [r] | Some _ => [] end)
                      [EvInsertFile r resp]) w)).
Proof.
  unfold insert_announcement_file. cbn zeta.
  destruct (db_insert_file env (clock w) r).
  - by rewrite emit_extend.
  - unfold extend, emit. simpl. by rewrite app_nil_r.
Qed.

Lemma after_insert_file_scripted resp :
  scripted (after_insert_file resp)
    (match resp with None => Returned tt | Some e => Thrown e end)
    (match resp with
     | None => []
     | Some e => [EvConsoleError "Error inserting into announcement_files:"
                                 (message e)]
     end).
Proof.
  intros w. destruct resp as [e|]; simpl.
  - run_js. by rewrite emit_extend.
  - by rewrite extend_nil.
Qed.

Lemma insert_file_spec announcementId file w :
  exists t,
    insert_file_task announcementId file t
    /\ (insert_file env announcementId file w).2 = extend (task_delta t) w
    /\ started_as (insert_file env announcementId file w).1 t.
Proof.
  unfold insert_file, insert_file_task, mbind, Js_bind.
  fold (file_row announcementId file).
  rewrite insert_announcement_file_run. cbn zeta.
  eexists (mkTask _ _). split; [by eexists|]. split; [reflexivity|].
  unfold started_as. cbn.
  pose proof (after_insert_file_scripted
                (db_insert_file env (clock w)
                                (file_row announcementId file))) as H.
  by destruct (db_insert_file _ _ _).
Qed.

End FileStage.

Lemma insert_file_tasks_facts announcementId fileData tasks :
  Forall2 (insert_file_task announcementId) fileData tasks ->
  concat (new_announcements <$> (task_delta <$> tasks)) = []
  /\ Forall (fun row => AnnouncementFile.announcement_id row = announcementId)
            (concat (new_files <$> (task_delta <$> tasks)))
  /\ Forall (file_stage_event announcementId)
            (concat (new_events <$> (task_delta <$> tasks)))
  /\ Forall (fun s : Completion unit * list Event =>
               Forall (file_stage_event announcementId) s.2)
            (results (task_outcome <$> tasks))
  /\ (Forall (fun ev => ~ insert_failed ev)
             (concat (new_events <$> (task_delta <$> tasks))) ->
      Forall (fun t => ~ task_fails t) tasks
      /\ length (concat (new_files <$> (task_delta <$> tasks)))
         = length fileData).
Proof.
  induction 1 as [|file t fileData tasks Ht _ (IHa & IHf & IHe & IHs & IHok)].
  { repeat split; try constructor; done. }
  destruct Ht as (resp & ->). unfold results in *. rewrite !fmap_cons.
  cbn [task_delta task_outcome new_announcements new_files new_events concat
       omap list_omap].
  split; [done|]. split.
  { apply Forall_app. split; [|done]. destruct resp; by repeat constructor. }
  split. { constructor; [done|exact IHe]. }
  split. { constructor; [|exact IHs]. destruct resp; by repeat constructor. }
  cbn [app]. rewrite Forall_cons. intros [Hresp Hrest].
  destruct (IHok Hrest) as [Hts Hlen]. destruct resp as [e|]; [by destruct Hresp|].
  split; [by constructor|]. simpl. by rewrite Hlen.
Qed.

Lemma Forall_concat_snd {B} (P : Event -> Prop)
    (scripts : list (Completion B * list Event)) :
  Forall (fun s => Forall P s.2) scripts -> Forall P (concat (snd <$> scripts)).
Proof.
  induction 1 as [|s l Hs _ IH]; [constructor|].
  rewrite fmap_cons. cbn [concat]. by apply Forall_app.
Qed.

Lemma file_stage_spec env announcementId fileData w :
  exists r d,
    (match fileData with
     | [] => mret []
     | _ => promise_all env (insert_file env announcementId) fileData
     end) w = (r, extend d w)
    /\ file_stage_facts announcementId fileData r d.
Proof.
  destruct fileData as [|file fileData].
  { exists (Returned []), (events []). split; [by rewrite extend_nil|].
    repeat split; try done; by exists []. }
  set (fd := file :: fileData).
  destruct (promise_all_tasks env (insert_file env announcementId)
              (insert_file_task announcementId)
              (insert_file_spec env announcementId) fd w)
    as (tasks & Hts & Hrun).
  eexists _, _. split; [exact Hrun|].
  destruct (insert_file_tasks_facts _ _ _ Hts) as (Ha & Hf & He & Hs & Hok).
  unfold file_stage_facts.
  rewrite batch_delta_announcements, batch_delta_files, batch_delta_events.
  repeat split; try done.
  - apply Forall_app. split; [done|]. apply Forall_concat_snd.
    by rewrite in_arrival_order_perm.
  - apply Forall_app in H as [H _]. destruct (Hok H) as [Hts' _].
    destruct (batch_result_returned (arrival env (clock w)) tasks Hts')
      as (bs & -> & _). by exists bs.
  - apply Forall_app in H as [H _]. by destruct (Hok H).
Qed.

(** ** The notification stage *)

Lemma send_tasks_facts title htmlContent recipients tasks :
  Forall2 (send_task title htmlContent) recipients tasks ->
  let prefix := concat (new_events <$> (task_delta <$> tasks)) in
  let scripts := results (task_outcome <$> tasks) in
  concat (new_announcements <$> (task_delta <$> tasks)) = []
  /\ concat (new_files <$> (task_delta <$> tasks)) = []
  /\ sends prefix = (fun email => mkEmail sender email title htmlContent)
                      <$> recipients
  /\ Forall dispatch_event prefix
  /\ Forall (fun s : Completion unit * list Event =>
               Forall (fun ev => dispatch_event ev /\ sends [ev] = []) s.2)
            scripts
  /\ Forall (fun t => ~ task_fails t) tasks
  /\ (forall m e, EvSend m (SendRejected e) ∈ prefix ->
        exists s, s ∈ scripts
                  /\ EvConsoleError
                       ("Failed to send email to " +:+ to m +:+ ":")
                       (message e) ∈ s.2).
Proof.
  induction 1 as [|email t recipients tasks Ht _
                   (IHa & IHf & IHs & IHp & IHc & IHt & IHl)].
  { cbn. repeat split; try constructor. intros m e H. by apply elem_of_nil in H. }
  destruct Ht as (resp & ->). unfold results, sends in *.
  rewrite !fmap_cons.
  cbn [task_delta task_outcome new_announcements new_files new_events concat
       omap list_omap events app].
  split; [done|]. split; [done|]. split; [by rewrite IHs|].
  split; [by constructor|].
  split. { constructor; [|done]. constructor; [|constructor].
           by destruct resp. }
  split; [constructor; [exact (fun H => H)|done]|].
  intros m e Hin. apply elem_of_cons in Hin as [Heq | Hin].
  - injection Heq as -> <-. eexists. split; [apply list_elem_of_here|].
    cbn. apply list_elem_of_here.
  - destruct (IHl m e Hin) as (s & Hs & Hlog).
    exists s. split; [by apply list_elem_of_further|done].
Qed.

Lemma elem_of_concat {A} (x : A) (ls : list (list A)) :
  x ∈ concat ls <-> exists l, x ∈ l /\ l ∈ ls.
Proof.
  induction ls as [|l ls IH]; simpl.
  - split; [by intros ?%elem_of_nil|]. by intros (l & _ & ?%elem_of_nil).
  - rewrite elem_of_app, IH. split.
    + intros [H | (l' & H & Hl')].
      * exists l. split; [done|apply list_elem_of_here].
      * exists l'. split; [done|by apply list_elem_of_further].
    + intros (l' & H & [-> | Hl']%elem_of_cons); [by left|].
      right. by exists l'.
Qed.

Lemma delta_events_only d :
  new_announcements d = [] -> new_files d = [] -> d = events (new_events d).
Proof. destruct d; simpl. by intros -> ->. Qed.

Lemma sends_app evs1 evs2 : sends (evs1 ++ evs2) = sends evs1 ++ sends evs2.
Proof. apply omap_app. Qed.

Lemma sends_silent evs :
  Forall (fun ev => dispatch_event ev /\ sends [ev] = []) evs -> sends evs = [].
Proof.
  induction 1 as [|ev evs [_ Hev] _ IH]; [done|].
  change (ev :: evs) with ([ev] ++ evs). by rewrite sends_app, Hev, IH.
Qed.

Lemma dispatch_spec env title htmlContent recipients w :
  exists us evs,
    promise_all env (send_one env title htmlContent) recipients w
    = (Returned us, extend (events evs) w)
    /\ dispatch_facts title htmlContent recipients evs.
Proof.
  assert (Hspec : forall email w0, exists t,
             send_task title htmlContent email t
             /\ (send_one env title htmlContent email w0).2
                = extend (task_delta t) w0
             /\ started_as (send_one env title htmlContent email w0).1 t).
  { intros email w0. eexists (mkTask _ _). split; [by eexists|].
    unfold send_one. run_js. split; [by rewrite emit_extend|].
    unfold started_as. cbn. intros w1. unfold after_send, send_log.
    destruct (resend_send _ _ _); run_js; by rewrite emit_extend. }
  destruct (promise_all_tasks env (send_one env title htmlContent)
              (send_task title htmlContent) Hspec recipients w)
    as (tasks & Hts & Hrun).
  destruct (send_tasks_facts _ _ _ _ Hts)
    as (Ha & Hf & Hs & Hp & Hc & Hok & Hlog).
  destruct (batch_result_returned (arrival env (clock w)) tasks Hok)
    as (us & Hus & _).
  set (sched := arrival env (clock w)) in *.
  exists us, (new_events (batch_delta sched tasks)).
  split.
  { rewrite Hrun, Hus. f_equal. f_equal. apply delta_events_only.
    - by rewrite batch_delta_announcements.
    - by rewrite batch_delta_files. }
  rewrite batch_delta_events.
  set (arrived := in_arrival_order sched (results (task_outcome <$> tasks))).
  assert (Harr : Forall (fun s : Completion unit * list Event =>
                   Forall (fun ev => dispatch_event ev /\ sends [ev] = []) s.2)
                        arrived).
  { unfold arrived. by rewrite in_arrival_order_perm. }
  assert (Hconts : Forall (fun ev => dispatch_event ev /\ sends [ev] = [])
                          (concat (snd <$> arrived))).
  { by apply Forall_concat_snd. }
  repeat split.
  - by rewrite sends_app, Hs, (sends_silent _ Hconts), app_nil_r.
  - apply Forall_app. split; [done|].
    eapply Forall_impl; [exact Hconts|]. by intros ev [H _].
  - intros m e Hin. apply elem_of_app in Hin as [Hin | Hin].
    + destruct (Hlog m e Hin) as (s & Hs' & Hl).
      apply elem_of_app. right. apply elem_of_concat.
      exists s.2. split; [done|]. apply list_elem_of_fmap. exists s.
      split; [done|]. unfold arrived. by rewrite in_arrival_order_perm.
    + apply (proj1 (Forall_forall _ _) Hconts) in Hin as [_ Hno].
      discriminate Hno.
Qed.

Lemma run_users_query_extend q d w :
  run_users_query q (extend d w) = run_users_query q w.
Proof. reflexivity. Qed.

Lemma notify_users_spec env title content files q w :
  exists r evs,
    notify_users env title content files q w = (r, extend (events evs) w)
    /\ fanout_run env title content files (run_users_query q w) r evs.
Proof.
  unfold notify_users. run_js.
  destruct (db_select env (clock w) "users") as [e|] eqn:Hsel.
  { eexists _, _. split; [|apply (FanoutUsersError _ _ _ _ _ e)].
    by rewrite !emit_extend, extend_app. }
  destruct (run_users_query q w) as [|email rest] eqn:Hq.
  { eexists _, _. split; [|by apply FanoutNobody].
    by rewrite !emit_extend, extend_app. }
  destruct (createEmailHtml env title content files) as [htmlContent|e] eqn:Hr.
  - destruct (dispatch_spec env title htmlContent (email :: rest)
                (emit (EvSelect "users" None) w)) as (us & evs & Hrun & Hd).
    rewrite Hrun. eexists _, _. split.
    + by rewrite emit_extend, extend_app.
    + by apply (FanoutDispatch _ _ _ _ _ htmlContent).
  - eexists _, _. split; [by rewrite emit_extend|].
    by apply FanoutRenderFails.
Qed.

Lemma sendAnnouncementEmailToUsers_spec env title content files groupId w :
  exists r evs,
    sendAnnouncementEmailToUsers env title content files groupId w
    = (r, extend (events evs) w)
    /\ announce_run env title content files groupId w r evs.
Proof.
  unfold sendAnnouncementEmailToUsers.
  destruct (truthy groupId) as [g|] eqn:Hg.
  - run_js.
    destruct (db_select env (clock w) "group_members") as [e|] eqn:Hsel.
    { eexists _, _. split; [|by apply (AnnounceMembersError _ _ _ _ _ _ g e)].
      by rewrite !emit_extend, extend_app. }
    destruct (run_members_query g w) as [|m ms] eqn:Hm.
    { eexists _, _. split; [|by apply (AnnounceNoMembers _ _ _ _ _ _ g)].
      by rewrite emit_extend. }
    destruct (notify_users_spec env title content files
                (mkUsersQuery true (Some (m :: ms)))
                (emit (EvSelect "group_members" None) w))
      as (r & evs & Hrun & Hf).
    rewrite Hrun. eexists _, _. split.
    + by rewrite emit_extend, extend_app.
    + apply (AnnounceGroup _ _ _ _ _ _ g); [done|by rewrite Hm|].
      unfold audience. rewrite Hg, Hm.
      by rewrite emit_extend, run_users_query_extend in Hf.
  - destruct (notify_users_spec env title content files
                (mkUsersQuery true None) w) as (r & evs & Hrun & Hf).
    eexists _, _. split; [exact Hrun|].
    apply AnnouncePublic; [done|]. unfold audience. by rewrite Hg.
Qed.

Lemma dispatch_event_notification ev :
  dispatch_event ev -> notification_event ev.
Proof. by destruct ev. Qed.

Lemma fanout_run_facts env title content files recipients r evs :
  fanout_run env title content files recipients r evs ->
  fanout_facts env title content files recipients r evs.
Proof.
  destruct 1 as [e | Hnil | e Hne Hr | htmlContent evs Hne Hr (Hs & Hd & Hl)].
  - facts_cases.
    + by repeat constructor.
    + intros table e' [Heq | Hin%list_elem_of_singleton]%elem_of_cons;
        [|done]. injection Heq as -> ->. set_solver.
    + intros m e' [Heq | Hin%list_elem_of_singleton]%elem_of_cons; done.
    + done.
    + by left.
    + intros [Hf _]%Forall_cons. by destruct Hf.
    + done.
  - facts_cases.
    + by repeat constructor.
    + intros table e' [Heq | Hin%list_elem_of_singleton]%elem_of_cons; done.
    + intros m e' [Heq | Hin%list_elem_of_singleton]%elem_of_cons; done.
    + done.
    + by left.
    + intros _ htmlContent _. by rewrite Hnil.
    + done.
  - facts_cases.
    + by repeat constructor.
    + intros table e' Hin%list_elem_of_singleton. done.
    + intros m e' Hin%list_elem_of_singleton. done.
    + by intros e' [= ->].
    + by left.
    + intros _ htmlContent Hr'. congruence.
    + done.
  - facts_cases.
    + constructor; [done|].
      eapply Forall_impl; [exact Hd|]. apply dispatch_event_notification.
    + intros table e' [Heq | Hin]%elem_of_cons; [done|].
      by apply (proj1 (Forall_forall _ _) Hd) in Hin.
    + intros m e' [Heq | Hin]%elem_of_cons; [done|].
      apply list_elem_of_further. by apply Hl.
    + done.
    + right. by exists htmlContent.
    + intros _ html' Hr'. rewrite Hr in Hr'. by injection Hr' as <-.
    + done.
Qed.

Lemma announce_run_facts env title content files groupId w r evs :
  announce_run env title content files groupId w r evs ->
  fanout_facts env title content files (audience groupId w) r evs.
Proof.
  destruct 1 as [g e Hg | g Hg Hm | g r evs Hg Hm Hf | r evs Hg Hf].
  - facts_cases.
    + by repeat constructor.
    + intros table e' [Heq | Hin%list_elem_of_singleton]%elem_of_cons;
        [|done]. injection Heq as -> ->. set_solver.
    + intros m e' [Heq | Hin%list_elem_of_singleton]%elem_of_cons; done.
    + done.
    + by left.
    + intros [Hf _]%Forall_cons. by destruct Hf.
    + done.
  - assert (Ha : audience groupId w = [])
      by (unfold audience; by rewrite Hg, Hm).
    facts_cases.
    + by repeat constructor.
    + intros table e' Hin%list_elem_of_singleton. done.
    + intros m e' Hin%list_elem_of_singleton. done.
    + done.
    + by left.
    + intros _ htmlContent _. by rewrite Ha.
    + done.
  - apply fanout_run_facts in Hf.
    destruct Hf as (Hn & Hsel & Hsend & Hthrow & Hs & Hok & Hnil).
    facts_cases.
    + by constructor.
    + intros table e' [Heq | Hin]%elem_of_cons; [done|].
      apply list_elem_of_further. by apply Hsel.
    + intros m e' [Heq | Hin]%elem_of_cons; [done|].
      apply list_elem_of_further. by apply Hsend.
    + done.
    + done.
    + intros [_ Hf]%Forall_cons html Hr. by apply Hok.
    + done.
  - by apply fanout_run_facts.
Qed.

(** ** The runs of [createAnnouncements] *)

Lemma announce_run_extend env title content files groupId d w r evs :
  announce_run env title content files groupId (extend d w) r evs ->
  announce_run env title content files groupId w r evs.
Proof.
  destruct 1 as [g e Hg | g Hg Hm | g r evs Hg Hm Hf | r evs Hg Hf].
  - by apply (AnnounceMembersError _ _ _ _ _ _ g).
  - by apply (AnnounceNoMembers _ _ _ _ _ _ g).
  - by apply (AnnounceGroup _ _ _ _ _ _ g).
  - by apply AnnouncePublic.
Qed.

Lemma notify_spec env data fileData groupId w :
  exists r evs,
    notify env data fileData groupId w
    = (Returned tt, extend (events (evs ++ dropped r)) w)
    /\ announce_run env (title data) (content data) fileData groupId w r evs.
Proof.
  destruct (sendAnnouncementEmailToUsers_spec env (title data) (content data)
              fileData groupId w) as (r & evs & Hrun & Hr).
  exists r, evs. split; [|done].
  unfold notify, try_catch. rewrite Hrun. destruct r as [[]|e]; simpl.
  - by rewrite app_nil_r.
  - run_js. by rewrite emit_extend, extend_app.
Qed.

Lemma insert_announcement_run env p w :
  insert_announcement env p w
  = (let resp := db_insert_announcement env (clock w) p in
     (Returned resp,
      extend (match resp with
              | InsertOk i ts => inserted p i ts
              | InsertError _ => events [EvInsertAnnouncement p resp]
              end) w)).
Proof.
  unfold insert_announcement. cbn zeta.
  destruct (db_insert_announcement env (clock w) p).
  - unfold extend, emit, inserted. simpl. by rewrite app_nil_r.
  - by rewrite emit_extend.
Qed.

Lemma createAnnouncements_spec env data userId groupId w :
  exists r d,
    createAnnouncements env data userId groupId w = (r, extend d w)
    /\ create_run env data userId groupId w r d.
Proof.
  unfold createAnnouncements, mbind, Js_bind.
  destruct (upload_stage_spec env (files data) w) as (rA & dA & HrunA & HA).
  unfold mret, Js_ret in HrunA. unfold mret, Js_ret. rewrite HrunA.
  destruct rA as [fileData|e].
  2: { exists (Thrown e), dA. split; [done|]. by apply CreateUploadFails. }
  rewrite insert_announcement_run. cbn zeta.
  set (p := announcement_payload data userId groupId).
  destruct (db_insert_announcement env (clock (extend dA w)) p)
    as [i ts|e] eqn:Hins.
  2: { eexists _, _. split; [|by apply (CreateInsertFails _ _ _ _ _ fileData)].
       run_js. rewrite emit_extend, !extend_app. reflexivity. }
  destruct (file_stage_spec env i fileData
              (extend (inserted p i ts) (extend dA w)))
    as (rC & dC & HrunC & HC).
  unfold mret, Js_ret in HrunC. rewrite HrunC.
  destruct rC as [us|e].
  2: { eexists _, _. split; [by rewrite !extend_app|].
       by apply (CreateFileRowsFail _ _ _ _ _ fileData). }
  destruct (notify_spec env data fileData groupId
              (extend dC (extend (inserted p i ts) (extend dA w))))
    as (rN & evsN & HrunN & HN).
  rewrite HrunN. eexists _, _. split; [by rewrite !extend_app|].
  apply (CreateDone _ _ _ _ _ fileData _ _ _ us); [done|done|].
  by do 3 apply announce_run_extend in HN.
Qed.

Lemma createAnnouncements_run env data userId groupId w r w' :
  createAnnouncements env data userId groupId w = (r, w') ->
  exists d, w' = extend d w /\ create_run env data userId groupId w r d.
Proof.
  intros Hrun.
  destruct (createAnnouncements_spec env data userId groupId w)
    as (r0 & d & Hspec & Hd).
  rewrite Hspec in Hrun. injection Hrun as <- <-. by exists d.
Qed.

Lemma announcement_payload_visibility data userId groupId :
  match groupId with
  | None =>
      Announcement.visibility (announcement_payload data userId groupId)
      = "public"
      /\ Announcement.group_id (announcement_payload data userId groupId)
         = None
  | Some g =>
      g <> "" ->
      Announcement.visibility (announcement_payload data userId groupId)
      = "private"
      /\ Announcement.group_id (announcement_payload data userId groupId)
         = Some g
  end.
Proof.
  destruct groupId as [g|]; [|done]. intros Hg.
  unfold announcement_payload, truthy. simpl. by destruct (decide (g = "")).
Qed.

(** ** Visibility of a created announcement (C1) *)

Lemma new_announcements_app d1 d2 :
  new_announcements (delta_app d1 d2)
  = new_announcements d1 ++ new_announcements d2.
Proof. reflexivity. Qed.

Lemma new_files_app d1 d2 :
  new_files (delta_app d1 d2) = new_files d1 ++ new_files d2.
Proof. reflexivity. Qed.

Lemma new_events_app d1 d2 :
  new_events (delta_app d1 d2) = new_events d1 ++ new_events d2.
Proof. reflexivity. Qed.

(** The rows a run adds to [announcement]: none, or the one row built
    from the payload. *)
Lemma create_run_announcements env data userId groupId w r d :
  create_run env data userId groupId w r d ->
  (new_announcements d = [] /\ forall i, r <> Returned i)
  \/ exists i ts,
       new_announcements d
       = [Announcement.mkRow i ts (announcement_payload data userId groupId)]
       /\ forall j, r = Returned j -> j = i.
Proof.
  destruct 1 as [e dA HA | fileData dA e HA | fileData dA i ts e dC HA HC
                 | fileData dA i ts us dC rN evsN HA HC HN];
    destruct HA as (Ha & _); rewrite ?new_announcements_app, Ha.
  - by left.
  - by left.
  - right. exists i, ts. destruct HC as (-> & _). split; [done|]. by intros j.
  - right. exists i, ts. destruct HC as (-> & _). split; [done|].
    by intros j [= ->].
Qed.

(** [POST /] passes [req.body.groupId || null]: null or a non-empty
    string, never the empty one. *)
Lemma truthy_nonempty groupId g :
  truthy groupId = Some g -> groupId = Some g /\ g <> "".
Proof.
  destruct groupId as [h|]; [|done]. unfold truthy.
  destruct (decide (h = "")); [done|]. by intros [= <-].
Qed.

(** C1 (amended).  Every call of [createAnnouncements] adds at most one
    row to [announcement], and exactly the row whose id it returns when it
    returns.  That row has visibility "public" and a null [group_id] when
    [groupId] is null, and visibility "private" with [group_id] equal to
    [groupId] when [groupId] is a non-empty string. *)
Theorem createAnnouncements_visibility env data userId groupId w r w' :
  createAnnouncements env data userId groupId w = (r, w') ->
  exists added,
    announcement w' = announcement w ++ added
    /\ length added <= 1
    /\ (forall fetched, r = Returned fetched ->
          exists row, added = [row] /\ Announcement.id row = fetched)
    /\ forall row, row ∈ added ->
         match groupId with
         | None =>
             Announcement.visibility (Announcement.cols row) = "public"
             /\ Announcement.group_id (Announcement.cols row) = None
         | Some g =>
             g <> "" ->
             Announcement.visibility (Announcement.cols row) = "private"
             /\ Announcement.group_id (Announcement.cols row) = Some g
         end.
Proof.
  intros Hrun.
  destruct (createAnnouncements_run _ _ _ _ _ _ _ Hrun) as (d & -> & Hd).
  exists (new_announcements d). split; [done|].
  destruct (create_run_announcements _ _ _ _ _ _ _ Hd)
    as [[-> Hr] | (i & ts & -> & Hr)].
  - split; [simpl; lia|]. split; [by intros j ?%Hr|].
    by intros row ?%elem_of_nil.
  - split; [simpl; lia|]. split.
    + intros j ->%Hr. by eexists.
    + intros row ->%list_elem_of_singleton.
      exact (announcement_payload_visibility data userId groupId).
Qed.

Lemma createAnnouncements_visibility_witness :
  exists added,
    announcement
      (createAnnouncements quiet_env notice "u1" (Some "choir") parish).2
    = announcement parish ++ added
    /\ length added <= 1
    /\ (forall fetched,
          (createAnnouncements quiet_env notice "u1" (Some "choir") parish).1
          = Returned fetched ->
          exists row, added = [row] /\ Announcement.id row = fetched)
    /\ forall row, row ∈ added ->
         "choir" <> "" ->
         Announcement.visibility (Announcement.cols row) = "private"
         /\ Announcement.group_id (Announcement.cols row) = Some "choir".
Proof.
  apply (createAnnouncements_visibility quiet_env notice "u1" (Some "choir")
           parish).
  apply surjective_pairing.
Defined.

(** C1, as stated, fails for the empty group id: it is not null, yet the
    row is public and keeps the empty string as its [group_id]. *)
Lemma createAnnouncements_empty_groupId_is_public :
  exists row,
    announcement
      (createAnnouncements quiet_env notice "u1" (Some "") parish).2
    = announcement parish ++ [row]
    /\ Announcement.visibility (Announcement.cols row) = "public"
    /\ Announcement.visibility (Announcement.cols row) <> "private"
    /\ Announcement.group_id (Announcement.cols row) = Some "".
Proof. eexists. vm_compute. repeat split. discriminate. Qed.

(** ** The creation handlers (C2, C6, C10) *)

Lemma file_object_unnamed file : ~ named (file_object file).
Proof. intros [s Hs]. vm_compute in Hs. discriminate Hs. Qed.

Lemma process_files_unnamed reqFiles :
  Forall (fun f => ~ named f) (process_files reqFiles).
Proof.
  destruct reqFiles as [l|]; [|constructor]. simpl.
  apply Forall_fmap, Forall_forall. intros file _. apply file_object_unnamed.
Qed.

(** A call on file objects without a name, at least one of them, fails
    before it issues anything. *)
Lemma create_run_unnamed env data userId groupId w r d :
  create_run env data userId groupId w r d ->
  files data <> [] ->
  Forall (fun f => ~ named f) (files data) ->
  (exists e, r = Thrown e) /\ d = events [].
Proof.
  intros Hrun Hne Hall.
  assert (Hex : Exists (fun f => ~ named f) (files data)).
  { destruct (files data) as [|f fs]; [done|].
    apply Forall_cons in Hall as [Hf _]. by apply Exists_cons_hd. }
  destruct Hrun as [e dA HA | fileData dA e HA | fileData dA i ts e dC HA HC
                    | fileData dA i ts us dC rN evsN HA HC HN];
    destruct HA as (Ha & Hf & _ & _ & _ & Hthrown & Hnone);
    try (by destruct (Hthrown Hex)).
  split; [by exists e|]. rewrite (delta_events_only dA Ha Hf).
  by rewrite (Hnone Hall).
Qed.

Lemma create_run_extend env data userId groupId d0 w r d :
  create_run env data userId groupId (extend d0 w) r d ->
  create_run env data userId groupId w r d.
Proof.
  destruct 1 as [e dA HA | fileData dA e HA | fileData dA i ts e dC HA HC
                 | fileData dA i ts us dC rN evsN HA HC HN].
  - by apply CreateUploadFails.
  - by apply (CreateInsertFails _ _ _ _ _ fileData).
  - by apply (CreateFileRowsFail _ _ _ _ _ fileData).
  - apply (CreateDone _ _ _ _ _ fileData _ _ _ us); [done|done|].
    by apply announce_run_extend in HN.
Qed.

Lemma post_announcement_run env req w :
  exists r d,
    create_run env
      (mkData (body_title req) (body_content req)
              (process_files (req_files req)))
      (user_id req) (truthy (body_groupId req)) w r d
    /\ post_announcement env req w
       = match r with
         | Returned i =>
             (Returned (created_json "Announcement created successfully" i),
              extend d w)
         | Thrown e =>
             (Returned (failed_json "Failed to create announcement" e),
              extend (delta_app d
                        (events [EvConsoleError "Error creating announcement:"
                                                (message e)])) w)
         end.
Proof.
  destruct (createAnnouncements_spec env
              (mkData (body_title req) (body_content req)
                      (process_files (req_files req)))
              (user_id req) (truthy (body_groupId req)) w)
    as (r & d & Hrun & Hd).
  exists r, d. split; [done|].
  unfold post_announcement, try_catch, mbind, Js_bind. rewrite Hrun.
  destruct r as [i|e]; [done|].
  run_js. by rewrite emit_extend, extend_app.
Qed.

Lemma post_group_announcement_run env req w :
  let resp := db_select env (clock w) "group_members" in
  let checked := events [EvSelect "group_members" resp] in
  (~ membership_granted env req w ->
   post_group_announcement env req w
   = (Returned forbidden_json, extend checked w))
  /\ (membership_granted env req w ->
      exists r d,
        create_run env
          (mkData (body_title req) (body_content req)
                  (process_files (req_files req)))
          (user_id req) (Some (params_groupId req)) w r d
        /\ post_group_announcement env req w
           = match r with
             | Returned i =>
                 (Returned
                    (created_json "Group announcement created successfully" i),
                  extend (delta_app checked d) w)
             | Thrown e =>
                 (Returned
                    (failed_json "Failed to create group announcement" e),
                  extend
                    (delta_app checked
                       (delta_app d
                          (events [EvConsoleError
                                     "Error creating group announcement:"
                                     (message e)]))) w)
             end).
Proof.
  cbn zeta. unfold membership_granted, post_group_announcement, try_catch.
  run_js. rewrite emit_extend.
  destruct (db_select env (clock w) "group_members") as [e|] eqn:Hsel.
  { split; [done|]. by intros [? _]. }
  destruct (run_membership_query (user_id req) (params_groupId req) w)
    as [|m [|m' ms]] eqn:Hm; simpl.
  - split; [done|]. by intros [_ [m' ?]].
  - split; [intros []; eauto|]. intros _.
    destruct (createAnnouncements_spec env
                (mkData (body_title req) (body_content req)
                        (process_files (req_files req)))
                (user_id req) (Some (params_groupId req))
                (extend (events [EvSelect "group_members" None]) w))
      as (r & d & Hrun & Hd).
    exists r, d. split.
    { by apply create_run_extend in Hd. }
    rewrite Hrun. destruct r as [i|e]; [by rewrite extend_app|].
    by rewrite emit_extend, !extend_app, delta_app_assoc.
  - split; [done|]. by intros [_ [m0 ?]].
Qed.

Lemma membership_granted_dec env req w :
  membership_granted env req w \/ ~ membership_granted env req w.
Proof.
  unfold membership_granted.
  destruct (db_select env (clock w) "group_members") as [e|];
    [right; by intros [? _]|].
  destruct (run_membership_query (user_id req) (params_groupId req) w)
    as [|m [|m' ms]].
  - right. by intros [_ [m ?]].
  - left. eauto.
  - right. by intros [_ [m0 ?]].
Qed.

Lemma file_object_fields file :
  dom (file_object file)
  = ({[ "name"; "type"; "size"; "arrayBuffer"; "stream" ]} : gset string)
  /\ get (file_object file) "originalname" = JUndefined
  /\ get (file_object file) "buffer" = JUndefined
  /\ get (file_object file) "mimetype" = JUndefined.
Proof.
  split; [|by vm_compute].
  unfold file_object. rewrite !dom_insert_L, dom_singleton_L. set_solver.
Qed.

(** C2 (amended).  A creation request that carries at least one file hands
    [createAnnouncements] objects with the fields [name], [type], [size],
    [arrayBuffer] and [stream] only, so that [originalname], [buffer] and
    [mimetype] read as undefined.  On [POST /] the request is answered 500;
    on the group route it is answered 500 when the membership check passes
    and 403 when it does not.  In every case no upload and no insert is
    issued and the two announcement tables are unchanged. *)
Theorem file_bearing_request_fails env req f fs w :
  req_files req = Some (f :: fs) ->
  Forall (fun o =>
            dom o = ({[ "name"; "type"; "size"; "arrayBuffer"; "stream" ]}
                     : gset string)
            /\ get o "originalname" = JUndefined
            /\ get o "buffer" = JUndefined
            /\ get o "mimetype" = JUndefined)
         (process_files (req_files req))
  /\ (exists j w',
        post_announcement env req w = (Returned j, w')
        /\ Response.status j = 500
        /\ announcement w' = announcement w
        /\ announcement_files w' = announcement_files w
        /\ nothing_stored (events_since w w'))
  /\ (exists j w',
        post_group_announcement env req w = (Returned j, w')
        /\ (membership_granted env req w -> Response.status j = 500)
        /\ (~ membership_granted env req w -> Response.status j = 403)
        /\ announcement w' = announcement w
        /\ announcement_files w' = announcement_files w
        /\ nothing_stored (events_since w w')).
Proof.
  intros Hfiles.
  assert (Hne : process_files (req_files req) <> []) by by rewrite Hfiles.
  pose proof (process_files_unnamed (req_files req)) as Hun.
  split; [|split].
  - destruct (req_files req) as [l|]; [|constructor]. simpl.
    apply Forall_fmap, Forall_forall. intros file _.
    apply file_object_fields.
  - destruct (post_announcement_run env req w) as (r & d & Hd & Hrun).
    destruct (create_run_unnamed _ _ _ _ _ _ _ Hd Hne Hun) as [[e ->] ->].
    eexists _, _. split; [exact Hrun|]. rewrite events_since_extend.
    repeat split; simpl; try by rewrite app_nil_r.
    repeat constructor; by intros [].
  - destruct (post_group_announcement_run env req w) as [Hno Hyes].
    destruct (membership_granted_dec env req w) as [Hg | Hg].
    + destruct (Hyes Hg) as (r & d & Hd & Hrun).
      destruct (create_run_unnamed _ _ _ _ _ _ _ Hd Hne Hun) as [[e ->] ->].
      eexists _, _. split; [exact Hrun|]. rewrite events_since_extend.
      repeat split; simpl; try done; try by rewrite app_nil_r.
      repeat constructor; by intros [].
    + eexists _, _. split; [exact (Hno Hg)|]. rewrite events_since_extend.
      repeat split; simpl; try done; try by rewrite app_nil_r.
      repeat constructor; by intros [].
Qed.

Lemma file_bearing_request_fails_witness :
  (exists j w',
     post_announcement quiet_env (upload_request "u1") parish
     = (Returned j, w')
     /\ Response.status j = 500
     /\ announcement w' = announcement parish)
  /\ (exists j w',
        post_group_announcement quiet_env (upload_request "u1") parish
        = (Returned j, w')
        /\ Response.status j = 500
        /\ announcement w' = announcement parish).
Proof.
  assert (Hg : membership_granted quiet_env (upload_request "u1") parish).
  { split; [reflexivity|]. eexists. reflexivity. }
  destruct (file_bearing_request_fails quiet_env (upload_request "u1")
              (mkMulterFile "poster.jpg" "image/jpeg" 3 []) [] parish
              eq_refl)
    as (_ & (j & w' & Hrun & Hs & Ha & _)
        & (j2 & w2 & Hrun2 & Hs2 & _ & Ha2 & _)).
  split.
  - exists j, w'. split; [exact Hrun|]. split; [exact Hs|exact Ha].
  - exists j2, w2. split; [exact Hrun2|]. split; [exact (Hs2 Hg)|exact Ha2].
Defined.

(** C2, as stated, fails on the group route: a file-bearing request of a
    user who is not a member of the group is answered 403, not 500. *)
Lemma file_bearing_request_of_non_member_gets_403 :
  req_files (upload_request "u2")
  = Some [mkMulterFile "poster.jpg" "image/jpeg" 3 []]
  /\ exists j,
       (post_group_announcement quiet_env (upload_request "u2") parish).1
       = Returned j
       /\ Response.status j = 403
       /\ Response.status j <> 500.
Proof.
  split; [reflexivity|]. eexists. vm_compute. repeat split. discriminate.
Qed.

(** C6.  When [group_members] has no row for the caller and the group, the
    group route answers 403 after the membership query alone: nothing else
    is issued, so [createAnnouncements] is not called, and the two
    announcement tables are unchanged. *)
Theorem non_member_is_refused env req w :
  run_membership_query (user_id req) (params_groupId req) w = [] ->
  exists j w',
    post_group_announcement env req w = (Returned j, w')
    /\ Response.status j = 403
    /\ events_since w w'
       = [EvSelect "group_members" (db_select env (clock w) "group_members")]
    /\ announcement w' = announcement w
    /\ announcement_files w' = announcement_files w.
Proof.
  intros Hm.
  destruct (post_group_announcement_run env req w) as [Hno _].
  eexists _, _. split.
  - apply Hno. intros [_ [m Hm']]. by rewrite Hm in Hm'.
  - rewrite events_since_extend. repeat split; simpl; by rewrite ?app_nil_r.
Qed.

Lemma non_member_is_refused_witness :
  exists j w',
    post_group_announcement quiet_env
      (mkRequest "Notice" "<p>hi</p>" None "choir" "u2" None) parish
    = (Returned j, w')
    /\ Response.status j = 403
    /\ events_since parish w' = [EvSelect "group_members" None]
    /\ announcement w' = announcement parish
    /\ announcement_files w' = announcement_files parish.
Proof.
  apply (non_member_is_refused quiet_env
           (mkRequest "Notice" "<p>hi</p>" None "choir" "u2" None) parish).
  reflexivity.
Defined.

(** C10.  When the membership query itself fails, the group route answers
    403 as well, whatever [group_members] holds, and issues nothing
    else. *)
Theorem failed_membership_query_is_refused env req w e :
  db_select env (clock w) "group_members" = Some e ->
  exists j w',
    post_group_announcement env req w = (Returned j, w')
    /\ Response.status j = 403
    /\ Response.status j <> 500
    /\ events_since w w' = [EvSelect "group_members" (Some e)]
    /\ announcement w' = announcement w
    /\ announcement_files w' = announcement_files w.
Proof.
  intros Hsel.
  destruct (post_group_announcement_run env req w) as [Hno _].
  eexists _, _. split.
  - apply Hno. intros [Hok _]. by rewrite Hsel in Hok.
  - rewrite events_since_extend, Hsel.
    repeat split; simpl; by rewrite ?app_nil_r.
Qed.

Lemma failed_membership_query_is_refused_witness :
  run_membership_query "u1" "choir" parish = [GroupMember.mkRow "u1" "choir"]
  /\ exists j w',
       post_group_announcement blind_store_env
         (mkRequest "Notice" "<p>hi</p>" None "choir" "u1" None) parish
       = (Returned j, w')
       /\ Response.status j = 403
       /\ Response.status j <> 500
       /\ events_since parish w'
          = [EvSelect "group_members" (Some (mkError "connection reset"))]
       /\ announcement w' = announcement parish
       /\ announcement_files w' = announcement_files parish.
Proof.
  split; [reflexivity|].
  apply (failed_membership_query_is_refused blind_store_env
           (mkRequest "Notice" "<p>hi</p>" None "choir" "u1" None) parish
           (mkError "connection reset")).
  reflexivity.
Defined.

(** ** Failed uploads (C3) *)

Lemma upload_failed_is_upload ev : upload_failed ev -> is_upload ev.
Proof. by destruct ev. Qed.

Lemma upload_event_kind env files ev :
  upload_event env files ev -> ~ is_insert ev /\ ~ insert_failed ev.
Proof. by_kind ev. Qed.

Lemma file_stage_event_kind i ev :
  file_stage_event i ev -> ~ is_upload ev.
Proof. by_kind ev. Qed.

Lemma notification_event_kind ev :
  notification_event ev ->
  ~ is_upload ev /\ ~ is_insert ev /\ ~ insert_failed ev.
Proof. by_kind ev. Qed.

Lemma announce_run_events env title content files groupId w r evs :
  announce_run env title content files groupId w r evs ->
  Forall notification_event (evs ++ dropped r).
Proof.
  intros Hrun. apply Forall_app. split.
  - by destruct (announce_run_facts _ _ _ _ _ _ _ _ Hrun) as (H & _).
  - destruct r; by repeat constructor.
Qed.

(** What follows the upload stage issues no upload. *)
Lemma create_run_after_uploads env data userId groupId w r d :
  create_run env data userId groupId w r d ->
  exists rA dA rest,
    upload_stage_facts env (files data) rA dA
    /\ new_events d = new_events dA ++ rest
    /\ Forall (fun ev => ~ is_upload ev) rest
    /\ match rA with
       | Thrown e => r = Thrown e /\ d = dA
       | Returned _ => True
       end.
Proof.
  destruct 1 as [e dA HA | fileData dA e HA | fileData dA i ts e dC HA HC
                 | fileData dA i ts us dC rN evsN HA HC HN].
  - exists (Thrown e), dA, []. rewrite app_nil_r.
    split; [done|]. split; [done|]. split; [constructor|done].
  - exists (Returned fileData), dA. eexists. split; [done|].
    split; [reflexivity|]. split; [|done].
    repeat constructor; by intros [].
  - exists (Returned fileData), dA. eexists. split; [done|].
    split; [reflexivity|]. split; [|done].
    rewrite new_events_app. apply Forall_app. split.
    + repeat constructor; by intros [].
    + destruct HC as (_ & _ & Hev & _).
      eapply Forall_impl; [exact Hev|]. apply file_stage_event_kind.
  - exists (Returned fileData), dA. eexists. split; [done|].
    split; [reflexivity|]. split; [|done].
    rewrite !new_events_app. apply Forall_app. split.
    { repeat constructor; by intros []. }
    apply Forall_app. split.
    + destruct HC as (_ & _ & Hev & _).
      eapply Forall_impl; [exact Hev|]. apply file_stage_event_kind.
    + eapply Forall_impl; [exact (announce_run_events _ _ _ _ _ _ _ _ HN)|].
      intros ev Hev. by apply notification_event_kind in Hev as [? _].
Qed.

(** C3.  When an upload of a call fails, the call throws; it issues no
    insert, and the two announcement tables are as before.  (A failed
    upload implies that the call has at least one file.) *)
Theorem failed_upload_aborts env data userId groupId w r w' :
  createAnnouncements env data userId groupId w = (r, w') ->
  Exists upload_failed (events_since w w') ->
  1 <= length (files data)
  /\ (exists e, r = Thrown e)
  /\ Forall (fun ev => ~ is_insert ev) (events_since w w')
  /\ announcement w' = announcement w
  /\ announcement_files w' = announcement_files w.
Proof.
  intros Hrun Hex.
  destruct (createAnnouncements_run _ _ _ _ _ _ _ Hrun) as (d & -> & Hd).
  rewrite events_since_extend in *.
  destruct (create_run_after_uploads _ _ _ _ _ _ _ Hd)
    as (rA & dA & rest & HA & Hev & Hrest & HrA).
  rewrite Hev in Hex. apply Exists_app in Hex as [Hex | Hex].
  2: { apply Exists_exists in Hex as (ev & Hin & Hf).
       apply upload_failed_is_upload in Hf.
       by apply (proj1 (Forall_forall _ _) Hrest) in Hin. }
  destruct HA as (Ha & Hf & Hup & Hfail & _).
  destruct (Hfail Hex) as [e ->]. destruct HrA as [-> ->].
  split.
  { apply Exists_exists in Hex as (ev & Hin & Hfl).
    apply (proj1 (Forall_forall _ _) Hup) in Hin.
    destruct ev; try done. destruct Hin as (file & _ & _ & Hfile & _).
    destruct (files data); [by apply elem_of_nil in Hfile|simpl; lia]. }
  split; [by exists e|]. split.
  { eapply Forall_impl; [exact Hup|].
    intros ev Hk. by apply upload_event_kind in Hk as [? _]. }
  unfold extend. simpl. by rewrite Ha, Hf, !app_nil_r.
Qed.

Lemma failed_upload_aborts_witness :
  Exists upload_failed
    (events_since parish
       (createAnnouncements full_storage_env notice_with_files "u1" None
                            parish).2)
  /\ (exists e,
        (createAnnouncements full_storage_env notice_with_files "u1" None
                             parish).1 = Thrown e)
  /\ announcement
       (createAnnouncements full_storage_env notice_with_files "u1" None
                            parish).2
     = announcement parish.
Proof.
  assert (Hex : Exists upload_failed
                  (events_since parish
                     (createAnnouncements full_storage_env notice_with_files
                                          "u1" None parish).2)).
  { vm_compute. apply Exists_cons_tl, Exists_cons_hd. exact I. }
  split; [exact Hex|].
  destruct (failed_upload_aborts full_storage_env notice_with_files "u1" None
              parish _ _ (surjective_pairing _) Hex) as (_ & Hr & _ & Ha & _).
  by split.
Defined.

(** ** Runs in which everything is persisted (C9) *)

Lemma create_run_success env data userId groupId w r d :
  create_run env data userId groupId w r d ->
  Forall named (files data) ->
  all_persisted (new_events d) ->
  exists fileData dA i ts us dC rN evsN,
    r = Returned i
    /\ d = delta_app dA
             (delta_app
                (inserted (announcement_payload data userId groupId) i ts)
                (delta_app dC (events (evsN ++ dropped rN))))
    /\ upload_stage_facts env (files data) (Returned fileData) dA
    /\ length fileData = length (files data)
    /\ file_stage_facts i fileData (Returned us) dC
    /\ length (new_files dC) = length fileData
    /\ announce_run env (title data) (content data) fileData groupId w
                    rN evsN.
Proof.
  intros Hrun Hnamed Hok. unfold all_persisted in Hok.
  destruct Hrun as [e dA HA | fileData dA e HA | fileData dA i ts e dC HA HC
                    | fileData dA i ts us dC rN evsN HA HC HN].
  - destruct HA as (_ & _ & _ & _ & Hret & _).
    destruct Hret as (fd & Hfd & _); [done| |done].
    eapply Forall_impl; [exact Hok|]. by intros ev [? _].
  - rewrite new_events_app in Hok. apply Forall_app in Hok as [_ Hins].
    apply Forall_cons in Hins as [[_ Hins] _]. by destruct Hins.
  - rewrite !new_events_app in Hok.
    apply Forall_app in Hok as [_ [_ Hc]%Forall_app].
    destruct HC as (_ & _ & _ & Hret).
    destruct Hret as [[us Hus] _]; [|done].
    eapply Forall_impl; [exact Hc|]. by intros ev [_ ?].
  - rewrite !new_events_app in Hok.
    apply Forall_app in Hok as [Ha [_ [Hc _]%Forall_app]%Forall_app].
    exists fileData, dA, i, ts, us, dC, rN, evsN.
    split; [done|]. split; [done|]. split; [done|].
    pose proof HA as (_ & _ & _ & _ & Hret & _).
    destruct Hret as (fd & [= <-] & Hlen); [done| |].
    { eapply Forall_impl; [exact Ha|]. by intros ev [? _]. }
    split; [done|]. split; [done|]. split; [|done].
    pose proof HC as (_ & _ & _ & Hret').
    destruct Hret' as [_ Hlen']; [|done].
    eapply Forall_impl; [exact Hc|]. by intros ev [_ ?].
Qed.

(** C9.  When every file of a call has a name and no upload and no insert
    of the call fails, the call returns the id of the announcement row it
    adds, and it adds exactly one file row per file, each referencing that
    id.  No insert is issued before the insert of the announcement has
    succeeded, so the file rows are inserted after their parent exists. *)
Theorem all_files_are_linked env data userId groupId w r w' :
  createAnnouncements env data userId groupId w = (r, w') ->
  Forall named (files data) ->
  all_persisted (events_since w w') ->
  exists fetched ts rows,
    r = Returned fetched
    /\ announcement w'
       = announcement w
         ++ [Announcement.mkRow fetched ts
               (announcement_payload data userId groupId)]
    /\ announcement_files w' = announcement_files w ++ rows
    /\ length rows = length (files data)
    /\ Forall (fun row => AnnouncementFile.announcement_id row = fetched) rows
    /\ exists before after,
         events_since w w'
         = before
           ++ EvInsertAnnouncement (announcement_payload data userId groupId)
                                   (InsertOk fetched ts)
              :: after
         /\ Forall (fun ev => ~ is_insert ev) before.
Proof.
  intros Hrun Hnamed Hok.
  destruct (createAnnouncements_run _ _ _ _ _ _ _ Hrun) as (d & -> & Hd).
  rewrite events_since_extend in *.
  destruct (create_run_success _ _ _ _ _ _ _ Hd Hnamed Hok)
    as (fileData & dA & i & ts & us & dC & rN & evsN
        & -> & -> & HA & Hlen & HC & HlenC & HN).
  destruct HA as (Ha & Hf & Hup & _). destruct HC as (Hca & Hcf & _).
  exists i, ts, (new_files dC).
  split; [done|]. split.
  { unfold extend. simpl. by rewrite Ha, Hca. }
  split.
  { unfold extend. simpl. by rewrite Hf, app_nil_r. }
  split; [congruence|]. split; [done|].
  exists (new_events dA). eexists. split; [reflexivity|].
  eapply Forall_impl; [exact Hup|].
  intros ev Hk. by apply upload_event_kind in Hk as [? _].
Qed.

Lemma all_files_are_linked_witness :
  exists fetched ts rows,
    (createAnnouncements quiet_env notice_with_files "u1" (Some "choir")
                         parish).1 = Returned fetched
    /\ announcement
         (createAnnouncements quiet_env notice_with_files "u1" (Some "choir")
                              parish).2
       = announcement parish
         ++ [Announcement.mkRow fetched ts
               (announcement_payload notice_with_files "u1" (Some "choir"))]
    /\ announcement_files
         (createAnnouncements quiet_env notice_with_files "u1" (Some "choir")
                              parish).2
       = announcement_files parish ++ rows
    /\ length rows = 2
    /\ Forall (fun row => AnnouncementFile.announcement_id row = fetched) rows.
Proof.
  destruct (all_files_are_linked quiet_env notice_with_files "u1"
              (Some "choir") parish _ _ (surjective_pairing _))
    as (fetched & ts & rows & Hr & Ha & Hf & Hlen & Hall & _).
  - repeat constructor; eexists; by vm_compute.
  - vm_compute. repeat constructor; by intros [].
  - exists fetched, ts, rows.
    split; [exact Hr|]. split; [exact Ha|]. split; [exact Hf|].
    split; [exact Hlen|exact Hall].
Defined.



Lemma dropped_kind r :
  Forall (fun ev => ~ select_failed ev) (dropped r) /\ sends (dropped r) = [].
Proof. destruct r; split; try done; repeat constructor; by intros []. Qed.

Lemma fmap_to_emails title htmlContent (recipients : list string) :
  to <$> ((fun email => mkEmail sender email title htmlContent) <$> recipients)
  = recipients.
Proof. rewrite <- list_fmap_compose. by rewrite <- (list_fmap_id recipients) at 2. Qed.

(** ** The audience of the fan-out (C5) *)

Lemma filter_no_member (us : list User.row) :
  filter (fun u => User.email_notifications_enabled u = true
                   /\ User.id u ∈ ([] : list string)) us = [].
Proof.
  induction us as [|u us IH]; [done|].
  rewrite filter_cons_False; [done|]. by intros [_ ?%elem_of_nil].
Qed.

(** C5 (amended).  For every run of the fan-out: the users its queries
    select are, in table order, those with [email_notifications_enabled]
    when [groupId] is null or empty, and those of them whose id is among
    the member ids of the group when [groupId] is a non-empty string;
    when there is no such user the run attempts no send and returns
    normally, whatever the services answer; and when its queries succeed
    and its email renders, the run returns normally and the recipients of
    its send attempts are exactly those users. *)
Theorem fanout_audience env title content files groupId w r w' :
  sendAnnouncementEmailToUsers env title content files groupId w = (r, w') ->
  match truthy groupId with
  | None =>
      audience groupId w
      = User.email
          <$> filter (fun u => User.email_notifications_enabled u = true)
                     (users w)
  | Some g =>
      audience groupId w
      = User.email
          <$> filter
                (fun u =>
                   User.email_notifications_enabled u = true
                   /\ User.id u
                        ∈ (GroupMember.user_id
                             <$> filter
                                   (fun m => GroupMember.group_id m = g)
                                   (group_members w)))
                (users w)
  end
  /\ (audience groupId w = [] ->
      sends (events_since w w') = [] /\ r = Returned tt)
  /\ (Forall (fun ev => ~ select_failed ev) (events_since w w') ->
      forall htmlContent,
        createEmailHtml env title content files = Returned htmlContent ->
        r = Returned tt
        /\ sends (events_since w w')
           = (fun email => mkEmail sender email title htmlContent)
               <$> audience groupId w).
Proof.
  intros Hrun.
  destruct (sendAnnouncementEmailToUsers_spec env title content files
              groupId w) as (r0 & evs & Hspec & Hr).
  rewrite Hspec in Hrun. injection Hrun as <- <-.
  rewrite events_since_extend in *. simpl in *.
  destruct (announce_run_facts _ _ _ _ _ _ _ _ Hr)
    as (_ & _ & _ & _ & _ & Hok & Hnone).
  split; [|split; [exact Hnone|exact Hok]].
  unfold audience, run_users_query, run_members_query.
  destruct (truthy groupId) as [g|]; [|done].
  destruct (GroupMember.user_id
              <$> filter (fun m => GroupMember.group_id m = g)
                         (group_members w)) as [|m ms]; [|done].
  simpl. by rewrite filter_no_member.
Qed.

Lemma fanout_audience_witness :
  (sendAnnouncementEmailToUsers quiet_env "Notice" "<p>hi</p>" []
                                (Some "choir") parish).1 = Returned tt
  /\ to <$> sends
             (events_since parish
                (sendAnnouncementEmailToUsers quiet_env "Notice" "<p>hi</p>"
                                              [] (Some "choir") parish).2)
     = ["ana@example.org"]
  /\ audience (Some "choir") parish = ["ana@example.org"].
Proof.
  assert (Hsel : Forall (fun ev => ~ select_failed ev)
                   (events_since parish
                      (sendAnnouncementEmailToUsers quiet_env "Notice"
                         "<p>hi</p>" [] (Some "choir") parish).2)).
  { vm_compute. repeat constructor; by intros []. }
  destruct (fanout_audience quiet_env "Notice" "<p>hi</p>" [] (Some "choir")
              parish _ _ (surjective_pairing _))
    as (_ & _ & Hok).
  destruct (Hok Hsel _ eq_refl) as (Hr & Hs).
  split; [exact Hr|]. split; [|vm_compute; reflexivity].
  rewrite Hs, fmap_to_emails. vm_compute. reflexivity.
Defined.

(** C5, as stated, fails in three ways.  For the empty group id, which is
    not null, the fan-out writes to every subscribed user, while no user
    is a member of the group it names.  When the query on the users fails,
    and when the email does not render because an attachment has no type,
    nobody is written to although two users are subscribed; in the latter
    case the fan-out does not even return normally. *)
Lemma fanout_recipients_differ_from_the_audience :
  (to <$> sends
            (events_since parish
               (sendAnnouncementEmailToUsers quiet_env "Notice" "<p>hi</p>" []
                                             (Some "") parish).2)
   = ["ana@example.org"; "cora@example.org"]
   /\ filter (fun u =>
                User.email_notifications_enabled u = true
                /\ User.id u
                     ∈ (GroupMember.user_id
                          <$> filter (fun m => GroupMember.group_id m = "")
                                     (group_members parish)))
             (users parish)
      = [])
  /\ (sends
        (events_since parish
           (sendAnnouncementEmailToUsers blind_store_env "Notice" "<p>hi</p>"
                                         [] None parish).2)
      = []
      /\ User.email
           <$> filter (fun u => User.email_notifications_enabled u = true)
                      (users parish)
         = ["ana@example.org"; "cora@example.org"])
  /\ (sends
        (events_since parish
           (sendAnnouncementEmailToUsers quiet_env "Notice" "<p>hi</p>"
              [mkFileDatum "announcement/a.png" "a" JUndefined] None
              parish).2)
      = []
      /\ (sendAnnouncementEmailToUsers quiet_env "Notice" "<p>hi</p>"
            [mkFileDatum "announcement/a.png" "a" JUndefined] None
            parish).1
         = Thrown
             (mkError
                "Cannot read properties of undefined (reading 'startsWith')")).
Proof. repeat split; vm_compute; reflexivity. Qed.

(** ** The listing (C7) *)

#[export] Instance newest_first_total : Total newest_first.
Proof. intros a b. unfold newest_first. lia. Qed.

#[export] Instance newest_first_trans : Transitive newest_first.
Proof. intros a b c. unfold newest_first. lia. Qed.

(** C7.  A 200 response of [GET /api/announcements] lists rows of
    [announcement] that are all public, newest first, and exactly the
    public rows of the table; each comes with the file rows that reference
    it and with the name and email of the user who wrote it. *)
Theorem listing_is_public_newest_first env w j w' :
  get_announcements env w = (Returned j, w') ->
  Response.status j = 200 ->
  exists rows,
    Response.data j = Some (Listing rows)
    /\ Forall (fun row =>
                 Announcement.visibility
                   (Announcement.cols (Joined.announcement row)) = "public")
              rows
    /\ StronglySorted
         (fun a b => (Announcement.created_at b <= Announcement.created_at a)%Z)
         (Joined.announcement <$> rows)
    /\ Joined.announcement <$> rows
       ≡ₚ filter (fun a => Announcement.visibility (Announcement.cols a)
                            = "public")
                 (announcement w)
    /\ Forall (fun row =>
                 Joined.announcement_files row
                 = filter (fun f => AnnouncementFile.announcement_id f
                                    = Announcement.id (Joined.announcement row))
                          (announcement_files w)
                 /\ Joined.users row
                    = (fun u => (User.name u, User.email u))
                        <$> head (filter
                                    (fun u =>
                                       User.id u
                                       = Announcement.user_id
                                           (Announcement.cols
                                              (Joined.announcement row)))
                                    (users w)))
              rows.
Proof.
  unfold get_announcements. run_js.
  destruct (db_select env (clock w) "announcement") as [e|];
    [by intros [= <- _]|].
  intros [= <- _] _. exists (run_listing_query w). split; [done|].
  unfold run_listing_query.
  set (public := filter _ (announcement w)).
  assert (Hfmap : Joined.announcement
                    <$> (join w <$> merge_sort newest_first public)
                  = merge_sort newest_first public).
  { rewrite <- list_fmap_compose. apply list_fmap_id. }
  rewrite Hfmap. split; [|split; [|split]].
  - apply Forall_fmap, Forall_forall. intros a Ha. simpl.
    rewrite merge_sort_Permutation in Ha.
    by apply list_elem_of_filter in Ha as [? _].
  - apply (StronglySorted_merge_sort newest_first).
  - apply merge_sort_Permutation.
  - apply Forall_fmap, Forall_forall. by intros a _.
Qed.

Lemma listing_is_public_newest_first_witness :
  exists j rows,
    (get_announcements quiet_env parish).1 = Returned j
    /\ Response.data j = Some (Listing rows)
    /\ (Announcement.id ∘ Joined.announcement) <$> rows = [3; 1]%Z.
Proof.
  destruct (listing_is_public_newest_first quiet_env parish
              (Response.mkJson 200 true (Some (Listing (run_listing_query parish)))
                               None None)
              (emit (EvSelect "announcement" None) parish)
              eq_refl eq_refl)
    as (rows & Hdata & _).
  eexists _, rows. split; [reflexivity|]. split; [exact Hdata|].
  injection Hdata as <-. vm_compute. reflexivity.
Defined.

(** ** The storage path (C8) *)

(** The first piece of [s.split(sep)] is the text before the first
    separator. *)
Lemma split_first sep s :
  exists base pieces,
    split sep s = base :: pieces
    /\ (sep ∉ String.list_ascii_of_string base)
    /\ (s = base \/ exists rest, s = base +:+ (String sep rest)).
Proof.
  induction s as [|c s (base & pieces & Hs & Hno & Hshape)]; simpl.
  - exists "", []. split; [done|]. split; [by intros ?%elem_of_nil|by left].
  - destruct (Ascii.eqb_spec c sep) as [-> | Hne].
    + exists "", (split sep s). split; [done|].
      split; [by intros ?%elem_of_nil|]. right. by exists s.
    + rewrite Hs. exists (String c base), pieces. split; [done|]. split.
      * simpl. intros [? | ?]%elem_of_cons; [congruence|done].
      * destruct Hshape as [-> | [rest ->]]; [by left|right]. by exists rest.
Qed.

Lemma string_app_assoc (a b c : string) :
  (a +:+ b) +:+ c = a +:+ (b +:+ c).
Proof.
  induction a as [|x a IH]; [done|].
  change (String x ((a +:+ b) +:+ c) = String x (a +:+ (b +:+ c))).
  by rewrite IH.
Qed.

(** C8.  Every upload a call issues is made for one of its files and under
    the path "announcement/", then the text of the file's original name
    before its first ".", then "-", a reading of the clock in decimal, and
    ".png", whatever follows the first "." in the name; the body is the
    file's [buffer] and the content type is the file's [mimetype]. *)
Theorem upload_path_of_file env data userId groupId w r w'
    path body contentType resp :
  createAnnouncements env data userId groupId w = (r, w') ->
  EvUpload path body contentType resp ∈ events_since w w' ->
  exists file s base k,
    file ∈ files data
    /\ get file "originalname" = JStr s
    /\ ("."%char ∉ String.list_ascii_of_string base)
    /\ (s = base \/ exists rest, s = base +:+ "." +:+ rest)
    /\ path = "announcement/" +:+ base +:+ "-" +:+ pretty (date_now env k)
              +:+ ".png"
    /\ body = get file "buffer"
    /\ contentType = get file "mimetype".
Proof.
  intros Hrun Hin.
  destruct (createAnnouncements_run _ _ _ _ _ _ _ Hrun) as (d & -> & Hd).
  rewrite events_since_extend in Hin.
  destruct (create_run_after_uploads _ _ _ _ _ _ _ Hd)
    as (rA & dA & rest & HA & Hev & Hrest & _).
  rewrite Hev in Hin. apply elem_of_app in Hin as [Hin | Hin].
  2: { apply (proj1 (Forall_forall _ _) Hrest) in Hin. by destruct Hin. }
  destruct HA as (_ & _ & Hup & _).
  apply (proj1 (Forall_forall _ _) Hup) in Hin.
  destruct Hin as (file & s & k & Hfile & Hname & -> & -> & ->).
  destruct (split_first "." s) as (base & pieces & Hs & Hno & Hshape).
  exists file, s, base, k. rewrite Hs. simpl.
  repeat split; try done.
  unfold storage_path. by rewrite !string_app_assoc.
Qed.

Lemma upload_path_of_file_witness :
  EvUpload "announcement/poster-1700000000000.png" (JBuffer [])
           (JStr "image/jpeg")
           (UploadOk "announcement/poster-1700000000000.png")
    ∈ events_since parish
        (createAnnouncements quiet_env notice_with_files "u1" None parish).2
  /\ exists file s base k,
       file ∈ files notice_with_files
       /\ get file "originalname" = JStr s
       /\ (s = base \/ exists rest, s = base +:+ "." +:+ rest)
       /\ "announcement/poster-1700000000000.png"
          = "announcement/" +:+ base +:+ "-"
            +:+ pretty (date_now quiet_env k) +:+ ".png"
       /\ JStr "image/jpeg" = get file "mimetype".
Proof.
  assert (Hin : EvUpload "announcement/poster-1700000000000.png" (JBuffer [])
                  (JStr "image/jpeg")
                  (UploadOk "announcement/poster-1700000000000.png")
                ∈ events_since parish
                    (createAnnouncements quiet_env notice_with_files "u1"
                                         None parish).2).
  { vm_compute. apply list_elem_of_further, list_elem_of_here. }
  split; [exact Hin|].
  destruct (upload_path_of_file quiet_env notice_with_files "u1" None parish
              _ _ _ _ _ _ (surjective_pairing _) Hin)
    as (file & s & base & k & Hfile & Hname & _ & Hshape & Hpath & _ & Hct).
  exists file, s, base, k.
  split; [exact Hfile|]. split; [exact Hname|]. split; [exact Hshape|].
  split; [exact Hpath|exact Hct].
Defined.

(** * Further properties *)

(** ** Batches, by their tasks *)

Lemma omap_lookup_nil {A} (o : list nat) :
  omap (fun i => ([] : list A) !! i) o = [].
Proof. induction o as [|i o IH]; [done|]. exact IH. Qed.

Lemma in_arrival_order_nil {A} sched :
  in_arrival_order sched ([] : list A) = [].
Proof. apply omap_lookup_nil. Qed.

Lemma promise_all_nil {A B} env (f : A -> Js (Js B)) w :
  promise_all env f [] w = (Returned [], w).
Proof.
  unfold promise_all. cbn [start_all results omap list_omap].
  rewrite in_arrival_order_nil. reflexivity.
Qed.

Lemma batch_nil {B} sched :
  batch_result sched ([] : list (Task B)) = Returned []
  /\ batch_delta sched ([] : list (Task B)) = events [].
Proof.
  unfold batch_result, batch_delta.
  cbn [fmap list_fmap results rejections omap list_omap].
  rewrite in_arrival_order_nil. by split.
Qed.

Lemma tasks_fail_or_not {B} (tasks : list (Task B)) :
  Forall (fun t => ~ task_fails t) tasks \/ Exists task_fails tasks.
Proof.
  induction tasks as [|t tasks [IH | IH]].
  - left. constructor.
  - destruct (task_outcome t) as [[[b|e] evs]|e] eqn:Ho.
    + left. constructor; [|done]. unfold task_fails. rewrite Ho. tauto.
    + right. apply Exists_cons_hd. unfold task_fails. rewrite Ho. exact I.
    + right. apply Exists_cons_hd. unfold task_fails. rewrite Ho. exact I.
  - right. by apply Exists_cons_tl.
Qed.

Lemma task_values_of_returns {B} (tasks : list (Task B))
    (vs : list (B * list Event)) :
  task_outcome <$> tasks = (fun v => Returned (Returned v.1, v.2)) <$> vs ->
  omap task_value tasks = fst <$> vs.
Proof.
  revert vs. induction tasks as [|t tasks IH]; intros [|v vs] Heq; try done.
  rewrite !fmap_cons in Heq. injection Heq as Ht Hts.
  cbn [omap list_omap]. unfold task_value at 1. rewrite Ht.
  rewrite fmap_cons. f_equal. by apply IH.
Qed.

(** A batch that returns has no rejecting task, and yields the values of
    its tasks in some order. *)
Lemma batch_result_returned_inv {B} sched (tasks : list (Task B)) bs :
  batch_result sched tasks = Returned bs ->
  Forall (fun t => ~ task_fails t) tasks
  /\ bs ≡ₚ omap task_value tasks
  /\ length bs = length tasks.
Proof.
  intros Hret.
  destruct (tasks_fail_or_not tasks) as [Hok | Hex].
  2: { destruct (batch_result_thrown sched tasks Hex) as [e He]. congruence. }
  split; [done|].
  destruct (batch_result_returned sched tasks Hok) as (bs' & Hbs' & Hlen).
  assert (bs' = bs) as -> by congruence. split; [|done].
  destruct (tasks_all_return _ Hok) as (vs & Hvs).
  rewrite (task_values_of_returns _ _ Hvs).
  unfold batch_result in Hret. rewrite Hvs in Hret.
  rewrite rejections_fmap_Returned in Hret.
  rewrite (results_fmap_Returned (fun v => (Returned v.1, v.2))) in Hret.
  rewrite in_arrival_order_fmap, <- list_fmap_compose in Hret.
  change (fst ∘ (fun v : B * list Event => (Returned v.1, v.2)))
    with (fun v : B * list Event => Returned (A := B) v.1) in Hret.
  rewrite (rejections_fmap_Returned (fun v => v.1)) in Hret.
  rewrite (results_fmap_Returned (fun v => v.1)) in Hret.
  injection Hret as <-. by rewrite in_arrival_order_perm.
Qed.

Lemma upload_stage_tasks env files w :
  exists tasks,
    Forall2 (upload_task env) files tasks
    /\ (match files with
        | [] => mret []
        | _ => promise_all env (upload_file env) files
        end) w
       = (batch_result (arrival env (clock w)) tasks,
          extend (batch_delta (arrival env (clock w)) tasks) w).
Proof.
  destruct files as [|file files].
  - exists []. split; [constructor|].
    destruct (batch_nil (B := FileDatum) (arrival env (clock w))) as [-> ->].
    by rewrite extend_nil.
  - apply (promise_all_tasks env (upload_file env) (upload_task env)
             (upload_file_spec env)).
Qed.

Lemma file_stage_tasks env i fileData w :
  exists tasks,
    Forall2 (insert_file_task i) fileData tasks
    /\ (match fileData with
        | [] => mret []
        | _ => promise_all env (insert_file env i) fileData
        end) w
       = (batch_result (arrival env (clock w)) tasks,
          extend (batch_delta (arrival env (clock w)) tasks) w).
Proof.
  destruct fileData as [|file fileData].
  - exists []. split; [constructor|].
    destruct (batch_nil (B := unit) (arrival env (clock w))) as [-> ->].
    by rewrite extend_nil.
  - apply (promise_all_tasks env (insert_file env i) (insert_file_task i)
             (insert_file_spec env i)).
Qed.

Lemma createAnnouncements_staged env data userId groupId w r w' :
  createAnnouncements env data userId groupId w = (r, w') ->
  exists d, w' = extend d w /\ staged_run env data userId groupId w r d.
Proof.
  unfold createAnnouncements, mbind, Js_bind.
  destruct (upload_stage_tasks env (files data) w) as (tasksA & HA & HrunA).
  unfold mret, Js_ret in HrunA. unfold mret, Js_ret. rewrite HrunA.
  set (sA := arrival env (clock w)) in *.
  destruct (batch_result sA tasksA) as [fileData|e] eqn:HrA.
  2: { intros [= <- <-]. eexists. split; [reflexivity|].
       by apply StagedUploadFails. }
  rewrite insert_announcement_run. cbn zeta.
  set (p := announcement_payload data userId groupId).
  set (dA := batch_delta sA tasksA) in *.
  destruct (db_insert_announcement env (clock (extend dA w)) p)
    as [i ts|e] eqn:Hins.
  2: { run_js. rewrite emit_extend, !extend_app. intros [= <- <-].
       eexists. split; [reflexivity|].
       by apply (StagedInsertFails _ _ _ _ _ sA tasksA fileData). }
  destruct (file_stage_tasks env i fileData
              (extend (inserted p i ts) (extend dA w)))
    as (tasksC & HC & HrunC).
  unfold mret, Js_ret in HrunC. rewrite HrunC.
  set (sC := arrival env (clock (extend (inserted p i ts) (extend dA w)))) in *.
  destruct (batch_result sC tasksC) as [us|e] eqn:HrC.
  2: { rewrite !extend_app. intros [= <- <-]. eexists. split; [reflexivity|].
       by apply (StagedFileRowsFail _ _ _ _ _ sA tasksA fileData i ts sC
                                    tasksC). }
  destruct (notify_spec env data fileData groupId
              (extend (batch_delta sC tasksC)
                 (extend (inserted p i ts) (extend dA w))))
    as (rN & evsN & HrunN & HN).
  rewrite HrunN, !extend_app. intros [= <- <-].
  eexists. split; [reflexivity|].
  apply (StagedDone _ _ _ _ _ sA tasksA fileData i ts sC tasksC us);
    try done.
  by do 3 apply announce_run_extend in HN.
Qed.

(** ** The events of the two batches *)

Lemma upload_batch_events env sched files tasks :
  Forall2 (upload_task env) files tasks ->
  batch_delta sched tasks
  = events (concat (new_events <$> (task_delta <$> tasks)))
  /\ Forall (upload_event env files) (new_events (batch_delta sched tasks)).
Proof.
  intros Hts.
  destruct (upload_tasks_rows _ _ _ Hts) as (Ha & Hf & Hs).
  assert (Hev : new_events (batch_delta sched tasks)
                = concat (new_events <$> (task_delta <$> tasks))).
  { rewrite batch_delta_events, silent_continuations, app_nil_r; [done|].
    by rewrite in_arrival_order_perm. }
  split.
  - rewrite <- Hev. apply delta_events_only.
    + by rewrite batch_delta_announcements.
    + by rewrite batch_delta_files.
  - rewrite Hev. by apply upload_tasks_events.
Qed.

Lemma uploaded_as_mono env file evs evs' d :
  (forall ev, ev ∈ evs -> ev ∈ evs') ->
  uploaded_as env file evs d -> uploaded_as env file evs' d.
Proof.
  intros Hsub (s & k & Hn & Hname & Hty & Hin).
  exists s, k. repeat split; auto.
Qed.

(** The data the upload tasks leave when none rejects: one per file, as
    [uploaded_as] describes. *)
Lemma upload_tasks_values env files tasks :
  Forall2 (upload_task env) files tasks ->
  Forall (fun t => ~ task_fails t) tasks ->
  Forall named files
  /\ exists ds,
       omap task_value tasks = ds
       /\ Forall2 (fun file d =>
                     uploaded_as env file
                       (concat (new_events <$> (task_delta <$> tasks))) d)
                  files ds.
Proof.
  induction 1 as [|file t files tasks Ht _ IH]; intros Hok.
  { split; [constructor|]. exists []. split; [done|constructor]. }
  apply Forall_cons in Hok as [Hokt Hok].
  destruct (IH Hok) as (Hnamed & ds & Hds & Hall).
  unfold upload_task in Ht. unfold task_fails in Hokt.
  destruct (get file "originalname") as [|s| | | |] eqn:Hn;
    try (destruct Ht as [e ->]; by destruct Hokt).
  destruct Ht as (k & resp & ->). cbn in Hokt.
  destruct resp as [path|e|e]; try by destruct Hokt.
  split; [constructor; [by exists s|done]|].
  exists (mkFileDatum path
            (template_elem (split "." s !! 0) +:+ "-"
             +:+ pretty (date_now env k))
            (get file "mimetype") :: ds).
  split.
  { cbn [omap list_omap]. unfold task_value at 1.
    cbn [task_outcome upload_outcome]. by rewrite Hds. }
  constructor.
  - exists s, k. split; [done|]. split; [done|]. split; [done|].
    rewrite !fmap_cons.
    cbn [concat task_delta new_events events fd_name fd_url fd_type].
    apply elem_of_app. left. apply list_elem_of_further, list_elem_of_here.
  - eapply Forall2_impl; [exact Hall|]. intros f d.
    apply uploaded_as_mono. intros ev Hev.
    rewrite !fmap_cons. cbn [concat]. apply elem_of_app. by right.
Qed.

Lemma file_inserts_app evs1 evs2 :
  file_inserts (evs1 ++ evs2) = file_inserts evs1 ++ file_inserts evs2.
Proof. apply omap_app. Qed.

Lemma file_inserts_none evs :
  Forall (fun ev => match ev with EvInsertFile _ _ => False | _ => True end)
         evs ->
  file_inserts evs = [].
Proof.
  induction 1 as [|ev evs Hev _ IH]; [done|].
  unfold file_inserts in *. cbn [omap list_omap]. by destruct ev.
Qed.

(** The inserts the file-row batch issues: one per element of [fileData],
    in order, whatever the answers; the rows added are those of the inserts
    that succeeded; and the batch returns exactly when all did. *)
Lemma insert_batch_calls i sched fileData tasks :
  Forall2 (insert_file_task i) fileData tasks ->
  fst <$> file_inserts (new_events (batch_delta sched tasks))
  = file_row i <$> fileData
  /\ new_files (batch_delta sched tasks)
     = inserted_rows (file_inserts (new_events (batch_delta sched tasks)))
  /\ new_announcements (batch_delta sched tasks) = []
  /\ Forall (file_stage_event i) (new_events (batch_delta sched tasks))
  /\ ((exists us, batch_result sched tasks = Returned us)
      <-> Forall (fun c => c.2 = None)
                 (file_inserts (new_events (batch_delta sched tasks)))).
Proof.
  intros Hts.
  destruct (insert_file_tasks_facts _ _ _ Hts) as (Ha & _ & Hev & Hs & _).
  rewrite batch_delta_events, batch_delta_files, batch_delta_announcements.
  set (prefix := concat (new_events <$> (task_delta <$> tasks))).
  set (conts := concat (snd <$> in_arrival_order sched
                                  (results (task_outcome <$> tasks)))).
  assert (Hconts : Forall (file_stage_event i) conts).
  { apply Forall_concat_snd. by rewrite in_arrival_order_perm. }
  assert (Hnone : file_inserts conts = []).
  { apply file_inserts_none.
    assert (Hc : Forall (fun s : Completion unit * list Event =>
                   Forall (fun ev => match ev with
                                     | EvInsertFile _ _ => False
                                     | _ => True
                                     end) s.2)
                        (results (task_outcome <$> tasks))).
    { clear -Hts. induction Hts as [|f t fd tasks (resp & ->) _ IH];
        [constructor|].
      unfold results in *. rewrite !fmap_cons.
      cbn [omap list_omap task_outcome].
      constructor; [|exact IH]. destruct resp; by repeat constructor. }
    apply Forall_concat_snd. by rewrite in_arrival_order_perm. }
  rewrite file_inserts_app, Hnone, app_nil_r.
  assert (Hshape :
    fst <$> file_inserts prefix = file_row i <$> fileData
    /\ concat (new_files <$> (task_delta <$> tasks))
       = inserted_rows (file_inserts prefix)
    /\ (Forall (fun t => ~ task_fails t) tasks
        <-> Forall (fun c => c.2 = None) (file_inserts prefix))).
  { subst prefix. clear -Hts.
    induction Hts as [|f t fd tasks (resp & ->) _ (IH1 & IH2 & IH3)].
    { repeat split; constructor. }
    rewrite !fmap_cons.
    cbn [concat task_delta new_events new_files app].
    unfold file_inserts in *. cbn [omap list_omap]. rewrite !fmap_cons.
    cbn [fst]. rewrite IH1. split; [done|]. split.
    - unfold inserted_rows in *. rewrite IH2.
      destruct resp as [e|].
      + rewrite filter_cons_False by done. done.
      + rewrite filter_cons_True by done. done.
    - rewrite !Forall_cons, IH3. unfold task_fails. cbn.
      destruct resp as [e|]; cbn.
      + split; intros [H _]; [by destruct H|discriminate H].
      + split; intros [_ H]; (split; [|exact H]);
          first [reflexivity|tauto]. }
  destruct Hshape as (H1 & H2 & H3).
  split; [done|]. split; [done|]. split; [done|].
  split; [by apply Forall_app|].
  rewrite <- H3. split.
  - intros [us Hus]. by destruct (batch_result_returned_inv _ _ _ Hus).
  - intros Hok.
    destruct (batch_result_returned sched tasks Hok) as (us & Hus & _).
    by exists us.
Qed.

Lemma upload_events_kind env files evs :
  Forall (upload_event env files) evs ->
  file_inserts evs = [] /\ sends evs = []
  /\ Forall (fun ev => ~ is_insert ev /\ ~ is_notification ev) evs.
Proof.
  induction 1 as [|ev evs Hev _ (IH1 & IH2 & IH3)]; [by repeat split|].
  unfold file_inserts, sends in *. cbn [omap list_omap].
  destruct ev; try done.
  - rewrite IH1, IH2. repeat split; try done.
    constructor; [|done]. split; by intros [].
  - rewrite IH1, IH2. repeat split; try done.
    constructor; [|done]. split; by intros [].
Qed.

Lemma notification_events_kind evs :
  Forall notification_event evs ->
  file_inserts evs = []
  /\ Forall (fun ev => ~ is_upload ev /\ ~ is_insert ev) evs.
Proof.
  induction 1 as [|ev evs Hev _ (IH1 & IH2)]; [by repeat split|].
  unfold file_inserts in *. cbn [omap list_omap].
  destruct ev; try done; rewrite ?IH1; (split; [done|]);
    (constructor; [|done]); split; by intros [].
Qed.

Lemma file_stage_events_kind i evs :
  Forall (file_stage_event i) evs ->
  sends evs = []
  /\ Forall (fun ev => ~ is_upload ev /\ ~ is_notification ev) evs
  /\ Forall (fun c : AnnouncementFile.row * option JsError =>
               AnnouncementFile.announcement_id c.1 = i)
            (file_inserts evs).
Proof.
  induction 1 as [|ev evs Hev _ (IH1 & IH2 & IH3)];
    [by repeat split; constructor|].
  unfold sends, file_inserts in *. cbn [omap list_omap].
  destruct ev; try done.
  - split; [done|]. split.
    + constructor; [|done]. split; by intros [].
    + by constructor.
  - split; [done|]. split; [|done].
    constructor; [|done]. split; by intros [].
Qed.

(** How many uploads tasks that do not reject issue: one per file, each
    answered with a path. *)
Lemma upload_tasks_count env files tasks :
  Forall2 (upload_task env) files tasks ->
  Forall (fun t => ~ task_fails t) tasks ->
  let prefix := concat (new_events <$> (task_delta <$> tasks)) in
  length (filter (fun ev => is_upload ev) prefix) = length files
  /\ Forall (fun ev => ~ upload_failed ev) prefix.
Proof.
  induction 1 as [|file t files tasks Ht _ IH]; intros Hok.
  { split; [done|constructor]. }
  apply Forall_cons in Hok as [Hokt Hok].
  destruct (IH Hok) as (Hlen & Hall). cbn zeta in *.
  unfold upload_task in Ht. unfold task_fails in Hokt.
  destruct (get file "originalname") as [|s| | | |] eqn:Hn;
    try (destruct Ht as [e ->]; by destruct Hokt).
  destruct Ht as (k & resp & ->). cbn in Hokt.
  destruct resp as [path|e|e]; try by destruct Hokt.
  rewrite !fmap_cons. cbn [concat task_delta new_events events app].
  split.
  - rewrite filter_cons_False by (by intros []).
    rewrite filter_cons_True by exact I. simpl. by rewrite Hlen.
  - constructor; [by intros []|]. constructor; [by intros []|done].
Qed.

(** ** A failed insert of the announcement *)

(** X1.  When the insert of the announcement fails, the call throws the
    error of the store and logs it as its last interaction; both
    announcement tables are as before. Every file had been uploaded
    successfully by then, and nothing is issued about these uploads
    afterwards. *)
Theorem failed_announcement_insert env data userId groupId w r w' e :
  createAnnouncements env data userId groupId w = (r, w') ->
  EvInsertAnnouncement (announcement_payload data userId groupId)
                       (InsertError e) ∈ events_since w w' ->
  r = Thrown e
  /\ announcement w' = announcement w
  /\ announcement_files w' = announcement_files w
  /\ exists ups,
       events_since w w'
       = ups ++ [EvInsertAnnouncement
                   (announcement_payload data userId groupId) (InsertError e);
                 EvConsoleError "Error inserting announcement:" (message e)]
       /\ Forall (upload_event env (files data)) ups
       /\ Forall (fun ev => ~ upload_failed ev) ups
       /\ length (filter (fun ev => is_upload ev) ups) = length (files data).
Proof.
  intros Hrun Hin.
  destruct (createAnnouncements_staged _ _ _ _ _ _ _ Hrun) as (d & -> & Hd).
  rewrite events_since_extend in *.
  destruct Hd as [sA tasksA e0 HA HrA
                 | sA tasksA fileData e0 HA HrA
                 | sA tasksA fileData i ts sC tasksC e0 HA HrA HC HrC
                 | sA tasksA fileData i ts sC tasksC us rN evsN
                     HA HrA HC HrC HN];
    destruct (upload_batch_events env sA _ _ HA) as [HdA HevA].
  - apply (proj1 (Forall_forall _ _) HevA) in Hin. destruct Hin.
  - rewrite new_events_app in Hin. apply elem_of_app in Hin as [Hin | Hin].
    { apply (proj1 (Forall_forall _ _) HevA) in Hin. destruct Hin. }
    apply elem_of_cons in Hin as [[= <-] | Hin%list_elem_of_singleton];
      [|discriminate Hin].
    destruct (batch_result_returned_inv _ _ _ HrA) as (Hok & _ & _).
    destruct (upload_tasks_count _ _ _ HA Hok) as [Hlen Hnf].
    split; [done|]. rewrite HdA in *. unfold extend. simpl.
    rewrite !app_nil_r. split; [done|]. split; [done|].
    eexists. split; [reflexivity|]. by repeat split.
  - exfalso. rewrite !new_events_app in Hin.
    apply elem_of_app in Hin as [Hin | [Hin | Hin]%elem_of_app].
    + apply (proj1 (Forall_forall _ _) HevA) in Hin. destruct Hin.
    + apply list_elem_of_singleton in Hin. discriminate Hin.
    + destruct (insert_batch_calls i sC _ _ HC) as (_ & _ & _ & Hev & _).
      apply (proj1 (Forall_forall _ _) Hev) in Hin. destruct Hin.
  - exfalso. rewrite !new_events_app in Hin.
    apply elem_of_app in Hin
      as [Hin | [Hin | [Hin | Hin]%elem_of_app]%elem_of_app].
    + apply (proj1 (Forall_forall _ _) HevA) in Hin. destruct Hin.
    + apply list_elem_of_singleton in Hin. discriminate Hin.
    + destruct (insert_batch_calls i sC _ _ HC) as (_ & _ & _ & Hev & _).
      apply (proj1 (Forall_forall _ _) Hev) in Hin. destruct Hin.
    + apply (proj1 (Forall_forall _ _)
               (announce_run_events _ _ _ _ _ _ _ _ HN)) in Hin.
      destruct Hin.
Qed.

Lemma inserted_rows_all calls :
  Forall (fun c : AnnouncementFile.row * option JsError => c.2 = None) calls ->
  inserted_rows calls = fst <$> calls.
Proof.
  unfold inserted_rows. induction 1 as [|c calls Hc _ IH]; [done|].
  rewrite filter_cons_True by done. by rewrite !fmap_cons, IH.
Qed.

(** ** Partial failure of the file rows *)

(** X2.  Once the announcement is inserted, one insert is issued for each
    file, every one referring to the new announcement, and the rows of the
    inserts that succeed are exactly what the file table gains; the
    announcement row stays whatever the inserts answer. The call returns
    the id when all of them succeed; when one fails the call throws and no
    query or email follows. *)
Theorem file_rows_are_not_atomic env data userId groupId w r w' i ts :
  createAnnouncements env data userId groupId w = (r, w') ->
  EvInsertAnnouncement (announcement_payload data userId groupId)
                       (InsertOk i ts) ∈ events_since w w' ->
  let calls := file_inserts (events_since w w') in
  announcement w'
  = announcement w
    ++ [Announcement.mkRow i ts (announcement_payload data userId groupId)]
  /\ length calls = length (files data)
  /\ Forall (fun c => AnnouncementFile.announcement_id c.1 = i) calls
  /\ announcement_files w' = announcement_files w ++ inserted_rows calls
  /\ (r = Returned i <-> Forall (fun c => c.2 = None) calls)
  /\ (~ Forall (fun c => c.2 = None) calls ->
      (exists e, r = Thrown e)
      /\ Forall (fun ev => ~ is_notification ev) (events_since w w')).
Proof.
  intros Hrun Hin.
  destruct (createAnnouncements_staged _ _ _ _ _ _ _ Hrun) as (d & -> & Hd).
  rewrite events_since_extend in *. cbn zeta.
  destruct Hd as [sA tasksA e0 HA HrA
                 | sA tasksA fileData e0 HA HrA
                 | sA tasksA fileData i0 ts0 sC tasksC e0 HA HrA HC HrC
                 | sA tasksA fileData i0 ts0 sC tasksC us rN evsN
                     HA HrA HC HrC HN];
    destruct (upload_batch_events env sA _ _ HA) as [HdA HevA].
  - exfalso. apply (proj1 (Forall_forall _ _) HevA) in Hin. destruct Hin.
  - exfalso. rewrite new_events_app in Hin.
    apply elem_of_app in Hin as [Hin | Hin].
    { apply (proj1 (Forall_forall _ _) HevA) in Hin. destruct Hin. }
    apply elem_of_cons in Hin as [Hin | Hin%list_elem_of_singleton];
      discriminate Hin.
  - destruct (insert_batch_calls i0 sC _ _ HC)
      as (Hrows & Hfiles & Hann & Hev & Hiff).
    destruct (file_stage_events_kind _ _ Hev) as (_ & HkC & HidC).
    destruct (upload_events_kind _ _ _ HevA) as (HfiA & _ & HkA).
    destruct (batch_result_returned_inv _ _ _ HrA) as (_ & _ & HlenA).
    assert (i0 = i /\ ts0 = ts) as [-> ->].
    { rewrite !new_events_app in Hin.
      apply elem_of_app in Hin as [Hin | [Hin | Hin]%elem_of_app].
      - apply (proj1 (Forall_forall _ _) HevA) in Hin. destruct Hin.
      - apply list_elem_of_singleton in Hin. by injection Hin as <- <-.
      - apply (proj1 (Forall_forall _ _) Hev) in Hin. destruct Hin. }
    rewrite !new_events_app, !file_inserts_app, HfiA.
    change (file_inserts (new_events (inserted _ i ts))) with
      (@nil (AnnouncementFile.row * option JsError)).
    cbn [app].
    assert (new_announcements (batch_delta sA tasksA) = []
            /\ new_files (batch_delta sA tasksA) = []) as [HaA HfA]
      by (by rewrite HdA).
    unfold extend, delta_app. cbn.
    rewrite ?HaA, ?HfA, ?Hann, ?Hfiles, ?app_nil_r. cbn [app].
    split; [done|]. split.
    { rewrite <- (length_fmap fst), Hrows, length_fmap, HlenA.
      symmetry. by eapply Forall2_length. }
    split; [done|]. split; [done|]. split.
    { split; [discriminate|]. intros Hall.
      apply Hiff in Hall as [us Hus]. rewrite Hus in HrC. discriminate HrC. }
    intros _. split; [by eexists|].
    apply Forall_app.
    split; [by eapply Forall_impl; [exact HkA|]; intros ? []|].
    constructor; [by intros []|].
    eapply Forall_impl; [exact HkC|]. by intros ? [].
  - destruct (insert_batch_calls i0 sC _ _ HC)
      as (Hrows & Hfiles & Hann & Hev & Hiff).
    destruct (file_stage_events_kind _ _ Hev) as (_ & HkC & HidC).
    destruct (upload_events_kind _ _ _ HevA) as (HfiA & _ & HkA).
    destruct (batch_result_returned_inv _ _ _ HrA) as (_ & _ & HlenA).
    pose proof (announce_run_events _ _ _ _ _ _ _ _ HN) as HevN.
    destruct (notification_events_kind _ HevN) as (HfiN & _).
    assert (i0 = i /\ ts0 = ts) as [-> ->].
    { rewrite !new_events_app in Hin.
      apply elem_of_app in Hin
        as [Hin | [Hin | [Hin | Hin]%elem_of_app]%elem_of_app].
      - apply (proj1 (Forall_forall _ _) HevA) in Hin. destruct Hin.
      - apply list_elem_of_singleton in Hin. by injection Hin as <- <-.
      - apply (proj1 (Forall_forall _ _) Hev) in Hin. destruct Hin.
      - apply (proj1 (Forall_forall _ _) HevN) in Hin. destruct Hin. }
    assert (Forall (fun c : AnnouncementFile.row * option JsError =>
                      c.2 = None)
                   (file_inserts (new_events (batch_delta sC tasksC))))
      as Hall by (apply Hiff; by eexists).
    rewrite !new_events_app, !file_inserts_app, HfiA.
    change (file_inserts (new_events (inserted _ i ts))) with
      (@nil (AnnouncementFile.row * option JsError)).
    change (new_events (events ?l)) with l. rewrite HfiN.
    cbn [app]. rewrite app_nil_r.
    assert (new_announcements (batch_delta sA tasksA) = []
            /\ new_files (batch_delta sA tasksA) = []) as [HaA HfA]
      by (by rewrite HdA).
    unfold extend, delta_app. cbn.
    rewrite ?HaA, ?HfA, ?Hann, ?Hfiles, ?app_nil_r. cbn [app].
    split; [done|]. split.
    { rewrite <- (length_fmap fst), Hrows, length_fmap, HlenA.
      symmetry. by eapply Forall2_length. }
    split; [done|]. split; [done|]. split; [done|].
    intros Hnot. by destruct Hnot.
Qed.
(** ** What the file rows hold *)

(** X3.  When the call returns, the file table gains one row per file, up
    to the order in which the inserts completed: the row of a file holds
    the id returned, the name derived from the original name and the clock,
    the MIME type, and as url the path the storage answered to the upload
    issued under the derived key. *)
Theorem file_rows_describe_uploads env data userId groupId w i w' :
  createAnnouncements env data userId groupId w = (Returned i, w') ->
  exists ds rows,
    announcement_files w' = announcement_files w ++ rows
    /\ rows ≡ₚ file_row i <$> ds
    /\ Forall2 (fun file d => uploaded_as env file (events_since w w') d)
               (files data) ds.
Proof.
  intros Hrun.
  destruct (createAnnouncements_staged _ _ _ _ _ _ _ Hrun) as (d & -> & Hd).
  rewrite events_since_extend.
  inversion Hd
    as [| | | sA tasksA fileData i0 ts0 sC tasksC us rN evsN
                HA HrA HC HrC HN Hi Hdelta]; subst.
  destruct (upload_batch_events env sA _ _ HA) as [HdA HevA].
  destruct (batch_result_returned_inv _ _ _ HrA) as (Hok & Hperm & _).
  destruct (upload_tasks_values _ _ _ HA Hok) as (_ & ds & Hds & Hup).
  destruct (insert_batch_calls i sC _ _ HC)
    as (Hrows & Hfiles & _ & _ & Hiff).
  assert (Forall (fun c : AnnouncementFile.row * option JsError =>
                    c.2 = None)
                 (file_inserts (new_events (batch_delta sC tasksC))))
    as Hall by (apply Hiff; by eexists).
  exists ds, (file_row i <$> fileData). split; [|split].
  - unfold extend, delta_app. cbn.
    rewrite Hfiles, (inserted_rows_all _ Hall), Hrows.
    assert (new_files (batch_delta sA tasksA) = []) as ->
      by (by rewrite HdA).
    by rewrite app_nil_r.
  - by rewrite Hperm, Hds.
  - eapply Forall2_impl; [exact Hup|]. intros file d'.
    apply uploaded_as_mono. intros ev Hev.
    rewrite new_events_app. apply elem_of_app. left. by rewrite HdA.
Qed.

(** ** The order of the stages *)

(** X4.  The interactions of every call fall into three consecutive parts:
    the first holds no insert, query or send, the second no upload, query
    or send, the third no upload or insert. So every upload is issued
    before every insert, and every insert before every query and send. *)
Theorem stages_are_ordered env data userId groupId w r w' :
  createAnnouncements env data userId groupId w = (r, w') ->
  exists ups pers notif,
    events_since w w' = ups ++ pers ++ notif
    /\ Forall (fun ev => ~ is_insert ev /\ ~ is_notification ev) ups
    /\ Forall (fun ev => ~ is_upload ev /\ ~ is_notification ev) pers
    /\ Forall (fun ev => ~ is_upload ev /\ ~ is_insert ev) notif.
Proof.
  intros Hrun.
  destruct (createAnnouncements_staged _ _ _ _ _ _ _ Hrun) as (d & -> & Hd).
  rewrite events_since_extend.
  destruct Hd as [sA tasksA e0 HA HrA
                 | sA tasksA fileData e0 HA HrA
                 | sA tasksA fileData i0 ts0 sC tasksC e0 HA HrA HC HrC
                 | sA tasksA fileData i0 ts0 sC tasksC us rN evsN
                     HA HrA HC HrC HN];
    destruct (upload_batch_events env sA _ _ HA) as [HdA HevA];
    destruct (upload_events_kind _ _ _ HevA) as (_ & _ & HkA);
    rewrite ?new_events_app.
  - exists (new_events (batch_delta sA tasksA)), [], [].
    rewrite !app_nil_r. split; [done|]. split; [done|].
    split; constructor.
  - exists (new_events (batch_delta sA tasksA)),
      [EvInsertAnnouncement (announcement_payload data userId groupId)
                            (InsertError e0);
       EvConsoleError "Error inserting announcement:" (message e0)], [].
    split; [done|]. split; [done|]. split; [|constructor].
    constructor; [split; by intros []|].
    constructor; [split; by intros []|constructor].
  - destruct (insert_batch_calls i0 sC _ _ HC) as (_ & _ & _ & Hev & _).
    destruct (file_stage_events_kind _ _ Hev) as (_ & HkC & _).
    exists (new_events (batch_delta sA tasksA)),
      (EvInsertAnnouncement (announcement_payload data userId groupId)
                            (InsertOk i0 ts0)
       :: new_events (batch_delta sC tasksC)), [].
    rewrite app_nil_r. split; [done|]. split; [done|].
    split; [|constructor].
    constructor; [split; by intros []|done].
  - destruct (insert_batch_calls i0 sC _ _ HC) as (_ & _ & _ & Hev & _).
    destruct (file_stage_events_kind _ _ Hev) as (_ & HkC & _).
    pose proof (announce_run_events _ _ _ _ _ _ _ _ HN) as HevN.
    destruct (notification_events_kind _ HevN) as (_ & HkN).
    exists (new_events (batch_delta sA tasksA)),
      (EvInsertAnnouncement (announcement_payload data userId groupId)
                            (InsertOk i0 ts0)
       :: new_events (batch_delta sC tasksC)), (evsN ++ dropped rN).
    split; [done|]. split; [done|]. split; [|done].
    constructor; [split; by intros []|done].
Qed.

(** ** The recipients *)

Lemma send_in_sends m resp evs : EvSend m resp ∈ evs -> m ∈ sends evs.
Proof.
  intros Hin. unfold sends. apply list_elem_of_omap.
  by exists (EvSend m resp).
Qed.

Lemma sends_none (P : Event -> Prop) evs :
  Forall P evs -> (forall m resp, ~ P (EvSend m resp)) -> sends evs = [].
Proof.
  intros Hall Hno. unfold sends.
  induction Hall as [|ev evs Hev _ IH]; [done|].
  cbn [omap list_omap]. destruct ev; try exact IH. by destruct (Hno _ _ Hev).
Qed.

(** Who the two queries select: the subscribed users, of the group when
    one is given. *)
Lemma audience_recipient groupId w email :
  email ∈ audience groupId w ->
  exists u,
    u ∈ users w /\ User.email u = email
    /\ User.email_notifications_enabled u = true
    /\ forall g, truthy groupId = Some g ->
         exists gm, gm ∈ group_members w
                    /\ GroupMember.user_id gm = User.id u
                    /\ GroupMember.group_id gm = g.
Proof.
  unfold audience. destruct (truthy groupId) as [g|] eqn:Hg.
  - destruct (run_members_query g w) as [|m ms] eqn:Hm.
    { by intros ?%elem_of_nil. }
    unfold run_users_query. cbn.
    intros (u & -> & ((Hen & Hid) & Hu)%list_elem_of_filter)%list_elem_of_fmap.
    exists u. repeat split; try done.
    intros g' [= <-]. rewrite <- Hm in Hid. unfold run_members_query in Hid.
    apply list_elem_of_fmap in Hid
      as (gm & Heq & (Hgm & Hin)%list_elem_of_filter).
    by exists gm.
  - unfold run_users_query. cbn.
    intros (u & -> & (Hen & Hu)%list_elem_of_filter)%list_elem_of_fmap.
    exists u. by repeat split.
Qed.

(** X5.  Every email a call sends goes to a user with notifications enabled
    who, when a group is given, has a membership row of that group; and an
    email is only sent by a call that returns, that is after the
    announcement and every file row were stored. *)
Theorem emails_go_to_subscribers env data userId groupId w r w' m resp :
  createAnnouncements env data userId groupId w = (r, w') ->
  EvSend m resp ∈ events_since w w' ->
  (exists i, r = Returned i)
  /\ exists u,
       u ∈ users w /\ User.email u = to m
       /\ User.email_notifications_enabled u = true
       /\ forall g, truthy groupId = Some g ->
            exists gm, gm ∈ group_members w
                       /\ GroupMember.user_id gm = User.id u
                       /\ GroupMember.group_id gm = g.
Proof.
  intros Hrun Hin.
  destruct (createAnnouncements_staged _ _ _ _ _ _ _ Hrun) as (d & -> & Hd).
  rewrite events_since_extend in Hin.
  destruct Hd as [sA tasksA e0 HA HrA
                 | sA tasksA fileData e0 HA HrA
                 | sA tasksA fileData i0 ts0 sC tasksC e0 HA HrA HC HrC
                 | sA tasksA fileData i0 ts0 sC tasksC us rN evsN
                     HA HrA HC HrC HN];
    destruct (upload_batch_events env sA _ _ HA) as [HdA HevA];
    rewrite ?new_events_app in Hin.
  - exfalso. apply (proj1 (Forall_forall _ _) HevA) in Hin. destruct Hin.
  - exfalso. apply elem_of_app in Hin as [Hin | Hin].
    { apply (proj1 (Forall_forall _ _) HevA) in Hin. destruct Hin. }
    apply elem_of_cons in Hin as [Hin | Hin%list_elem_of_singleton];
      discriminate Hin.
  - exfalso.
    destruct (insert_batch_calls i0 sC _ _ HC) as (_ & _ & _ & Hev & _).
    apply elem_of_app in Hin as [Hin | [Hin | Hin]%elem_of_app].
    + apply (proj1 (Forall_forall _ _) HevA) in Hin. destruct Hin.
    + apply list_elem_of_singleton in Hin. discriminate Hin.
    + apply (proj1 (Forall_forall _ _) Hev) in Hin. destruct Hin.
  - split; [by eexists|].
    destruct (insert_batch_calls i0 sC _ _ HC) as (_ & _ & _ & Hev & _).
    apply elem_of_app in Hin
      as [Hin | [Hin | [Hin | Hin]%elem_of_app]%elem_of_app].
    + apply (proj1 (Forall_forall _ _) HevA) in Hin. destruct Hin.
    + apply list_elem_of_singleton in Hin. discriminate Hin.
    + apply (proj1 (Forall_forall _ _) Hev) in Hin. destruct Hin.
    + change (new_events (events ?l)) with l in Hin.
      apply elem_of_app in Hin as [Hin | Hin];
        [|destruct rN; [by apply elem_of_nil in Hin|];
          apply list_elem_of_singleton in Hin; discriminate Hin].
      apply send_in_sends in Hin.
      destruct (announce_run_facts _ _ _ _ _ _ _ _ HN)
        as (_ & _ & _ & _ & [Hnone | (html & _ & Hs)] & _).
      { rewrite Hnone in Hin. by apply elem_of_nil in Hin. }
      rewrite Hs in Hin. apply list_elem_of_fmap in Hin as (email & -> & Hin).
      by apply audience_recipient.
Qed.

(** ** The anatomy of a call that returns *)

Lemma no_notification_events evs :
  Forall (fun ev => ~ is_notification ev) evs ->
  sends evs = []
  /\ Forall (fun ev => ~ select_failed ev) evs
  /\ (forall table resp, EvSelect table resp ∉ evs)
  /\ (forall m resp, EvSend m resp ∉ evs).
Proof.
  induction 1 as [|ev evs Hev _ (IHs & IHf & IHq & IHm)].
  { repeat split; try constructor; intros ? ? H; by apply elem_of_nil in H. }
  split; [|split; [|split]].
  - unfold sends in *. cbn [omap list_omap]. destruct ev; try exact IHs.
    by destruct Hev.
  - constructor; [|done]. intros Hf. apply Hev. by destruct ev.
  - intros table resp [<- | Hin]%elem_of_cons; [by apply Hev|].
    by apply (IHq table resp).
  - intros m resp [<- | Hin]%elem_of_cons; [by apply Hev|].
    by apply (IHm m resp).
Qed.

(** A call that returns [i] has added the announcement row and one file
    row for each element of the file data the upload stage produced; its
    interactions are those of the two persistence stages, in which no
    query and no send occurs, followed by those of the fan-out run on
    that file data and by the line of the error the fan-out threw. *)
Lemma returned_run_anatomy env data userId groupId w i w' :
  createAnnouncements env data userId groupId w = (Returned i, w') ->
  exists ts fileData ds evsP rN evsN,
    announcement w'
    = announcement w
      ++ [Announcement.mkRow i ts (announcement_payload data userId groupId)]
    /\ announcement_files w'
       = announcement_files w ++ (file_row i <$> fileData)
    /\ length fileData = length (files data)
    /\ fileData ≡ₚ ds
    /\ Forall2 (fun file d => uploaded_as env file (events_since w w') d)
               (files data) ds
    /\ events_since w w' = evsP ++ evsN ++ dropped rN
    /\ Forall (fun ev => ~ is_notification ev) evsP
    /\ announce_run env (title data) (content data) fileData groupId w
                    rN evsN.
Proof.
  intros Hrun.
  destruct (createAnnouncements_staged _ _ _ _ _ _ _ Hrun) as (d & -> & Hd).
  rewrite events_since_extend.
  inversion Hd
    as [| | | sA tasksA fileData i0 ts0 sC tasksC us rN evsN
                HA HrA HC HrC HN Hi Hdelta]; subst.
  destruct (upload_batch_events env sA _ _ HA) as [HdA HevA].
  destruct (upload_events_kind _ _ _ HevA) as (_ & _ & HkA).
  destruct (batch_result_returned_inv _ _ _ HrA) as (Hok & Hperm & HlenA).
  destruct (upload_tasks_values _ _ _ HA Hok) as (_ & ds & Hds & Hup).
  destruct (insert_batch_calls i sC _ _ HC)
    as (Hrows & Hfiles & Hann & Hev & Hiff).
  destruct (file_stage_events_kind _ _ Hev) as (_ & HkC & _).
  assert (Forall (fun c : AnnouncementFile.row * option JsError =>
                    c.2 = None)
                 (file_inserts (new_events (batch_delta sC tasksC))))
    as Hall by (apply Hiff; by eexists).
  exists ts0, fileData, ds,
    (new_events (batch_delta sA tasksA)
     ++ EvInsertAnnouncement (announcement_payload data userId groupId)
                             (InsertOk i ts0)
        :: new_events (batch_delta sC tasksC)),
    rN, evsN.
  assert (new_announcements (batch_delta sA tasksA) = []
          /\ new_files (batch_delta sA tasksA) = []) as [HaA HfA]
    by (by rewrite HdA).
  split; [|split; [|split; [|split; [|split; [|split; [|split]]]]]].
  - unfold extend, delta_app. cbn. by rewrite HaA, Hann, !app_nil_r.
  - unfold extend, delta_app. cbn.
    by rewrite HfA, Hfiles, (inserted_rows_all _ Hall), Hrows, !app_nil_r.
  - rewrite HlenA. symmetry. by eapply Forall2_length.
  - by rewrite Hperm, Hds.
  - eapply Forall2_impl; [exact Hup|]. intros file d'.
    apply uploaded_as_mono. intros ev Hin.
    rewrite new_events_app. apply elem_of_app. left. by rewrite HdA.
  - rewrite !new_events_app. cbn. by rewrite <- !app_assoc.
  - apply Forall_app. split.
    + eapply Forall_impl; [exact HkA|]. by intros ? [? ?].
    + constructor; [by intros []|].
      eapply Forall_impl; [exact HkC|]. by intros ? [? ?].
  - done.
Qed.


(** ** Failures of the notification stage (C4) *)




(** ** The emails of a call *)

Lemma thrown_run_sends_nothing env data userId groupId w e w' :
  createAnnouncements env data userId groupId w = (Thrown e, w') ->
  sends (events_since w w') = [].
Proof.
  intros Hrun.
  destruct (createAnnouncements_staged _ _ _ _ _ _ _ Hrun) as (d & -> & Hd).
  rewrite events_since_extend.
  inversion Hd
    as [sA tasksA e0 HA HrA
       | sA tasksA fileData e0 HA HrA
       | sA tasksA fileData i0 ts0 sC tasksC e0 HA HrA HC HrC
       | ]; subst;
    destruct (upload_batch_events env sA _ _ HA) as [_ HevA];
    destruct (upload_events_kind _ _ _ HevA) as (_ & HsA & _);
    rewrite ?new_events_app, ?sends_app, HsA.
  - done.
  - done.
  - destruct (insert_batch_calls i0 sC _ _ HC) as (_ & _ & _ & Hev & _).
    by destruct (file_stage_events_kind _ _ Hev) as (-> & _).
Qed.

(** X6.  The send attempts of a call are none, or the same message once
    for each recipient the queries select, in the order of the user table:
    sender and subject are fixed, and the body is rendered once, from the
    file data of the rows the call stored, which are the data the uploads
    of its files produced. *)
Theorem emails_differ_only_in_recipient env data userId groupId w r w' :
  createAnnouncements env data userId groupId w = (r, w') ->
  sends (events_since w w') = []
  \/ exists i fileData ds htmlContent,
       r = Returned i
       /\ announcement_files w'
          = announcement_files w ++ (file_row i <$> fileData)
       /\ length fileData = length (files data)
       /\ fileData ≡ₚ ds
       /\ Forall2 (fun file d => uploaded_as env file (events_since w w') d)
                  (files data) ds
       /\ createEmailHtml env (title data) (content data) fileData
          = Returned htmlContent
       /\ sends (events_since w w')
          = (fun email => mkEmail sender email (title data) htmlContent)
              <$> audience groupId w.
Proof.
  intros Hrun. destruct r as [i|e].
  2: { left. by eapply thrown_run_sends_nothing. }
  destruct (returned_run_anatomy _ _ _ _ _ _ _ Hrun)
    as (ts & fileData & ds & evsP & rN & evsN
        & _ & Hf & Hlen & Hperm & Hup & Hevs & HP & HN).
  destruct (no_notification_events _ HP) as (HsP & _).
  destruct (dropped_kind rN) as [_ Hdsend].
  assert (Hsends : sends (events_since w w') = sends evsN)
    by (by rewrite Hevs, !sends_app, HsP, Hdsend, app_nil_r).
  rewrite Hsends.
  destruct (announce_run_facts _ _ _ _ _ _ _ _ HN)
    as (_ & _ & _ & _ & [Hnone | (html & Hhtml & Hs)] & _); [by left|].
  right. by exists i, fileData, ds, html.
Qed.

Lemma filter_sublist_impl {A} (P Q : A -> Prop)
    `{!forall x, Decision (P x), !forall x, Decision (Q x)} (l : list A) :
  (forall x, P x -> Q x) -> filter P l `sublist_of` filter Q l.
Proof.
  intros HPQ. induction l as [|x l IH]; [done|].
  rewrite !filter_cons.
  destruct (decide (P x)) as [HP|HP].
  - rewrite decide_True by auto. by apply sublist_skip.
  - destruct (decide (Q x)); [by apply sublist_cons|done].
Qed.

(** The recipients the two queries select for a group are among those
    they select without one, in the same order. *)
Lemma group_audience_within_public groupId w :
  audience groupId w `sublist_of` audience None w.
Proof.
  unfold audience at 1. destruct (truthy groupId) as [g|]; [|done].
  destruct (run_members_query g w) as [|m ms]; [apply sublist_nil_l|].
  unfold audience, run_users_query. cbn.
  apply fmap_sublist. apply filter_sublist_impl. by intros u [? _].
Qed.

(** X7.  Whoever a run of the fan-out writes to, for any group, is also
    written to, in the same order, by a run without a group on the same
    tables whose query succeeds: a group never widens the circle of
    recipients. *)
Theorem group_recipients_within_public
    env env' title content files groupId w r w1 r' w2 :
  sendAnnouncementEmailToUsers env title content files groupId w = (r, w1) ->
  sendAnnouncementEmailToUsers env' title content files None w = (r', w2) ->
  Forall (fun ev => ~ select_failed ev) (events_since w w2) ->
  to <$> sends (events_since w w1)
  `sublist_of` to <$> sends (events_since w w2).
Proof.
  intros Hrun1 Hrun2 Hsel.
  destruct (sendAnnouncementEmailToUsers_spec env title content files
              groupId w) as (r1 & evs1 & Hspec1 & Hr1).
  rewrite Hspec1 in Hrun1. injection Hrun1 as <- <-.
  destruct (sendAnnouncementEmailToUsers_spec env' title content files
              None w) as (r2 & evs2 & Hspec2 & Hr2).
  rewrite Hspec2 in Hrun2. injection Hrun2 as <- <-.
  rewrite !events_since_extend in *.
  change (new_events (events evs1)) with evs1.
  change (new_events (events evs2)) with evs2 in *.
  destruct (announce_run_facts _ _ _ _ _ _ _ _ Hr1)
    as (_ & _ & _ & _ & [-> | (html & Hhtml & ->)] & _);
    [apply sublist_nil_l|].
  destruct (announce_run_facts _ _ _ _ _ _ _ _ Hr2)
    as (_ & _ & _ & _ & _ & Hok & _).
  assert (exists html', createEmailHtml env' title content files
                        = Returned html') as [html' Hhtml'].
  { unfold createEmailHtml in *.
    destruct (image_files files); [by eexists|discriminate Hhtml]. }
  destruct (Hok Hsel html' Hhtml') as [_ ->].
  rewrite !fmap_to_emails. apply group_audience_within_public.
Qed.

(** ** No email after a failed query *)

Lemma fanout_run_sending env title content files recipients r evs :
  fanout_run env title content files recipients r evs ->
  sends evs <> [] ->
  r = Returned tt
  /\ Forall (fun ev => ~ select_failed ev) evs
  /\ (exists htmlContent,
        createEmailHtml env title content files = Returned htmlContent)
  /\ recipients <> [].
Proof.
  destruct 1 as [e | Hnil | e Hne Hr | htmlContent evs Hne Hr (Hs & Hd & Hl)];
    try (intros Hsends; by destruct Hsends).
  intros _. split; [done|]. split; [|by eauto].
  constructor; [by intros []|].
  eapply Forall_impl; [exact Hd|]. intros ev Hev Hf. by destruct ev.
Qed.

(** X8.  The fan-out sends an email only when both of its queries
    succeeded, the body rendered and somebody is selected; it then
    completes normally. So a failed query or a failed rendering means that
    nobody is written to, not that some recipients are skipped. *)
Theorem no_email_after_a_failure env title content files groupId w r w' :
  sendAnnouncementEmailToUsers env title content files groupId w = (r, w') ->
  sends (events_since w w') <> [] ->
  r = Returned tt
  /\ Forall (fun ev => ~ select_failed ev) (events_since w w')
  /\ (exists htmlContent,
        createEmailHtml env title content files = Returned htmlContent)
  /\ audience groupId w <> [].
Proof.
  intros Hrun.
  destruct (sendAnnouncementEmailToUsers_spec env title content files
              groupId w) as (r0 & evs & Hspec & Hevs).
  rewrite Hspec in Hrun. injection Hrun as <- <-.
  rewrite events_since_extend. change (new_events (events evs)) with evs.
  destruct Hevs as [g e Hg | g Hg Hm | g r evs Hg Hm Hf | r evs Hg Hf];
    try (intros Hsends; by destruct Hsends).
  - change (sends (EvSelect "group_members" None :: evs)) with (sends evs).
    intros Hs. destruct (fanout_run_sending _ _ _ _ _ _ _ Hf Hs)
      as (-> & Hok & Hhtml & Hne).
    split; [done|]. split; [|done]. constructor; [by intros []|done].
  - intros Hs. by apply (fanout_run_sending _ _ _ _ _ _ _ Hf).
Qed.

(** ** The body of the email *)

Lemma image_files_typed files :
  (exists imageFiles, image_files files = Returned imageFiles)
  <-> Forall (fun f => exists s, fd_type f = JStr s) files.
Proof.
  induction files as [|f files IH]; simpl.
  { split; [constructor|by eexists]. }
  unfold is_image. split.
  - intros [imgs Himgs].
    destruct (fd_type f) as [|s| | | |] eqn:Hty; try discriminate Himgs.
    constructor; [by eexists|]. apply IH.
    destruct (image_files files); [by eexists|discriminate Himgs].
  - intros [[s Hs] Hrest]%Forall_cons. rewrite Hs.
    apply IH in Hrest as [imgs ->]. by eexists.
Qed.

Lemma image_files_filter files imageFiles :
  image_files files = Returned imageFiles ->
  imageFiles = filter (fun f => shown_in_email f) files.
Proof.
  revert imageFiles. induction files as [|f files IH]; simpl.
  { by intros ? [= <-]. }
  intros imgs Himgs. rewrite filter_cons.
  destruct (is_image f) as [b|e] eqn:Hi; [|discriminate Himgs].
  destruct (image_files files) as [keep|e]; [|discriminate Himgs].
  injection Himgs as <-. rewrite <- (IH keep eq_refl).
  destruct (decide (shown_in_email f)) as [Hs|Hs];
    unfold shown_in_email in Hs; rewrite Hi in Hs; by destruct b.
Qed.

Lemma image_files_shown files :
  Forall (fun f => shown_in_email f) files ->
  image_files files = Returned files.
Proof.
  induction 1 as [|f files Hf _ IH]; [done|]. simpl.
  unfold shown_in_email in Hf. destruct (is_image f) as [[]|]; try done.
  by rewrite IH.
Qed.

(** X9.  The body renders exactly when the type of every attachment is a
    string; a single attachment without one makes the rendering throw,
    whatever the other attachments are. *)
Theorem createEmailHtml_returns_iff_typed env title content files :
  (exists htmlContent,
     createEmailHtml env title content files = Returned htmlContent)
  <-> Forall (fun f => exists s, fd_type f = JStr s) files.
Proof.
  rewrite <- image_files_typed. unfold createEmailHtml.
  destruct (image_files files) as [imgs|e].
  - split; intros _; by eexists.
  - split; intros [? [=]].
Qed.

(** X10.  Attachments that are not images leave no trace in the body: it is
    the body rendered from the image attachments alone, in their order. *)
Theorem createEmailHtml_shows_images_only env title content files html :
  createEmailHtml env title content files = Returned html ->
  createEmailHtml env title content (filter (fun f => shown_in_email f) files)
  = Returned html.
Proof.
  unfold createEmailHtml.
  destruct (image_files files) as [imgs|e] eqn:Himgs; [|discriminate].
  apply image_files_filter in Himgs as ->.
  rewrite image_files_shown; [done|].
  apply Forall_forall. by intros f [Hf _]%list_elem_of_filter.
Qed.

(** ** The handlers *)

(** X11.  [POST /] makes no membership check: a request without files that
    names a group in its body stores a private announcement of that group
    and is answered 201 as soon as the insert succeeds, whoever the caller
    is and whatever [group_members] holds. *)
Theorem post_announcement_checks_no_membership env req w g i ts :
  process_files (req_files req) = [] ->
  body_groupId req = Some g ->
  g <> "" ->
  db_insert_announcement env (clock w)
    (announcement_payload (mkData (body_title req) (body_content req) [])
                          (user_id req) (Some g))
  = InsertOk i ts ->
  exists w' row,
    post_announcement env req w
    = (Returned (created_json "Announcement created successfully" i), w')
    /\ announcement w' = announcement w ++ [row]
    /\ Announcement.id row = i
    /\ Announcement.visibility (Announcement.cols row) = "private"
    /\ Announcement.group_id (Announcement.cols row) = Some g
    /\ Announcement.user_id (Announcement.cols row) = user_id req.
Proof.
  intros Hf Hg Hne Hins.
  unfold post_announcement, try_catch, mbind, Js_bind. cbn zeta.
  rewrite Hf, Hg.
  assert (truthy (Some g) = Some g) as ->
    by (unfold truthy; by rewrite decide_False).
  unfold createAnnouncements, mbind, Js_bind. cbn [files].
  unfold mret, Js_ret. rewrite insert_announcement_run. cbn zeta.
  rewrite Hins.
  set (data := mkData (body_title req) (body_content req) []).
  set (p := announcement_payload data (user_id req) (Some g)).
  destruct (notify_spec env data [] (Some g) (extend (inserted p i ts) w))
    as (rN & evsN & HrunN & _).
  rewrite HrunN.
  eexists _, (Announcement.mkRow i ts p). split; [reflexivity|].
  split; [|split; [done|]].
  - unfold extend, inserted. simpl. by rewrite app_nil_r.
  - subst p. unfold announcement_payload.
    assert (truthy (Some g) = Some g) as ->
      by (unfold truthy; by rewrite decide_False).
    done.
Qed.

Lemma truthy_idem groupId : truthy (truthy groupId) = truthy groupId.
Proof.
  destruct groupId as [g|]; [|done]. unfold truthy.
  destruct (decide (g = "")) as [|Hne]; [done|]. by rewrite decide_False.
Qed.

(** X12.  [POST /] always answers, and its answer follows the call of
    [createAnnouncements] it makes.  When the call returns an id, the
    answer is 201 with that id, which is the id of the one row the
    request added to [announcement], and nothing is done after the call.
    When the call throws, the answer is 500 without data and with the
    message of the error thrown; that message is written to the console
    as the last line, and the tables are left as the call left them. *)
Theorem post_announcement_answers env req w r w1 :
  createAnnouncements env
    (mkData (body_title req) (body_content req)
            (process_files (req_files req)))
    (user_id req) (truthy (body_groupId req)) w = (r, w1) ->
  exists j w',
    post_announcement env req w = (Returned j, w')
    /\ match r with
       | Returned i =>
           Response.status j = 201
           /\ Response.success j = true
           /\ Response.data j = Some (Created i)
           /\ w' = w1
           /\ exists row,
                announcement w' = announcement w ++ [row]
                /\ Announcement.id row = i
       | Thrown e =>
           Response.status j = 500
           /\ Response.success j = false
           /\ Response.data j = None
           /\ Response.error j = Some (message e)
           /\ announcement w' = announcement w1
           /\ announcement_files w' = announcement_files w1
           /\ events_since w w'
              = events_since w w1
                ++ [EvConsoleError "Error creating announcement:"
                                   (message e)]
       end.
Proof.
  intros Hrun.
  destruct (createAnnouncements_run _ _ _ _ _ _ _ Hrun) as (d & Hw1 & Hd).
  unfold post_announcement, try_catch, mbind, Js_bind. cbn zeta.
  rewrite Hrun. destruct r as [i|e].
  - eexists _, _. split; [reflexivity|]. cbn.
    split; [done|]. split; [done|]. split; [done|]. split; [done|].
    destruct (create_run_announcements _ _ _ _ _ _ _ Hd)
      as [[_ Hno] | (i' & ts & Hrow & Hi)]; [by destruct (Hno i)|].
    rewrite <- (Hi i eq_refl) in Hrow.
    eexists. rewrite Hw1. unfold extend. simpl. rewrite Hrow. by split.
  - run_js. eexists _, _. split; [reflexivity|]. cbn.
    split; [done|]. split; [done|]. split; [done|]. split; [done|].
    rewrite emit_extend, Hw1, extend_app, !events_since_extend.
    unfold extend. simpl. by rewrite !app_nil_r.
Qed.

(** X13.  Every row that [POST /] stores is consistent: it is public with a
    null [group_id], or private with the non-empty [groupId] of the request
    body as its [group_id]; an empty [groupId] in the body counts as none. *)
Theorem post_announcement_rows_are_consistent env req w j w' :
  post_announcement env req w = (Returned j, w') ->
  exists added,
    announcement w' = announcement w ++ added
    /\ Forall (fun row =>
                 match Announcement.group_id (Announcement.cols row) with
                 | None =>
                     Announcement.visibility (Announcement.cols row) = "public"
                     /\ (body_groupId req = None \/ body_groupId req = Some "")
                 | Some g =>
                     Announcement.visibility (Announcement.cols row)
                     = "private"
                     /\ g <> "" /\ body_groupId req = Some g
                 end) added.
Proof.
  intros Hrun.
  destruct (post_announcement_run env req w) as (r & d & Hd & Hpost).
  rewrite Hpost in Hrun.
  exists (new_announcements d). split.
  { destruct r; injection Hrun as _ <-; unfold extend; simpl;
      by rewrite ?new_announcements_app, ?app_nil_r. }
  destruct (create_run_announcements _ _ _ _ _ _ _ Hd)
    as [[-> _] | (i & ts & -> & _)]; [constructor|].
  constructor; [|constructor]. simpl. rewrite truthy_idem.
  destruct (truthy (body_groupId req)) as [g|] eqn:Hg.
  - by apply truthy_nonempty in Hg as [-> ?].
  - split; [done|]. destruct (body_groupId req) as [h|]; [|by left].
    right. unfold truthy in Hg. by destruct (decide (h = "")) as [->|].
Qed.

(** X14.  The group route goes on only when the membership query succeeds
    and selects exactly one row: no row, several rows for the same user and
    group, or a failed query all give 403, after the query alone and with
    both announcement tables unchanged. *)
Theorem group_post_needs_one_membership_row env req w j w' :
  post_group_announcement env req w = (Returned j, w') ->
  (Response.status j = 403
   <-> ~ (db_select env (clock w) "group_members" = None
          /\ length (run_membership_query (user_id req) (params_groupId req) w)
             = 1))
  /\ (Response.status j = 403 ->
      events_since w w'
      = [EvSelect "group_members" (db_select env (clock w) "group_members")]
      /\ announcement w' = announcement w
      /\ announcement_files w' = announcement_files w).
Proof.
  intros Hrun.
  destruct (post_group_announcement_run env req w) as [Hno Hyes].
  destruct (decide (db_select env (clock w) "group_members" = None)) as [Hs|Hs].
  - destruct (run_membership_query (user_id req) (params_groupId req) w)
      as [|m [|m' ms]] eqn:Hm.
    + rewrite Hno in Hrun by (intros [_ [? ?]]; congruence).
      injection Hrun as <- <-. rewrite events_since_extend.
      split; [split; [by intros _ [_ ?]|done]|]. intros _.
      unfold extend. simpl. by rewrite !app_nil_r.
    + destruct Hyes as (r & d & _ & Hpost); [split; [done|by eexists]|].
      rewrite Hpost in Hrun.
      assert (Response.status j <> 403) as Hst
        by (destruct r; by injection Hrun as <- _).
      split; [split; [done|]|done]. intros []. by split.
    + rewrite Hno in Hrun by (intros [_ [? ?]]; congruence).
      injection Hrun as <- <-. rewrite events_since_extend.
      split; [split; [by intros _ [_ ?]|done]|]. intros _.
      unfold extend. simpl. by rewrite !app_nil_r.
  - rewrite Hno in Hrun by (by intros [? _]).
    injection Hrun as <- <-. rewrite events_since_extend.
    split; [split; [by intros _ [? _]|done]|]. intros _.
    unfold extend. simpl. by rewrite !app_nil_r.
Qed.

(** ** Creating, then listing *)

(** What a call that returns leaves in the two tables. *)
Lemma returned_run_rows env data userId groupId w i w' :
  createAnnouncements env data userId groupId w = (Returned i, w') ->
  exists ts fileData,
    announcement w'
    = announcement w
      ++ [Announcement.mkRow i ts (announcement_payload data userId groupId)]
    /\ announcement_files w'
       = announcement_files w ++ (file_row i <$> fileData)
    /\ length fileData = length (files data).
Proof.
  intros Hrun.
  destruct (createAnnouncements_staged _ _ _ _ _ _ _ Hrun) as (d & -> & Hd).
  inversion Hd
    as [| | | sA tasksA fileData i0 ts0 sC tasksC us rN evsN
                HA HrA HC HrC HN Hi Hdelta]; subst.
  destruct (upload_batch_events env sA _ _ HA) as [HdA _].
  destruct (batch_result_returned_inv _ _ _ HrA) as (_ & _ & HlenA).
  destruct (insert_batch_calls i sC _ _ HC)
    as (Hrows & Hfiles & Hann & _ & Hiff).
  assert (Forall (fun c : AnnouncementFile.row * option JsError =>
                    c.2 = None)
                 (file_inserts (new_events (batch_delta sC tasksC))))
    as Hall by (apply Hiff; by eexists).
  exists ts0, fileData. unfold extend, delta_app. cbn.
  rewrite Hann, Hfiles, (inserted_rows_all _ Hall), Hrows.
  assert (new_announcements (batch_delta sA tasksA) = []
          /\ new_files (batch_delta sA tasksA) = []) as [-> ->]
    by (by rewrite HdA).
  rewrite !app_nil_r. split; [done|]. split; [done|].
  rewrite HlenA. symmetry. by eapply Forall2_length.
Qed.

Lemma filter_all {A} (P : A -> Prop) `{!forall x, Decision (P x)}
    (l : list A) :
  Forall P l -> filter P l = l.
Proof.
  induction 1 as [|x l Hx _ IH]; [done|].
  by rewrite filter_cons_True, IH.
Qed.

Lemma get_announcements_listing env w j w' :
  get_announcements env w = (Returned j, w') ->
  Response.status j = 200 ->
  Response.data j = Some (Listing (run_listing_query w)).
Proof.
  unfold get_announcements. run_js.
  destruct (db_select env (clock w) "announcement") as [e|];
    [by intros [= <- _]|].
  by intros [= <- _] _.
Qed.

(** X15.  An announcement that was created without a group is in the next
    listing, with at least the file rows of its files, and at its head when
    its timestamp is later than all stored ones; an announcement created
    for a group is in no listing. *)
Theorem created_announcement_in_listing
    env env' data userId groupId w i w1 j w2 :
  createAnnouncements env data userId groupId w = (Returned i, w1) ->
  get_announcements env' w1 = (Returned j, w2) ->
  Response.status j = 200 ->
  exists ts rows,
    let new :=
      Announcement.mkRow i ts (announcement_payload data userId groupId) in
    announcement w1 = announcement w ++ [new]
    /\ Response.data j = Some (Listing rows)
    /\ (truthy groupId = None ->
        exists row,
          row ∈ rows
          /\ Joined.announcement row = new
          /\ length (files data) <= length (Joined.announcement_files row)
          /\ ((forall a, a ∈ announcement w ->
                 (Announcement.created_at a < ts)%Z) ->
              head rows = Some row))
    /\ (forall g, truthy groupId = Some g ->
          Forall (fun row => Joined.announcement row <> new) rows).
Proof.
  intros Hrun Hget Hst.
  destruct (returned_run_rows _ _ _ _ _ _ _ Hrun)
    as (ts & fileData & Hann & Hfiles & Hlen).
  exists ts, (run_listing_query w1). cbn zeta.
  set (new := Announcement.mkRow i ts
                (announcement_payload data userId groupId)) in *.
  split; [done|]. split; [by eapply get_announcements_listing|].
  unfold run_listing_query. rewrite Hann.
  set (public := filter _ (announcement w ++ [new])).
  split.
  - intros Hg.
    assert (Hin : new ∈ public).
    { apply list_elem_of_filter. split; [|set_solver].
      simpl. by rewrite Hg. }
    exists (join w1 new). split; [|split; [done|split]].
    + apply list_elem_of_fmap_2. by rewrite merge_sort_Permutation.
    + simpl. rewrite Hfiles, filter_app, length_app.
      rewrite (filter_all _ (file_row i <$> fileData)), length_fmap; [lia|].
      apply Forall_fmap, Forall_forall. by intros d _.
    + intros Hnew.
      pose proof (StronglySorted_merge_sort newest_first public) as Hsorted.
      pose proof (merge_sort_Permutation newest_first public) as Hperm.
      destruct (merge_sort newest_first public) as [|h t] eqn:Hms.
      { rewrite <- Hperm in Hin. by apply elem_of_nil in Hin. }
      simpl. f_equal. f_equal.
      assert (Hh : h ∈ public) by (rewrite <- Hperm; by left).
      rewrite <- Hperm in Hin.
      apply list_elem_of_filter in Hh as [_ Hh].
      apply elem_of_app in Hh as [Hold | Hh%list_elem_of_singleton];
        [|done].
      exfalso. apply Hnew in Hold.
      apply elem_of_cons in Hin as [Heq | Hin];
        [rewrite <- Heq in Hold; simpl in Hold; lia|].
      apply StronglySorted_inv in Hsorted as [_ Hall].
      apply (proj1 (Forall_forall _ _) Hall) in Hin.
      unfold newest_first in Hin. simpl in Hin. lia.
  - intros g Hg. apply Forall_fmap, Forall_forall. intros a Ha. simpl.
    rewrite merge_sort_Permutation in Ha.
    apply list_elem_of_filter in Ha as [Hpub _]. intros ->.
    simpl in Hpub. rewrite Hg in Hpub. discriminate Hpub.
Qed.

(** ** The CORS headers middleware *)

(** X16.  The middleware throws exactly when the request has no [Origin]
    header while [FRONTEND_URL] is unset: the list of origins then holds
    [undefined], which the absent header equals, and the header cannot be
    set to it. *)
Theorem cors_headers_throws_iff_unconfigured FRONTEND_URL origin method res :
  (exists e, cors_headers FRONTEND_URL origin method res = Thrown e)
  <-> FRONTEND_URL = None /\ origin = None.
Proof.
  unfold cors_headers, corsOptions_origin. split.
  - intros [e He]. destruct origin as [o|].
    + exfalso. destruct (bool_decide _); simpl in He;
        destruct (decide (method = "OPTIONS")); discriminate He.
    + split; [|done]. destruct FRONTEND_URL as [f|]; [|done]. exfalso.
      rewrite bool_decide_eq_false_2 in He
        by (by intros [?|[?|?%elem_of_nil]%elem_of_cons]%elem_of_cons).
      simpl in He. destruct (decide (method = "OPTIONS")); discriminate He.
  - intros [-> ->].
    rewrite bool_decide_eq_true_2
      by apply list_elem_of_further, list_elem_of_here.
    by eexists.
Qed.

(** X17.  When the middleware completes, it has ended the response exactly
    for the method OPTIONS, with status 200, and otherwise left status and
    body alone; it has set the three fixed headers; the header
    [Access-Control-Allow-Origin] is the one it found, or the origin of the
    request when that is the local development origin or [FRONTEND_URL];
    and no other header is touched. *)
Theorem cors_headers_allows_listed_origins_only
    FRONTEND_URL origin method res res' flow :
  cors_headers FRONTEND_URL origin method res = Returned (res', flow) ->
  (flow = Ended <-> method = "OPTIONS")
  /\ (flow = Ended -> res_status res' = Some 200 /\ res_ended res' = true)
  /\ (flow = Next ->
      res_status res' = res_status res /\ res_ended res' = res_ended res)
  /\ res_headers res' !! "Access-Control-Allow-Methods"
     = Some "GET, POST, PUT, DELETE, OPTIONS"
  /\ res_headers res' !! "Access-Control-Allow-Headers"
     = Some "Content-Type, Authorization"
  /\ res_headers res' !! "Access-Control-Allow-Credentials" = Some "true"
  /\ (forall v,
        res_headers res' !! "Access-Control-Allow-Origin" = Some v ->
        res_headers res !! "Access-Control-Allow-Origin" = Some v
        \/ (origin = Some v
            /\ (v = "https://localhost:5173" \/ FRONTEND_URL = Some v)))
  /\ forall name,
       name ∉ ["Access-Control-Allow-Origin"; "Access-Control-Allow-Methods";
               "Access-Control-Allow-Headers";
               "Access-Control-Allow-Credentials"] ->
       res_headers res' !! name = res_headers res !! name.
Proof.
  unfold cors_headers, corsOptions_origin. intros Hrun.
  assert (exists hs,
            (hs = res_headers res
             \/ exists v, origin = Some v
                  /\ (v = "https://localhost:5173" \/ FRONTEND_URL = Some v)
                  /\ hs = <["Access-Control-Allow-Origin" := v]>
                            (res_headers res))
            /\ res_headers res'
               = <["Access-Control-Allow-Credentials" := "true"]>
                   (<["Access-Control-Allow-Headers" :=
                        "Content-Type, Authorization"]>
                      (<["Access-Control-Allow-Methods" :=
                           "GET, POST, PUT, DELETE, OPTIONS"]> hs))
            /\ (flow = Ended <-> method = "OPTIONS")
            /\ (flow = Ended ->
                res_status res' = Some 200 /\ res_ended res' = true)
            /\ (flow = Next ->
                res_status res' = res_status res
                /\ res_ended res' = res_ended res))
    as (hs & Hhs & Hres & Hflow & Hend & Hnext).
  { destruct (bool_decide_reflect
                (origin ∈ [Some "https://localhost:5173"; FRONTEND_URL]))
      as [Hin | _].
    - destruct origin as [o|]; [|discriminate Hrun]. simpl in Hrun.
      exists (<["Access-Control-Allow-Origin" := o]> (res_headers res)).
      split.
      { right. exists o. split; [done|]. split; [|done].
        apply elem_of_cons in Hin as [[= ->] | Hin%list_elem_of_singleton];
          [by left|by right]. }
      destruct (decide (method = "OPTIONS")); injection Hrun as <- <-;
        simpl; repeat split; try done.
    - simpl in Hrun. exists (res_headers res). split; [by left|].
      destruct (decide (method = "OPTIONS")); injection Hrun as <- <-;
        simpl; repeat split; try done. }
  rewrite Hres. split; [done|]. split; [done|]. split; [done|].
  split; [by rewrite !lookup_insert_ne, lookup_insert_eq by done|].
  split; [by rewrite lookup_insert_ne, lookup_insert_eq by done|].
  split; [by rewrite lookup_insert_eq|]. split.
  - intros v. rewrite !lookup_insert_ne by done.
    destruct Hhs as [-> | (o & -> & Hlisted & ->)]; [by left|].
    rewrite lookup_insert_eq. intros [= <-]. right. by split.
  - intros name Hname.
    assert (name <> "Access-Control-Allow-Origin"
            /\ name <> "Access-Control-Allow-Methods"
            /\ name <> "Access-Control-Allow-Headers"
            /\ name <> "Access-Control-Allow-Credentials")
      as (Hn1 & Hn2 & Hn3 & Hn4)
      by (repeat split; intros ->; apply Hname; repeat constructor).
    rewrite !lookup_insert_ne by done.
    destruct Hhs as [-> | (o & -> & Hlisted & ->)]; [done|].
    by rewrite lookup_insert_ne.
Qed.

(** ** Uploads of a failing call *)

Lemma filter_none {A} (P : A -> Prop) `{!forall x, Decision (P x)}
    (l : list A) :
  Forall (fun x => ~ P x) l -> filter P l = [].
Proof.
  induction 1 as [|x l Hx _ IH]; [done|].
  by rewrite filter_cons_False.
Qed.

Lemma upload_tasks_issue env files tasks :
  Forall2 (upload_task env) files tasks ->
  Forall named files ->
  length (filter (fun ev => is_upload ev)
            (concat (new_events <$> (task_delta <$> tasks))))
  = length files.
Proof.
  induction 1 as [|file t files tasks Ht _ IH]; intros Hnamed; [done|].
  apply Forall_cons in Hnamed as [[s Hs] Hnamed].
  unfold upload_task in Ht. rewrite Hs in Ht.
  destruct Ht as (k & resp & ->).
  rewrite !fmap_cons. cbn [concat task_delta new_events events app].
  rewrite filter_cons_False by (by intros []).
  rewrite filter_cons_True by exact I. simpl. by rewrite IH.
Qed.

(** X18.  Every file with a name is uploaded, whatever the other uploads
    answer and however the call ends: the uploads are all issued before the
    first answer is looked at. A call that throws because one upload failed
    has still issued the upload of every other file. *)
Theorem every_named_file_is_uploaded env data userId groupId w r w' :
  createAnnouncements env data userId groupId w = (r, w') ->
  Forall named (files data) ->
  length (filter (fun ev => is_upload ev) (events_since w w'))
  = length (files data).
Proof.
  intros Hrun Hnamed.
  destruct (createAnnouncements_staged _ _ _ _ _ _ _ Hrun) as (d & -> & Hd).
  rewrite events_since_extend.
  destruct Hd as [sA tasksA e0 HA HrA
                 | sA tasksA fileData e0 HA HrA
                 | sA tasksA fileData i0 ts0 sC tasksC e0 HA HrA HC HrC
                 | sA tasksA fileData i0 ts0 sC tasksC us rN evsN
                     HA HrA HC HrC HN];
    destruct (upload_batch_events env sA _ _ HA) as [HdA _];
    pose proof (upload_tasks_issue _ _ _ HA Hnamed) as Hcount;
    rewrite ?new_events_app, ?filter_app, ?length_app;
    rewrite HdA at 1;
    change (new_events (events ?l)) with l; rewrite Hcount.
  - done.
  - simpl. lia.
  - destruct (insert_batch_calls i0 sC _ _ HC) as (_ & _ & _ & Hev & _).
    destruct (file_stage_events_kind _ _ Hev) as (_ & HkC & _).
    rewrite (filter_none _ (new_events (batch_delta sC tasksC)))
      by (eapply Forall_impl; [exact HkC|]; by intros ? [? _]).
    simpl. lia.
  - destruct (insert_batch_calls i0 sC _ _ HC) as (_ & _ & _ & Hev & _).
    destruct (file_stage_events_kind _ _ Hev) as (_ & HkC & _).
    pose proof (announce_run_events _ _ _ _ _ _ _ _ HN) as HevN.
    destruct (notification_events_kind _ HevN) as (_ & HkN).
    rewrite (filter_none _ (new_events (batch_delta sC tasksC)))
      by (eapply Forall_impl; [exact HkC|]; by intros ? [? _]).
    rewrite (filter_none _ (evsN ++ dropped rN))
      by (eapply Forall_impl; [exact HkN|]; by intros ? [? _]).
    simpl. lia.
Qed.

Lemma every_named_file_is_uploaded_witness :
  (exists e,
     (createAnnouncements full_storage_env notice_with_files "u1" None
                          parish).1 = Thrown e)
  /\ length
       (filter (fun ev => is_upload ev)
          (events_since parish
             (createAnnouncements full_storage_env notice_with_files "u1"
                                  None parish).2))
     = 2.
Proof.
  split; [eexists; vm_compute; reflexivity|].
  apply (every_named_file_is_uploaded full_storage_env notice_with_files
           "u1" None parish _ _ (surjective_pairing _)).
  repeat constructor; eexists; by vm_compute.
Defined.

(** ** The listing handler *)

(** X19.  [GET /] always answers and never changes a table: it issues the
    one query, answers 200 when the query succeeds and 500 with the message
    of the store's error when it fails. *)
Theorem get_announcements_reads_only env w :
  exists j w',
    get_announcements env w = (Returned j, w')
    /\ announcement w' = announcement w
    /\ announcement_files w' = announcement_files w
    /\ users w' = users w
    /\ group_members w' = group_members w
    /\ Forall (fun ev => ~ is_upload ev /\ ~ is_insert ev) (events_since w w')
    /\ match db_select env (clock w) "announcement" with
       | None => Response.status j = 200
       | Some e =>
           Response.status j = 500 /\ Response.data j = None
           /\ Response.error j = Some (message e)
       end.
Proof.
  unfold get_announcements. run_js.
  destruct (db_select env (clock w) "announcement") as [e|];
    eexists _, _; (split; [reflexivity|]);
    rewrite ?emit_extend, ?extend_app, events_since_extend;
    unfold extend; simpl; rewrite ?app_nil_r;
    repeat split; try done; repeat constructor; by intros [].
Qed.

(** ** Sample runs of the further properties *)

Lemma failed_announcement_insert_witness :
  (createAnnouncements refusing_store_env notice_with_files "u1" None
                       parish).1
  = Thrown (mkError "permission denied")
  /\ announcement
       (createAnnouncements refusing_store_env notice_with_files "u1" None
                            parish).2
     = announcement parish
  /\ announcement_files
       (createAnnouncements refusing_store_env notice_with_files "u1" None
                            parish).2
     = announcement_files parish
  /\ length
       (filter (fun ev => is_upload ev)
          (events_since parish
             (createAnnouncements refusing_store_env notice_with_files "u1"
                                  None parish).2))
     = 2.
Proof.
  assert (Hin : EvInsertAnnouncement
                  (announcement_payload notice_with_files "u1" None)
                  (InsertError (mkError "permission denied"))
                ∈ events_since parish
                    (createAnnouncements refusing_store_env notice_with_files
                                         "u1" None parish).2).
  { vm_compute. do 4 apply list_elem_of_further. apply list_elem_of_here. }
  destruct (failed_announcement_insert refusing_store_env notice_with_files
              "u1" None parish _ _ _ (surjective_pairing _) Hin)
    as (Hr & Ha & Hf & _).
  split; [exact Hr|]. split; [exact Ha|]. split; [exact Hf|].
  vm_compute. reflexivity.
Defined.

Lemma file_rows_are_not_atomic_witness :
  (exists e,
     (createAnnouncements picky_store_env notice_with_files "u1" None
                          parish).1 = Thrown e)
  /\ (exists row,
        announcement
          (createAnnouncements picky_store_env notice_with_files "u1" None
                               parish).2
        = announcement parish ++ [row])
  /\ length
       (announcement_files
          (createAnnouncements picky_store_env notice_with_files "u1" None
                               parish).2)
     = length (announcement_files parish) + 1
  /\ length
       (file_inserts
          (events_since parish
             (createAnnouncements picky_store_env notice_with_files "u1" None
                                  parish).2))
     = 2.
Proof.
  assert (Hin : EvInsertAnnouncement
                  (announcement_payload notice_with_files "u1" None)
                  (InsertOk 4 1700000000004)
                ∈ events_since parish
                    (createAnnouncements picky_store_env notice_with_files
                                         "u1" None parish).2).
  { vm_compute. do 4 apply list_elem_of_further. apply list_elem_of_here. }
  destruct (file_rows_are_not_atomic picky_store_env notice_with_files
              "u1" None parish _ _ _ _ (surjective_pairing _) Hin)
    as (Ha & Hlen & _ & Hf & _ & Hfail).
  split.
  { apply Hfail. vm_compute. intros Hall.
    apply Forall_cons in Hall as [_ Hall].
    apply Forall_cons in Hall as [Hno _]. discriminate Hno. }
  split; [eexists; exact Ha|]. split; [|exact Hlen].
  rewrite Hf, length_app. f_equal.
Defined.

Lemma file_rows_describe_uploads_witness :
  exists ds rows,
    announcement_files
      (createAnnouncements quiet_env notice_with_files "u1" None parish).2
    = announcement_files parish ++ rows
    /\ rows ≡ₚ file_row 4 <$> ds
    /\ Forall2 (fun file d =>
                  uploaded_as quiet_env file
                    (events_since parish
                       (createAnnouncements quiet_env notice_with_files "u1"
                                            None parish).2) d)
               [poster; schedule] ds.
Proof.
  assert (Hr : (createAnnouncements quiet_env notice_with_files "u1" None
                                    parish).1 = Returned 4%Z)
    by (vm_compute; reflexivity).
  pose proof (surjective_pairing
                (createAnnouncements quiet_env notice_with_files "u1" None
                                     parish)) as Hrun.
  rewrite Hr in Hrun.
  exact (file_rows_describe_uploads quiet_env notice_with_files "u1" None
           parish 4 _ Hrun).
Defined.

Lemma stages_are_ordered_witness :
  exists ups pers notif,
    events_since parish
      (createAnnouncements quiet_env notice_with_files "u1" None parish).2
    = ups ++ pers ++ notif
    /\ Forall (fun ev => ~ is_insert ev /\ ~ is_notification ev) ups
    /\ Forall (fun ev => ~ is_upload ev /\ ~ is_notification ev) pers
    /\ Forall (fun ev => ~ is_upload ev /\ ~ is_insert ev) notif.
Proof.
  apply (stages_are_ordered quiet_env notice_with_files "u1" None parish
           _ _ (surjective_pairing _)).
Defined.

Lemma emails_go_to_subscribers_witness :
  exists u gm,
    u ∈ users parish
    /\ User.email u = "ana@example.org"
    /\ User.email_notifications_enabled u = true
    /\ gm ∈ group_members parish
    /\ GroupMember.user_id gm = User.id u
    /\ GroupMember.group_id gm = "choir".
Proof.
  set (evs := events_since parish
                (createAnnouncements quiet_env notice "u1" (Some "choir")
                                     parish).2).
  set (m := default (mkEmail "" "" "" "") (head (sends evs))).
  assert (Hin : EvSend m SendOk ∈ evs).
  { vm_compute. do 3 apply list_elem_of_further. apply list_elem_of_here. }
  destruct (emails_go_to_subscribers quiet_env notice "u1" (Some "choir")
              parish _ _ m SendOk (surjective_pairing _) Hin)
    as (_ & u & Hu & Hemail & Hen & Hgm).
  destruct (Hgm "choir" eq_refl) as (gm & Hgmin & Hid & Hg).
  exists u, gm. split; [exact Hu|]. split.
  { rewrite Hemail. vm_compute. reflexivity. }
  split; [exact Hen|]. split; [exact Hgmin|]. split; [exact Hid|exact Hg].
Defined.

Lemma emails_differ_only_in_recipient_witness :
  exists htmlContent,
    sends (events_since parish
             (createAnnouncements quiet_env notice_with_files "u1" None
                                  parish).2)
    = [mkEmail sender "ana@example.org" "Notice" htmlContent;
       mkEmail sender "cora@example.org" "Notice" htmlContent].
Proof.
  destruct (emails_differ_only_in_recipient quiet_env notice_with_files "u1"
              None parish _ _ (surjective_pairing _))
    as [Hnone | (i & fileData & ds & html & _ & _ & _ & _ & _ & _ & Hs)].
  - vm_compute in Hnone. discriminate Hnone.
  - exists html. rewrite Hs. reflexivity.
Defined.

Lemma no_email_after_a_failure_witness :
  (sendAnnouncementEmailToUsers quiet_env "Notice" "<p>hi</p>" []
                                (Some "choir") parish).1 = Returned tt
  /\ audience (Some "choir") parish <> [].
Proof.
  assert (Hs : sends
                 (events_since parish
                    (sendAnnouncementEmailToUsers quiet_env "Notice"
                       "<p>hi</p>" [] (Some "choir") parish).2) <> []).
  { vm_compute. discriminate. }
  destruct (no_email_after_a_failure quiet_env "Notice" "<p>hi</p>" []
              (Some "choir") parish _ _ (surjective_pairing _) Hs)
    as (Hr & _ & _ & Ha).
  split; [exact Hr|exact Ha].
Defined.

Lemma createEmailHtml_shows_images_only_witness :
  exists html,
    createEmailHtml quiet_env "Notice" "<p>hi</p>"
      [mkFileDatum "announcement/a.png" "a" (JStr "image/png");
       mkFileDatum "announcement/b.png" "b" (JStr "application/pdf")]
    = Returned html
    /\ createEmailHtml quiet_env "Notice" "<p>hi</p>"
         [mkFileDatum "announcement/a.png" "a" (JStr "image/png")]
       = Returned html.
Proof.
  eexists. split; [reflexivity|].
  apply (createEmailHtml_shows_images_only quiet_env "Notice" "<p>hi</p>"
           [mkFileDatum "announcement/a.png" "a" (JStr "image/png");
            mkFileDatum "announcement/b.png" "b" (JStr "application/pdf")]).
  reflexivity.
Defined.

Lemma post_announcement_checks_no_membership_witness :
  run_membership_query "u2" "choir" parish = []
  /\ exists w' row,
       post_announcement quiet_env (plain_request "u2") parish
       = (Returned (created_json "Announcement created successfully" 0), w')
       /\ announcement w' = announcement parish ++ [row]
       /\ Announcement.visibility (Announcement.cols row) = "private"
       /\ Announcement.group_id (Announcement.cols row) = Some "choir"
       /\ Announcement.user_id (Announcement.cols row) = "u2".
Proof.
  split; [vm_compute; reflexivity|].
  assert (Hne : "choir" <> "") by discriminate.
  assert (Hins : db_insert_announcement quiet_env (clock parish)
                   (announcement_payload
                      (mkData (body_title (plain_request "u2"))
                              (body_content (plain_request "u2")) [])
                      (user_id (plain_request "u2")) (Some "choir"))
                 = InsertOk 0 1700000000000)
    by (vm_compute; reflexivity).
  destruct (post_announcement_checks_no_membership quiet_env
              (plain_request "u2") parish "choir" 0 1700000000000
              eq_refl eq_refl Hne Hins)
    as (w' & row & Hrun & Ha & _ & Hv & Hg & Hu).
  exists w', row. split; [exact Hrun|]. split; [exact Ha|].
  split; [exact Hv|]. split; [exact Hg|exact Hu].
Defined.

Lemma post_announcement_rows_are_consistent_witness :
  exists row,
    announcement (post_announcement quiet_env (plain_request "u2") parish).2
    = announcement parish ++ [row]
    /\ Announcement.visibility (Announcement.cols row) = "private"
    /\ Announcement.group_id (Announcement.cols row) = Some "choir".
Proof.
  assert (Hr : (post_announcement quiet_env (plain_request "u2") parish).1
               = Returned (created_json "Announcement created successfully" 0))
    by (vm_compute; reflexivity).
  pose proof (surjective_pairing
                (post_announcement quiet_env (plain_request "u2") parish))
    as Hrun.
  rewrite Hr in Hrun.
  destruct (post_announcement_rows_are_consistent quiet_env
              (plain_request "u2") parish _ _ Hrun) as (added & Ha & Hall).
  assert (Hlen : length added = 1).
  { apply (f_equal length) in Ha. rewrite length_app in Ha.
    assert (Hl : length
                   (announcement
                      (post_announcement quiet_env (plain_request "u2")
                                         parish).2) = 4)
      by (vm_compute; reflexivity).
    rewrite Hl in Ha. simpl in Ha. lia. }
  destruct added as [|row [|row' rest]]; try discriminate Hlen.
  apply Forall_cons in Hall as [Hrow _].
  exists row. split; [exact Ha|].
  destruct (Announcement.group_id (Announcement.cols row)) as [g|].
  - destruct Hrow as (Hv & _ & Hg). split; [exact Hv|]. symmetry. exact Hg.
  - destruct Hrow as (_ & [Hg | Hg]); discriminate Hg.
Defined.

Lemma group_post_needs_one_membership_row_witness :
  length (run_membership_query "u1" "choir" parish_with_duplicate) = 2
  /\ (post_group_announcement quiet_env (plain_request "u1")
                              parish_with_duplicate).1
     = Returned forbidden_json
  /\ announcement
       (post_group_announcement quiet_env (plain_request "u1")
                                parish_with_duplicate).2
     = announcement parish_with_duplicate.
Proof.
  assert (Hr : (post_group_announcement quiet_env (plain_request "u1")
                                        parish_with_duplicate).1
               = Returned forbidden_json)
    by (vm_compute; reflexivity).
  pose proof (surjective_pairing
                (post_group_announcement quiet_env (plain_request "u1")
                                         parish_with_duplicate)) as Hrun.
  rewrite Hr in Hrun.
  destruct (group_post_needs_one_membership_row quiet_env
              (plain_request "u1") parish_with_duplicate _ _ Hrun)
    as (_ & Hframe).
  destruct (Hframe eq_refl) as (_ & Ha & _).
  split; [vm_compute; reflexivity|]. split; [exact Hr|exact Ha].
Defined.

Lemma created_announcement_in_listing_witness :
  exists ts rows row,
    Response.data
      (Response.mkJson 200 true
         (Some (Listing
                  (run_listing_query
                     (createAnnouncements quiet_env notice_with_files "u1"
                                          None parish).2)))
         None None)
    = Some (Listing rows)
    /\ head rows = Some row
    /\ Joined.announcement row
       = Announcement.mkRow 4 ts
           (announcement_payload notice_with_files "u1" None)
    /\ 2 <= length (Joined.announcement_files row).
Proof.
  set (w1 := (createAnnouncements quiet_env notice_with_files "u1" None
                                  parish).2).
  set (j := Response.mkJson 200 true (Some (Listing (run_listing_query w1)))
                            None None).
  assert (Hr : (createAnnouncements quiet_env notice_with_files "u1" None
                                    parish).1 = Returned 4%Z)
    by (vm_compute; reflexivity).
  pose proof (surjective_pairing
                (createAnnouncements quiet_env notice_with_files "u1" None
                                     parish)) as Hrun.
  rewrite Hr in Hrun.
  assert (Hj : (get_announcements quiet_env w1).1 = Returned j)
    by (vm_compute; reflexivity).
  pose proof (surjective_pairing (get_announcements quiet_env w1)) as Hget.
  rewrite Hj in Hget.
  destruct (created_announcement_in_listing quiet_env quiet_env
              notice_with_files "u1" None parish 4 _ j _ Hrun Hget eq_refl)
    as (ts & rows & Ha & Hdata & Hpublic & _).
  destruct (Hpublic eq_refl) as (row & _ & Hrow & Hlen & Hhead).
  assert (Hts : ts = 1700000000004%Z).
  { vm_compute in Ha. congruence. }
  exists ts, rows, row. split; [exact Hdata|]. split; [|by split].
  apply Hhead. rewrite Hts. intros a Hmem.
  change (announcement parish) with
    [Announcement.mkRow 1 50
       (Announcement.mkPayload "Feast" "<p>old</p>" "public" None "u1");
     Announcement.mkRow 2 70
       (Announcement.mkPayload "Choir" "<p>practice</p>" "private"
                               (Some "choir") "u1");
     Announcement.mkRow 3 90
       (Announcement.mkPayload "Mass" "<p>new</p>" "public" None "u3")] in Hmem.
  apply elem_of_cons in Hmem as [-> | Hmem]; [reflexivity|].
  apply elem_of_cons in Hmem as [-> | Hmem]; [reflexivity|].
  apply list_elem_of_singleton in Hmem as ->. reflexivity.
Defined.

Lemma cors_headers_allows_listed_origins_only_witness :
  exists res' flow,
    cors_headers (Some "https://togather.app") (Some "https://evil.example")
                 "GET" (mkServerResponse ∅ None false)
    = Returned (res', flow)
    /\ flow = Next
    /\ res_headers res' !! "Access-Control-Allow-Origin" = None
    /\ res_headers res' !! "Access-Control-Allow-Credentials" = Some "true".
Proof.
  destruct (cors_headers (Some "https://togather.app")
                         (Some "https://evil.example") "GET"
                         (mkServerResponse ∅ None false))
    as [[res' flow]|e] eqn:Hrun; [|vm_compute in Hrun; discriminate Hrun].
  destruct (cors_headers_allows_listed_origins_only _ _ _ _ _ _ Hrun)
    as (Hflow & _ & _ & _ & _ & Hcred & Horigin & _).
  exists res', flow. split; [reflexivity|]. split; [|split; [|exact Hcred]].
  - destruct flow; [|reflexivity].
    discriminate (proj1 Hflow eq_refl).
  - destruct (res_headers res' !! "Access-Control-Allow-Origin")
      as [v|] eqn:Hv; [|reflexivity].
    destruct (Horigin v eq_refl) as [Hold | (Ho & [Hl | Hf])].
    + discriminate Hold.
    + injection Ho as <-. discriminate Hl.
    + injection Ho as <-. discriminate Hf.
Defined.

Lemma group_recipients_within_public_witness :
  to <$> sends
           (events_since parish
              (sendAnnouncementEmailToUsers quiet_env "Notice" "<p>hi</p>" []
                                            (Some "choir") parish).2)
  `sublist_of`
  to <$> sends
           (events_since parish
              (sendAnnouncementEmailToUsers quiet_env "Notice" "<p>hi</p>" []
                                            None parish).2)
  /\ to <$> sends
              (events_since parish
                 (sendAnnouncementEmailToUsers quiet_env "Notice" "<p>hi</p>"
                                               [] (Some "choir") parish).2)
     = ["ana@example.org"]
  /\ to <$> sends
              (events_since parish
                 (sendAnnouncementEmailToUsers quiet_env "Notice" "<p>hi</p>"
                                               [] None parish).2)
     = ["ana@example.org"; "cora@example.org"].
Proof.
  split; [|split; vm_compute; reflexivity].
  apply (group_recipients_within_public quiet_env quiet_env "Notice"
           "<p>hi</p>" [] (Some "choir") parish _ _ _ _
           (surjective_pairing _) (surjective_pairing _)).
  vm_compute. repeat constructor; by intros [].
Defined.

Lemma post_announcement_answers_witness :
  exists j w',
    post_announcement refusing_store_env (plain_request "u2") parish
    = (Returned j, w')
    /\ Response.status j = 500
    /\ Response.data j = None
    /\ Response.error j = Some "permission denied"
    /\ announcement w' = announcement parish
    /\ last (events_since parish w')
       = Some (EvConsoleError "Error creating announcement:"
                              "permission denied").
Proof.
  assert (Hr : (createAnnouncements refusing_store_env
                  (mkData (body_title (plain_request "u2"))
                          (body_content (plain_request "u2"))
                          (process_files (req_files (plain_request "u2"))))
                  (user_id (plain_request "u2"))
                  (truthy (body_groupId (plain_request "u2"))) parish).1
               = Thrown (mkError "permission denied"))
    by (vm_compute; reflexivity).
  pose proof (surjective_pairing
                (createAnnouncements refusing_store_env
                   (mkData (body_title (plain_request "u2"))
                           (body_content (plain_request "u2"))
                           (process_files (req_files (plain_request "u2"))))
                   (user_id (plain_request "u2"))
                   (truthy (body_groupId (plain_request "u2"))) parish))
    as Hrun.
  rewrite Hr in Hrun.
  destruct (post_announcement_answers refusing_store_env (plain_request "u2")
              parish _ _ Hrun)
    as (j & w' & Hpost & Hs & _ & Hd & He & Ha & _ & Hev).
  exists j, w'. split; [exact Hpost|]. split; [exact Hs|].
  split; [exact Hd|]. split; [exact He|]. split.
  - rewrite Ha. vm_compute. reflexivity.
  - rewrite Hev. apply last_snoc.
Defined.
